(** * NOOBIE AI news aggregation: a shallow embedding of [news_fetcher.py]

    The development follows [claud_agent/news_fetcher.py]: the [NewsArticle]
    record, the retrying request helper, the two per-source fetchers, the
    mock generator, [fetch_trending_news], [_deduplicate_articles] and the
    two cache functions.  Python's library (string methods, floats, the
    clock, the network, the random generator) is an interface; the code of
    the repository is written out over it. *)

From Stdlib Require Import ZArith QArith Lia Lqa Ascii String.
From Stdlib Require Floats Uint63.
From stdpp Require Import gmap strings list fin_maps pretty.

Set Warnings "-register-all,-clear-no-such-hyp".
Local Open Scope Z_scope.

(** ** Python values and exceptions *)

(** The exceptions that can leave one of the modelled functions. *)
Inductive exn :=
  | ZeroDivisionError
  | AttributeError
  | TypeError
  | IndexError
  | FileNotFoundError.

Inductive result (A : Type) :=
  | Ok (a : A)
  | Err (e : exn).
Arguments Ok {A} a.
Arguments Err {A} e.

(** The first six fields of a [time.struct_time]. *)
Record struct_time := {
  tm_year : Z; tm_mon : Z; tm_mday : Z;
  tm_hour : Z; tm_min : Z; tm_sec : Z
}.

(** The pure part of Python's library the module relies on.  [float] is
    Python's float; [str_lower], [str_split] and [str_title] are
    [str.lower()], [str.split()] (no argument) and [str.title()];
    [urlencode_q q] is [urlencode({'q': q})]; [datetime_isoformat tm] is
    [datetime( *tm[:6]).isoformat()], [None] when the constructor raises
    [ValueError]. *)
Class PyLib := {
  float : Type;
  float_of_Z : Z -> float;
  float_add : float -> float -> float;
  float_sub : float -> float -> float;
  float_ltb : float -> float -> bool;
  float_is_zero : float -> bool;
  str_lower : string -> string;
  str_split : string -> list string;
  str_title : string -> string;
  urlencode_q : string -> string;
  datetime_isoformat : struct_time -> option string
}.

(** A text field of an upstream JSON object: the key is absent, or it
    holds [null], or it holds a string. *)
Inductive field :=
  | Absent
  | Null
  | Text (s : string).

Section Values.
Context {py : PyLib}.

(** A value as [json.load] produces it and as a dataclass field can hold
    it: Python checks no annotation at run time, so a field of
    [NewsArticle] holds whatever the constructor was given. *)
Inductive jval :=
  | JNull
  | JBool (b : bool)
  | JInt (z : Z)
  | JFloat (f : float)
  | JStr (s : string)
  | JList (l : list jval)
  | JDict (d : gmap string jval).

(** Truth value of an object, as [if x] and [x and y] test it. *)
Definition truthy (v : jval) : bool :=
  match v with
  | JNull => false
  | JBool b => b
  | JInt z => negb (z =? 0)
  | JFloat f => negb (float_is_zero f)
  | JStr s => negb (String.eqb s "")
  | JList l => match l with [] => false | _ => true end
  | JDict d => negb (bool_decide (size d = 0%nat))
  end.

(** [d.get(k, default)] on an upstream text field. *)
Definition get_with (f : field) (dflt : jval) : jval :=
  match f with
  | Absent => dflt
  | Null => JNull
  | Text s => JStr s
  end.

(** [d.get(k, 'text')] and [d.get(k)]. *)
Definition get_str (f : field) (dflt : string) : jval := get_with f (JStr dflt).
Definition get_opt (f : field) : jval := get_with f JNull.

(** [l[:n]] for a Python int [n]: a negative [n] counts from the end. *)
Definition slice_to {A : Type} (l : list A) (n : Z) : list A :=
  if 0 <=? n then take (Z.to_nat n) l
  else take (Z.to_nat (Z.of_nat (length l) + n)) l.

(** ** The article record *)

Record NewsArticle := {
  title : jval;
  summary : jval;
  url : jval;
  published_date : jval;
  source : jval;
  category : jval;
  content : jval;
  author : jval;
  image_url : jval;
  sentiment_score : jval
}.

(** [NewsArticle.to_dict] *)
Definition to_dict (self : NewsArticle) : gmap string jval :=
  <["title" := title self]>
  (<["summary" := summary self]>
  (<["url" := url self]>
  (<["published_date" := published_date self]>
  (<["source" := source self]>
  (<["category" := category self]>
  (<["content" := content self]>
  (<["author" := author self]>
  (<["image_url" := image_url self]>
  (<["sentiment_score" := sentiment_score self]> ∅))))))))).

(** ** Deduplication *)

(** [len(title_words & seen_words) / len(title_words | seen_words) > 0.7].
    The quotient of the two sizes is a float and [0.7] is the float next
    to 7/10, just below it; for sets of fewer than 10^15 words the float
    comparison holds exactly when [10 * inter > 7 * union], which is how it
    is written here.  The division raises when the union is empty. *)
Definition jaccard_exceeds (title_words seen_words : gset string) : result bool :=
  let inter := Z.of_nat (size (title_words ∩ seen_words)) in
  let union := Z.of_nat (size (title_words ∪ seen_words)) in
  if union =? 0 then Err ZeroDivisionError
  else Ok (7 * union <? 10 * inter).

(** The inner loop, [for seen_title in seen_titles], with its [break].
    [seen_titles] is a Python set and hands out its elements in an order of
    its own; the loop is written over a list of them, and its outcome is
    the same for every order ([is_duplicate_of_Permutation] below). *)
Fixpoint is_duplicate_of (title_words : gset string) (seen : list string)
  : result bool :=
  match seen with
  | [] => Ok false
  | seen_title :: rest =>
      let seen_words : gset string := list_to_set (str_split seen_title) in
      match jaccard_exceeds title_words seen_words with
      | Err e => Err e
      | Ok true => Ok true
      | Ok false => is_duplicate_of title_words rest
      end
  end.

(** The outer loop, [for article in articles], over the two accumulators
    [unique_articles] and [seen_titles].  A title that is not a string has
    no [lower]. *)
Fixpoint dedup_loop (articles unique_articles : list NewsArticle)
    (seen_titles : gset string) : result (list NewsArticle) :=
  match articles with
  | [] => Ok unique_articles
  | article :: rest =>
      match title article with
      | JStr t =>
          let title_words : gset string := list_to_set (str_split (str_lower t)) in
          match is_duplicate_of title_words (elements seen_titles) with
          | Err e => Err e
          | Ok true => dedup_loop rest unique_articles seen_titles
          | Ok false =>
              dedup_loop rest (unique_articles ++ [article])
                         (seen_titles ∪ {[str_lower t]})
          end
      | _ => Err AttributeError
      end
  end.

(** [NewsFetcher._deduplicate_articles] *)
Definition _deduplicate_articles (articles : list NewsArticle)
  : result (list NewsArticle) :=
  dedup_loop articles [] ∅.

(** The words of a title, as the loop compares them: the set of the
    lower-cased title's whitespace-separated words. *)
Definition tokens (t : string) : gset string :=
  list_to_set (str_split (str_lower t)).

(** An article whose title is a string with at least one word. *)
Definition has_words (article : NewsArticle) : Prop :=
  ∃ t, title article = JStr t ∧ tokens t ≠ ∅.

(** The Jaccard similarity of two word sets, the size of the intersection
    over the size of the union; it has no value when both sets are empty. *)
Definition jaccard (x y : gset string) : option Q :=
  let union := size (x ∪ y) in
  if bool_decide (union = 0%nat) then None
  else Some (Z.of_nat (size (x ∩ y)) # Pos.of_nat union)%Q.

(** [b] is a near-duplicate of [a]: both titles are strings and the
    similarity test of the loop, with [b] as the article and [a] as the
    accepted one, says yes. *)
Definition near_duplicate (a b : NewsArticle) : Prop :=
  ∃ ta tb, title a = JStr ta ∧ title b = JStr tb ∧
           jaccard_exceeds (tokens tb) (tokens ta) = Ok true.

(** The set [seen_titles] that goes with a list of accepted articles. *)
Definition seen_of (accepted : list NewsArticle) : gset string :=
  list_to_set (omap (fun article => match title article with
                                    | JStr t => Some (str_lower t)
                                    | _ => None
                                    end) accepted).

(** A field that holds a non-empty string. *)
Definition nonempty_text (v : jval) : Prop :=
  ∃ str, v = JStr str ∧ str ≠ "".

(** The invariant of a retained article: title and summary are non-empty
    strings. *)
Definition has_text (article : NewsArticle) : Prop :=
  nonempty_text (title article) ∧ nonempty_text (summary article).

End Values.

(** ** Python's library on ASCII text

    The functions used to run the model on concrete inputs: on text made of
    ASCII characters these are [str.lower], [str.split], [str.title],
    [urlencode] of one pair and [datetime.isoformat]. *)
Module Ascii7.

Definition is_upper (c : ascii) : bool :=
  let n := nat_of_ascii c in (65 <=? n)%nat && (n <=? 90)%nat.
Definition is_lower (c : ascii) : bool :=
  let n := nat_of_ascii c in (97 <=? n)%nat && (n <=? 122)%nat.
Definition to_lower (c : ascii) : ascii :=
  if is_upper c then ascii_of_nat (nat_of_ascii c + 32) else c.
Definition to_upper (c : ascii) : ascii :=
  if is_lower c then ascii_of_nat (nat_of_ascii c - 32) else c.
(** Whitespace for [str.split()]: tab to carriage return, the four
    separators FS, GS, RS, US, and the space. *)
Definition is_space (c : ascii) : bool :=
  let n := nat_of_ascii c in
  ((9 <=? n)%nat && (n <=? 13)%nat) || ((28 <=? n)%nat && (n <=? 32)%nat).

Fixpoint lower (s : string) : string :=
  match s with
  | EmptyString => EmptyString
  | String c r => String (to_lower c) (lower r)
  end.

(** [split_go cur s]: [cur] is the word being read, reversed. *)
Fixpoint split_go (cur : list ascii) (s : string) : list string :=
  let flush := match cur with
               | [] => []
               | _ => [string_of_list_ascii (rev cur)]
               end in
  match s with
  | EmptyString => flush
  | String c r =>
      if is_space c then flush ++ split_go [] r
      else split_go (c :: cur) r
  end.
Definition split (s : string) : list string := split_go [] s.

(** [title_go prev s]: [prev] tells whether the previous character is a
    letter. *)
Fixpoint title_go (prev : bool) (s : string) : string :=
  match s with
  | EmptyString => EmptyString
  | String c r =>
      let cased := is_upper c || is_lower c in
      String (if prev then to_lower c else to_upper c) (title_go cased r)
  end.
Definition title_case (s : string) : string := title_go false s.

(** [urllib.parse.quote_plus]: letters, digits and [_.-~] stay, a space
    becomes [+], any other character its [%XX] code. *)
Definition is_digit (c : ascii) : bool :=
  let n := nat_of_ascii c in (48 <=? n)%nat && (n <=? 57)%nat.
Definition is_unreserved (c : ascii) : bool :=
  is_upper c || is_lower c || is_digit c
  || Ascii.eqb c "_" || Ascii.eqb c "." || Ascii.eqb c "-" || Ascii.eqb c "~".
Definition hex_digit (n : nat) : ascii :=
  nth n (list_ascii_of_string "0123456789ABCDEF") "0"%char.
Fixpoint quote_plus (s : string) : string :=
  match s with
  | EmptyString => EmptyString
  | String c r =>
      if is_unreserved c then String c (quote_plus r)
      else if Ascii.eqb c " " then String "+" (quote_plus r)
      else String "%" (String (hex_digit (nat_of_ascii c / 16))
                        (String (hex_digit (nat_of_ascii c mod 16)) (quote_plus r)))
  end.

(** [datetime(y, m, d, H, M, S).isoformat()]; the constructor raises
    [ValueError] outside the calendar. *)
Definition is_leap (y : Z) : bool :=
  ((y mod 4 =? 0) && negb (y mod 100 =? 0)) || (y mod 400 =? 0).
Definition days_in_month (y m : Z) : Z :=
  if m =? 2 then (if is_leap y then 29 else 28)
  else if (m =? 4) || (m =? 6) || (m =? 9) || (m =? 11) then 30 else 31.
Definition pad (width : nat) (z : Z) : string :=
  let digits : string := pretty z in
  string_of_list_ascii (repeat "0"%char (width - String.length digits)) +:+ digits.
Definition isoformat (tm : struct_time) : option string :=
  if (1 <=? tm_year tm) && (tm_year tm <=? 9999)
     && (1 <=? tm_mon tm) && (tm_mon tm <=? 12)
     && (1 <=? tm_mday tm) && (tm_mday tm <=? days_in_month (tm_year tm) (tm_mon tm))
     && (0 <=? tm_hour tm) && (tm_hour tm <=? 23)
     && (0 <=? tm_min tm) && (tm_min tm <=? 59)
     && (0 <=? tm_sec tm) && (tm_sec tm <=? 59)
  then Some (pad 4 (tm_year tm) +:+ "-" +:+ pad 2 (tm_mon tm) +:+ "-"
             +:+ pad 2 (tm_mday tm) +:+ "T" +:+ pad 2 (tm_hour tm) +:+ ":"
             +:+ pad 2 (tm_min tm) +:+ ":" +:+ pad 2 (tm_sec tm))
  else None.

End Ascii7.

(** ** Configuration and upstream data *)

(** The fields of [NoobieConfig] that [NewsFetcher] reads. *)
Record NoobieConfig := {
  news_api_key : option string;
  max_articles : Z;
  mock_mode : bool;
  news_categories : list string
}.

(** [bool(self.config.news_api_key)]: [None] and the empty string are false. *)
Definition has_api_key (cfg : NoobieConfig) : bool :=
  match news_api_key cfg with
  | Some k => negb (String.eqb k "")
  | None => false
  end.

(** The query parameters of a GNews request. *)
Record gnews_params := {
  q : string; lang : string; country : string; max : Z; apikey : string
}.

(** One element of the [articles] array of a GNews response, in the
    provider's schema: every field is text or [null]; [source] is an object
    with a [name], or [null]. *)
Inductive source_field :=
  | SourceAbsent
  | SourceNull
  | SourceObject (name : field).
Record article_data := {
  g_title : field;
  g_description : field;
  g_url : field;
  g_publishedAt : field;
  g_source : source_field;
  g_content : field;
  g_author : field;
  g_image : field
}.
(** The JSON body of a response; [g_articles] is [None] when the body has
    no ['articles'] key (the empty body among them). *)
Record gnews_data := { g_articles : option (list article_data) }.

(** What [session.get] followed by [raise_for_status] and [json] gives: the
    decoded body, or an exception of the [RequestException] family. *)
Inductive http_outcome :=
  | HttpJson (data : gnews_data)
  | RequestException.

(** What [feedparser.parse] gives. *)
Record feed_entry := {
  e_title : field;
  e_summary : field;
  e_description : field;
  e_link : field;
  e_published : field;
  e_published_parsed : option struct_time;
  e_author : field
}.
Record parsed_feed := {
  bozo : bool;
  entries : list feed_entry;
  feed_title : field
}.

(** ** The outside world *)

(** The effectful part of Python's library, over a state [W] of the world:
    the HTTP session, [feedparser.parse] ([None] when it raises),
    [time.time], [time.sleep], [random.uniform] and [datetime.now()]
    followed by [isoformat()] or [strftime(fmt)]. *)
Class World {py : PyLib} := {
  W : Type;
  session_get : string -> gnews_params -> W -> http_outcome * W;
  feedparser_parse : string -> W -> option parsed_feed * W;
  time_time : W -> float * W;
  time_sleep : float -> W -> W;
  random_uniform : Z -> Z -> W -> float * W;
  datetime_now_isoformat : W -> string * W;
  datetime_now_strftime : string -> W -> string * W
}.

Section Fetcher.
Context {py : PyLib} {wd : World}.

(** What a run does to the outside, in order. *)
Inductive event :=
  | EvGet (url : string) (params : gnews_params) (attempt : Z) (succeeded : bool)
  | EvBackoff (base : Z) (jitter : float)
  | EvThrottle (sleep_time : float)
  | EvFeed (feed_url : string).

(** The mutable state: the world, the fetcher's [last_request_time], and
    the files, each holding the JSON document written to it ([json.dump]
    followed by [json.load] gives the document back). *)
Record State := {
  world : W;
  last_request_time : float;
  files : gmap string jval
}.

(** A computation: from a state to a result or an exception, the next
    state, and the events of the computation. *)
Definition M (A : Type) : Type := State -> result A * State * list event.

Definition ret {A} (a : A) : M A := fun s => (Ok a, s, []).
Definition raise {A} (e : exn) : M A := fun s => (Err e, s, []).
Definition bind {A B} (m : M A) (k : A -> M B) : M B := fun s =>
  match m s with
  | (Ok a, s1, ev1) =>
      match k a s1 with
      | (r, s2, ev2) => (r, s2, ev1 ++ ev2)
      end
  | (Err e, s1, ev1) => (Err e, s1, ev1)
  end.
Definition lift {A} (r : result A) : M A := fun s => (r, s, []).
Definition emit (e : event) : M unit := fun s => (Ok tt, s, [e]).
(** A call into the world that returns a value. *)
Definition call {A} (f : W -> A * W) : M A := fun s =>
  match f (world s) with
  | (a, w) => (Ok a, {| world := w; last_request_time := last_request_time s;
                        files := files s |}, [])
  end.

Notation "'let!' x ':=' m 'in' k" := (bind m (fun x => k))
  (at level 10, x name, m at level 200, k at level 200).
Notation "'run!' m 'in' k" := (bind m (fun _ => k))
  (at level 10, m at level 200, k at level 200).

Definition result_of {A} (m : M A) (s : State) : result A := (m s).1.1.
Definition state_of {A} (m : M A) (s : State) : State := (m s).1.2.
Definition events_of {A} (m : M A) (s : State) : list event := (m s).2.

(** [range(n)] *)
Definition range (n : Z) : list Z := map Z.of_nat (seq 0 (Z.to_nat n)).

(** ** Rate limiting and retries *)

Definition min_request_interval : float := float_of_Z 1.
Definition gnews_base_url : string := "https://gnews.io/api/v4/search".

Definition sleep_throttle (sleep_time : float) : M unit := fun s =>
  (Ok tt, {| world := time_sleep sleep_time (world s);
             last_request_time := last_request_time s; files := files s |},
   [EvThrottle sleep_time]).

Definition set_last_request_time (t : float) : M unit := fun s =>
  (Ok tt, {| world := world s; last_request_time := t; files := files s |}, []).

(** [NewsFetcher._rate_limit] *)
Definition _rate_limit : M unit :=
  let! current_time := call time_time in
  let! last := (fun s => (Ok (last_request_time s), s, [])) in
  let time_since_last := float_sub current_time last in
  run! (if float_ltb time_since_last min_request_interval
        then sleep_throttle (float_sub min_request_interval time_since_last)
        else ret tt) in
  let! t := call time_time in
  set_last_request_time t.

(** [time.sleep(wait_time)] with [wait_time = (2 ** attempt) + jitter]. *)
Definition sleep_backoff (base : Z) (jitter : float) : M unit := fun s =>
  (Ok tt, {| world := time_sleep (float_add (float_of_Z base) jitter) (world s);
             last_request_time := last_request_time s; files := files s |},
   [EvBackoff base jitter]).

(** [session.get(url, params=params, timeout=30)], [raise_for_status()]
    and [json()]. *)
Definition request (url : string) (params : gnews_params) (attempt : Z)
  : M http_outcome :=
  let! outcome := call (session_get url params) in
  run! emit (EvGet url params attempt
                   match outcome with HttpJson _ => true | RequestException => false end) in
  ret outcome.

(** The body of [for attempt in range(max_retries)]. *)
Fixpoint retry_loop (url : string) (params : gnews_params) (max_retries : Z)
    (attempts : list Z) : M (option gnews_data) :=
  match attempts with
  | [] => ret None
  | attempt :: rest =>
      run! _rate_limit in
      let! outcome := request url params attempt in
      match outcome with
      | HttpJson data => ret (Some data)
      | RequestException =>
          let! jitter := call (random_uniform 0 1) in
          run! (if attempt <? max_retries - 1
                then sleep_backoff (2 ^ attempt) jitter
                else ret tt) in
          retry_loop url params max_retries rest
      end
  end.

(** [NewsFetcher._make_request_with_retry] *)
Definition _make_request_with_retry (url : string) (params : gnews_params)
    (max_retries : Z) : M (option gnews_data) :=
  retry_loop url params max_retries (range max_retries).

(** ** The keyed source *)

(** The [NewsArticle(...)] built from one element of the response; [None]
    when building it raises: [source] is [null], which has no [get], and
    the element is skipped. *)
Definition gnews_article (query : string) (article_data : article_data)
  : option NewsArticle :=
  let source_name :=
    match g_source article_data with
    | SourceAbsent => Some (JStr "Unknown")
    | SourceObject name => Some (get_str name "Unknown")
    | SourceNull => None
    end in
  match source_name with
  | Some source_name =>
      Some {| title := get_str (g_title article_data) "";
              summary := get_str (g_description article_data) "";
              url := get_str (g_url article_data) "";
              published_date := get_str (g_publishedAt article_data) "";
              source := source_name;
              category := JStr query;
              content := get_opt (g_content article_data);
              author := get_opt (g_author article_data);
              image_url := get_opt (g_image article_data);
              sentiment_score := JNull |}
  | None => None
  end.

(** [for article_data in data['articles'][:max_results]] *)
Fixpoint gnews_loop (query : string) (items : list article_data)
    (articles : list NewsArticle) : list NewsArticle :=
  match items with
  | [] => articles
  | article_data :: rest =>
      match gnews_article query article_data with
      | Some article =>
          if truthy (title article) && truthy (summary article)
          then gnews_loop query rest (articles ++ [article])
          else gnews_loop query rest articles
      | None => gnews_loop query rest articles
      end
  end.

(** [NewsFetcher.fetch_gnews] *)
Definition fetch_gnews (config : NoobieConfig) (query : string)
    (max_results : Z) : M (list NewsArticle) :=
  match news_api_key config with
  | Some key =>
      if String.eqb key "" then ret []
      else
        let params := {| q := query; lang := "en"; country := "us";
                         max := Z.min max_results 10; apikey := key |} in
        let! data := _make_request_with_retry gnews_base_url params 3 in
        match data with
        | None => ret []
        | Some data =>
            match g_articles data with
            | None => ret []
            | Some items => ret (gnews_loop query (slice_to items max_results) [])
            end
        end
  | None => ret []
  end.

(** ** The feed source *)

(** The [NewsArticle(...)] built from one entry; [None] when building it
    raises (the date does not make a [datetime]) and the entry is skipped. *)
Definition rss_article (feed : parsed_feed) (category : string)
    (entry : feed_entry) : option NewsArticle :=
  let pub_date :=
    match e_published_parsed entry with
    | Some tm => JStr <$> datetime_isoformat tm
    | None => Some (get_str (e_published entry) "")
    end in
  match pub_date with
  | Some pub_date =>
      Some {| title := get_str (e_title entry) "";
              summary := get_with (e_summary entry)
                                  (get_str (e_description entry) "");
              url := get_str (e_link entry) "";
              published_date := pub_date;
              source := get_str (feed_title feed) "RSS Feed";
              category := JStr category;
              content := JNull;
              author := get_opt (e_author entry);
              image_url := JNull;
              sentiment_score := JNull |}
  | None => None
  end.

(** [for entry in feed.entries[:max_results]] *)
Fixpoint rss_loop (feed : parsed_feed) (category : string)
    (items : list feed_entry) (articles : list NewsArticle) : list NewsArticle :=
  match items with
  | [] => articles
  | entry :: rest =>
      match rss_article feed category entry with
      | Some article =>
          if truthy (title article) && truthy (summary article)
          then rss_loop feed category rest (articles ++ [article])
          else rss_loop feed category rest articles
      | None => rss_loop feed category rest articles
      end
  end.

(** [NewsFetcher.fetch_rss_feed] *)
Definition fetch_rss_feed (feed_url category : string) (max_results : Z)
  : M (list NewsArticle) :=
  run! _rate_limit in
  let! feed := call (feedparser_parse feed_url) in
  run! emit (EvFeed feed_url) in
  match feed with
  | Some feed =>
      ret (rss_loop feed category (slice_to (entries feed) max_results) [])
  | None => ret []
  end.

Definition google_news_url (query : string) : string :=
  "https://news.google.com/rss/search?" +:+ urlencode_q query
    +:+ "&hl=en-US&gl=US&ceid=US:en".

(** [NewsFetcher.fetch_google_news_rss] *)
Definition fetch_google_news_rss (query : string) (max_results : Z)
  : M (list NewsArticle) :=
  fetch_rss_feed (google_news_url query) query max_results.

(** ** Mock articles *)

Record mock_template := { t_title : string; t_summary : string; t_source : string }.

Definition mock_templates (category : string) : list mock_template :=
  [ {| t_title := "Breaking: Major Development in " +:+ str_title category;
       t_summary := "Recent developments in " +:+ category
         +:+ " show significant changes that could impact global markets and policy decisions.";
       t_source := "Mock News Network" |};
    {| t_title := str_title category +:+ " Trends Show Positive Growth";
       t_summary := "Analysis of current " +:+ category
         +:+ " trends indicates sustained growth and positive outlook for the coming months.";
       t_source := "Global Analysis Today" |};
    {| t_title := "Expert Commentary on " +:+ str_title category +:+ " Developments";
       t_summary := "Leading experts weigh in on recent " +:+ category
         +:+ " developments and their potential implications.";
       t_source := "Expert Insights" |} ].

(** [for i in range(min(count, len(mock_templates)))] *)
Fixpoint mock_loop (category : string) (indices : list Z)
    (articles : list NewsArticle) : M (list NewsArticle) :=
  match indices with
  | [] => ret articles
  | i :: rest =>
      match mock_templates category !! Z.to_nat i with
      | Some template =>
          let! now := call datetime_now_isoformat in
          let article :=
            {| title := JStr (t_title template);
               summary := JStr (t_summary template);
               url := JStr ("https://mock-news.com/article-" +:+ pretty (i + 1));
               published_date := JStr now;
               source := JStr (t_source template);
               category := JStr category;
               content := JStr ("Full content for " +:+ t_title template +:+ "...");
               author := JNull;
               image_url := JNull;
               sentiment_score := JNull |} in
          mock_loop category rest (articles ++ [article])
      | None => raise IndexError
      end
  end.

(** [NewsFetcher.generate_mock_articles] *)
Definition generate_mock_articles (config : NoobieConfig) (category : string)
    (count : Z) : M (list NewsArticle) :=
  if negb (mock_mode config) then ret []
  else
    mock_loop category
      (range (Z.min count (Z.of_nat (length (mock_templates category))))) [].

(** ** The pipeline *)

(** The body of [for category in self.config.news_categories]: the
    articles of one category. *)
Definition fetch_category (config : NoobieConfig) (category : string)
  : M (list NewsArticle) :=
  let category_articles := [] in
  let! category_articles :=
    (if has_api_key config
     then let! gnews_articles := fetch_gnews config category 3 in
          ret (category_articles ++ gnews_articles)
     else ret category_articles) in
  let! category_articles :=
    (if Z.of_nat (length category_articles) <? 2
     then let! rss_articles := fetch_google_news_rss category 3 in
          ret (category_articles ++ rss_articles)
     else ret category_articles) in
  let! category_articles :=
    (if (Z.of_nat (length category_articles) <? 1) && mock_mode config
     then let! mock_articles := generate_mock_articles config category 2 in
          ret (category_articles ++ mock_articles)
     else ret category_articles) in
  ret category_articles.

Fixpoint categories_loop (config : NoobieConfig) (categories : list string)
    (all_articles : list NewsArticle) : M (list NewsArticle) :=
  match categories with
  | [] => ret all_articles
  | category :: rest =>
      let! category_articles := fetch_category config category in
      categories_loop config rest (all_articles ++ category_articles)
  end.

(** [NewsFetcher.fetch_trending_news] *)
Definition fetch_trending_news (config : NoobieConfig) : M (list NewsArticle) :=
  let! all_articles := categories_loop config (news_categories config) [] in
  let! unique_articles := lift (_deduplicate_articles all_articles) in
  let final_articles := slice_to unique_articles (max_articles config) in
  ret final_articles.

(** ** The cache file *)

Definition field_names : gset string :=
  list_to_set ["title"; "summary"; "url"; "published_date"; "source";
               "category"; "content"; "author"; "image_url"; "sentiment_score"].

(** [NewsArticle( **article_data)]: the generated [__init__] takes the ten
    fields as keywords, the last four defaulting to [None]; an unknown
    keyword, a missing required one, or an argument that is not a mapping
    raises [TypeError]. *)
Definition NewsArticle_kwargs (article_data : jval) : result NewsArticle :=
  match article_data with
  | JDict kw =>
      if bool_decide (dom kw ⊆ field_names) then
        match kw !! "title", kw !! "summary", kw !! "url",
              kw !! "published_date", kw !! "source", kw !! "category" with
        | Some t, Some s, Some u, Some p, Some src, Some c =>
            Ok {| title := t; summary := s; url := u; published_date := p;
                  source := src; category := c;
                  content := default JNull (kw !! "content");
                  author := default JNull (kw !! "author");
                  image_url := default JNull (kw !! "image_url");
                  sentiment_score := default JNull (kw !! "sentiment_score") |}
        | _, _, _, _, _, _ => Err TypeError
        end
      else Err TypeError
  | _ => Err TypeError
  end.

(** [for article_data in ...: articles.append(NewsArticle( **article_data))] *)
Fixpoint cache_loop (items : list jval) (articles : list NewsArticle)
  : result (list NewsArticle) :=
  match items with
  | [] => Ok articles
  | article_data :: rest =>
      match NewsArticle_kwargs article_data with
      | Ok article => cache_loop rest (articles ++ [article])
      | Err e => Err e
      end
  end.

(** The [try] block of [load_articles_cache].  Iterating over a value that
    is not a list either raises or, for an empty dict or string, runs the
    body no times; a non-empty dict or string yields strings, which are no
    mappings. *)
Definition load_try (cache_file : string) (s : State)
  : result (list NewsArticle) :=
  match files s !! cache_file with
  | Some (JDict cache_data) =>
      match default (JList []) (cache_data !! "articles") with
      | JList items => cache_loop items []
      | JDict d => if bool_decide (size d = 0%nat) then Ok [] else Err TypeError
      | JStr str => if String.eqb str "" then Ok [] else Err TypeError
      | _ => Err TypeError
      end
  | Some _ => Err AttributeError
  | None => Err FileNotFoundError
  end.

(** [NewsFetcher.load_articles_cache]: any exception gives the empty list. *)
Definition load_articles_cache (cache_file : string) : M (list NewsArticle) :=
  fun s =>
    match load_try cache_file s with
    | Ok articles => (Ok articles, s, [])
    | Err _ => (Ok [], s, [])
    end.

(** [open(cache_file, 'w')] and [json.dump(cache_data, f, ...)] *)
Definition write_json (path : string) (doc : jval) : M unit := fun s =>
  (Ok tt, {| world := world s; last_request_time := last_request_time s;
             files := <[path := doc]> (files s) |}, []).

(** [NewsFetcher.save_articles_cache]; [cache_file] is [None] by default. *)
Definition save_articles_cache (articles : list NewsArticle)
    (cache_file : option string) : M string :=
  let! cache_file :=
    (match cache_file with
     | Some f =>
         if String.eqb f ""
         then let! day := call (datetime_now_strftime "%Y-%m-%d") in
              ret ("news_cache_" +:+ day +:+ ".json")
         else ret f
     | None =>
         let! day := call (datetime_now_strftime "%Y-%m-%d") in
         ret ("news_cache_" +:+ day +:+ ".json")
     end) in
  let! timestamp := call datetime_now_isoformat in
  let cache_data : gmap string jval :=
    <["timestamp" := JStr timestamp]>
    (<["count" := JInt (Z.of_nat (length articles))]>
    (<["articles" := JList (map (fun article => JDict (to_dict article)) articles)]> ∅)) in
  run! write_json cache_file (JDict cache_data) in
  ret cache_file.

(** ** Reading a run *)

(** The request attempts of a run, each with its number and whether it
    succeeded; the base delays of the back-off sleeps; the feeds parsed. *)
Definition attempts_of (ev : list event) : list (Z * bool) :=
  omap (fun e => match e with
                 | EvGet _ _ attempt ok => Some (attempt, ok)
                 | _ => None
                 end) ev.
Definition backoff_bases (ev : list event) : list Z :=
  omap (fun e => match e with EvBackoff base _ => Some base | _ => None end) ev.
Definition feed_calls (ev : list event) : list string :=
  omap (fun e => match e with EvFeed feed_url => Some feed_url | _ => None end) ev.
Definition failed_attempts (ev : list event) : list (Z * bool) :=
  filter (fun x => x.2 = false) (attempts_of ev).

(** An event list with no request, no back-off and no feed in it. *)
Definition quiet (ev : list event) : Prop :=
  attempts_of ev = [] ∧ backoff_bases ev = [] ∧ feed_calls ev = [].

(** The shape of the attempts of one call of [fetch_gnews] that returns
    [articles]: at most three, numbered from 0; one sleep of base 1 after
    the first failure and one of base 2 after the second, none after the
    third; and no article when every attempt failed. *)
Definition retry_shape (ev : list event) (articles : list NewsArticle) : Prop :=
  (length (attempts_of ev) ≤ 3)%nat ∧
  map fst (attempts_of ev) = range (Z.of_nat (length (attempts_of ev))) ∧
  backoff_bases ev = take (length (failed_attempts ev)) [2 ^ 0; 2 ^ 1] ∧
  (Forall (fun x => x.2 = false) (attempts_of ev) → articles = []).

(** A mock article built from the template of index [i] for its own
    category. *)
Definition from_template (i : Z) (article : NewsArticle) : Prop :=
  ∃ t, mock_templates (match category article with JStr c => c | _ => "" end)
         !! Z.to_nat i = Some t ∧
       title article = JStr (t_title t) ∧
       summary article = JStr (t_summary t) ∧
       source article = JStr (t_source t).

(** The articles each category contributes, in the order of the
    categories, each category fetched in the state the previous one left. *)
Fixpoint topic_results (config : NoobieConfig) (categories : list string)
    (s : State) : list (list NewsArticle) :=
  match categories with
  | [] => []
  | category :: rest =>
      match fetch_category config category s with
      | (Ok category_articles, s1, _) =>
          category_articles :: topic_results config rest s1
      | (Err _, _, _) => []
      end
  end.

(** The categories for which the feed is the fallback: those for which
    the keyed source gives fewer than two articles when their turn comes. *)
Fixpoint fallback_topics (config : NoobieConfig) (categories : list string)
    (s : State) : list string :=
  match categories with
  | [] => []
  | category :: rest =>
      let keyed := match result_of (fetch_gnews config category 3) s with
                   | Ok articles => articles
                   | Err _ => []
                   end in
      (if Z.of_nat (length keyed) <? 2 then [category] else [])
        ++ fallback_topics config rest
             (state_of (fetch_category config category) s)
  end.

End Fetcher.

(** ** A scripted world

    A concrete library and world on which the model runs: text is ASCII,
    times are whole seconds, the HTTP session answers from a script (and
    fails once the script is used up), feeds are looked up by address, the
    random generator returns its lower bound and the date does not move. *)
Module Script.

Definition py : PyLib :=
  {| float := Z;
     float_of_Z := fun z => z;
     float_add := Z.add;
     float_sub := Z.sub;
     float_ltb := Z.ltb;
     float_is_zero := Z.eqb 0;
     str_lower := Ascii7.lower;
     str_split := Ascii7.split;
     str_title := Ascii7.title_case;
     urlencode_q := fun query => "q=" +:+ Ascii7.quote_plus query;
     datetime_isoformat := Ascii7.isoformat |}.

Record script := {
  responses : list http_outcome;
  feeds : list (string * parsed_feed);
  clock : Z
}.

Fixpoint find_feed (feed_url : string) (l : list (string * parsed_feed))
  : option parsed_feed :=
  match l with
  | [] => None
  | (u, f) :: rest => if String.eqb u feed_url then Some f else find_feed feed_url rest
  end.

Definition wd : @World py :=
  {| W := script;
     session_get := fun _ _ w =>
       match responses w with
       | [] => (RequestException, w)
       | o :: rest => (o, {| responses := rest; feeds := feeds w; clock := clock w |})
       end;
     feedparser_parse := fun feed_url w => (find_feed feed_url (feeds w), w);
     time_time := fun w => ((clock w : @float py), w);
     time_sleep := fun (d : @float py) w =>
       {| responses := responses w; feeds := feeds w; clock := clock w + d |};
     random_uniform := fun a _ w => ((a : @float py), w);
     datetime_now_isoformat := fun w => ("2025-01-01T00:00:00", w);
     datetime_now_strftime := fun _ w => ("2025-01-01", w) |}.

Definition init (rs : list http_outcome) (fs : list (string * parsed_feed))
  : @State py wd :=
  {| world := ({| responses := rs; feeds := fs; clock := 0 |} : @W py wd);
     last_request_time := (0 : @float py);
     files := ∅ |}.

(** An article with the given title and a fixed summary. *)
Definition article (t : string) : @NewsArticle py :=
  {| title := JStr t; summary := JStr "s"; url := JStr "";
     published_date := JStr ""; source := JStr "Unknown"; category := JStr "c";
     content := JNull; author := JNull; image_url := JNull;
     sentiment_score := JNull |}.

(** An upstream item with the given title and description. *)
Definition item (t d : string) : article_data :=
  {| g_title := Text t; g_description := Text d; g_url := Absent;
     g_publishedAt := Absent; g_source := SourceAbsent; g_content := Null;
     g_author := Absent; g_image := Null |}.

(** What the keyed source makes of such an item for a query. *)
Definition fetched (query t d : string) : @NewsArticle py :=
  {| title := JStr t; summary := JStr d; url := JStr "";
     published_date := JStr ""; source := JStr "Unknown"; category := JStr query;
     content := JNull; author := JNull; image_url := JNull;
     sentiment_score := JNull |}.

Definition body (items : list article_data) : http_outcome :=
  HttpJson {| g_articles := Some items |}.

Definition config (key : option string) (limit : Z) (mock : bool)
    (cats : list string) : NoobieConfig :=
  {| news_api_key := key; max_articles := limit; mock_mode := mock;
     news_categories := cats |}.

End Script.

(** ** A world with IEEE doubles

    Python's [float] is the IEEE binary64 format, which the kernel has as
    a primitive type.  A library on it (with the text functions of the
    scripted world) and a world that is a clock: every request fails, no
    feed parses, [time.sleep(d)] adds [d] to the clock. *)
Module Doubles.

(** [float(z)] for an integer below [2 ** 63] in absolute value. *)
Definition of_Z (z : Z) : PrimFloat.float :=
  match z with
  | Z0 => PrimFloat.zero
  | Zpos _ => PrimFloat.of_uint63 (Uint63.of_Z z)
  | Zneg p => PrimFloat.opp (PrimFloat.of_uint63 (Uint63.of_Z (Zpos p)))
  end.

(** The value of a finite double, as a rational. *)
Definition seconds (f : PrimFloat.float) : Q :=
  match FloatOps.Prim2SF f with
  | SpecFloat.S754_finite sign m e =>
      let v := if 0 <=? e then inject_Z (Zpos m * 2 ^ e)
               else (Zpos m # Z.to_pos (2 ^ (- e))) in
      if sign then Qopp v else v
  | _ => 0%Q
  end.

Definition py : PyLib :=
  {| float := PrimFloat.float;
     float_of_Z := of_Z;
     float_add := PrimFloat.add;
     float_sub := PrimFloat.sub;
     float_ltb := PrimFloat.ltb;
     float_is_zero := fun f => PrimFloat.eqb f PrimFloat.zero;
     str_lower := str_lower (PyLib := Script.py);
     str_split := str_split (PyLib := Script.py);
     str_title := str_title (PyLib := Script.py);
     urlencode_q := urlencode_q (PyLib := Script.py);
     datetime_isoformat := datetime_isoformat (PyLib := Script.py) |}.

(** The clock, and the value [random.uniform] returns. *)
Record timer := { clock : PrimFloat.float; jitter : PrimFloat.float }.

Definition wd : @World py :=
  {| W := timer;
     session_get := fun _ _ w => (RequestException, w);
     feedparser_parse := fun _ w => (None, w);
     time_time := fun w => ((clock w : @float py), w);
     time_sleep := fun (d : @float py) w =>
       {| clock := PrimFloat.add (clock w) d; jitter := jitter w |};
     random_uniform := fun _ _ w => ((jitter w : @float py), w);
     datetime_now_isoformat := fun w => ("2025-01-01T00:00:00", w);
     datetime_now_strftime := fun _ w => ("2025-01-01", w) |}.

(** [n / 4] as a double. *)
Definition quarters (n : Z) : PrimFloat.float :=
  PrimFloat.div (of_Z n) (of_Z 4).

End Doubles.


(** ** More ways to read a run *)

Section FetcherMore.
Context {py : PyLib} {wd : World}.

(** An event of the retry loop for [url] and [params]: no feed is parsed
    and every request goes to [url] with [params]. *)
Definition retry_event (url : string) (params : gnews_params) (e : event) : Prop :=
  match e with
  | EvGet u p _ _ => u = url ∧ p = params
  | EvFeed _ => False
  | _ => True
  end.

(** The requests of a run, each with its address and parameters. *)
Definition requests_of (ev : list event) : list (string * gnews_params) :=
  omap (fun e => match e with EvGet u p _ _ => Some (u, p) | _ => None end) ev.

(** What a request of the pipeline looks like: to GNews, for one of the
    categories, asking for three articles, with the configured key. *)
Definition pipeline_request (config : NoobieConfig) (topics : list string)
    (request : string * gnews_params) : Prop :=
  request.1 = gnews_base_url ∧ q request.2 ∈ topics ∧ max request.2 = 3 ∧
  news_api_key config = Some (apikey request.2).

(** The events of a run without the sleeps of the rate limiter: the
    requests, the back-off sleeps and the feeds, in their order. *)
Definition retry_events (ev : list event) : list event :=
  omap (fun e => match e with EvThrottle _ => None | _ => Some e end) ev.

(** A value that [random.uniform(0, 1)] returns in some state of the world,
    and a body that [session.get(url, params)] answers with in some state
    of the world. *)
Definition drawn (jitter : float) : Prop :=
  ∃ w, (random_uniform 0 1 w).1 = jitter.
Definition answered (url : string) (params : gnews_params) (data : gnews_data)
  : Prop :=
  ∃ w, (session_get url params w).1 = HttpJson data.

(** The events of failed attempts, each given with the jitter drawn after
    it: the request, and the back-off sleep of [2 ** attempt] plus the
    jitter when the attempt is not the last of [max_retries]. *)
Definition failed_trace (url : string) (params : gnews_params) (max_retries : Z)
    (fails : list (Z * float)) : list event :=
  flat_map (fun fail : Z * float =>
              EvGet url params fail.1 false ::
              if fail.1 <? max_retries - 1
              then [EvBackoff (2 ^ fail.1) fail.2] else [])
           fails.

(** Two articles whose titles have a similarity, and one of at most 0.7. *)
Definition far_apart (a b : NewsArticle) : Prop :=
  ∃ ta tb sim, title a = JStr ta ∧ title b = JStr tb ∧
               jaccard (tokens ta) (tokens tb) = Some sim ∧ (sim <= 7 # 10)%Q.

(** An article whose title is a string without a word. *)
Definition wordless (article : NewsArticle) : Prop :=
  ∃ t, title article = JStr t ∧ tokens t = ∅.

(** The defaults of the four optional fields of [NewsArticle]. *)
Definition optional_defaults : gmap string jval :=
  <["content" := JNull]>
  (<["author" := JNull]>
  (<["image_url" := JNull]>
  (<["sentiment_score" := JNull]> ∅))).

(** *** The article stage of the two entry points

    [function_app.py].  Both functions build one [NewsFetcher] on the
    configuration object and keep that object; an assignment to
    [config.mock_mode] is seen by the fetcher. *)

(** [config.mock_mode = True] *)
Definition set_mock_mode (config : NoobieConfig) : NoobieConfig :=
  {| news_api_key := news_api_key config;
     max_articles := max_articles config;
     mock_mode := true;
     news_categories := news_categories config |}.

(** [daily_blog_generation], from the call of [fetch_trending_news] to the
    list that is handed to the blog writer. *)
Definition daily_articles (config : NoobieConfig) : M (list NewsArticle) :=
  bind (fetch_trending_news config) (fun articles =>
    match articles with
    | [] => generate_mock_articles (set_mock_mode config) "global-news" 3
    | _ :: _ => ret articles
    end).

(** [manual_blog_generation], the same stage: [None] is the answer 400,
    "No articles found". *)
Definition manual_articles (config : NoobieConfig)
  : M (option (list NewsArticle)) :=
  bind (fetch_trending_news config) (fun articles =>
  bind (match articles with
        | [] => if mock_mode config
                then generate_mock_articles config "breaking-news" 3
                else ret articles
        | _ :: _ => ret articles
        end) (fun articles =>
  match articles with
  | [] => ret None
  | _ :: _ => ret (Some articles)
  end)).

End FetcherMore.

(** ** The configuration object

    [config.py]: the dataclass [NoobieConfig] with all its fields, as the
    functions of the module see it.  An instance is the map from the names
    of its attributes to their values; a value is whatever was assigned,
    a [NewsFetcher] reads four of the attributes. *)

(** [int(text)], [None] when it raises [ValueError]. *)
Class PyInt := { int_of_str : string -> option Z }.

Module Config.

Inductive exn := ValueError | TypeError.

Inductive outcome (A : Type) :=
  | Done (a : A)
  | Raised (e : exn).
Arguments Done {A} a.
Arguments Raised {A} e.

Definition and_then {A B} (o : outcome A) (k : A -> outcome B) : outcome B :=
  match o with
  | Done a => k a
  | Raised e => Raised e
  end.

Section Model.
Context {py : PyLib} {pi : PyInt}.

Definition default_categories : list string :=
  ["global politics"; "technology trends"; "economic developments";
   "international affairs"; "breaking news"].

(** The fields in the order of the class, each with [field_def.default];
    [None] is [MISSING], the default of a field that has a
    [default_factory]. *)
Definition field_defaults : list (string * option jval) :=
  [("news_api_key", Some JNull);
   ("claude_api_key", Some JNull);
   ("openai_api_key", Some JNull);
   ("github_token", Some JNull);
   ("github_repo", Some (JStr "akhilreddydanda/NOOBIE"));
   ("github_branch", Some (JStr "main"));
   ("blog_title", Some (JStr "NOOBIE AI - Daily News Intelligence"));
   ("blog_description",
    Some (JStr "AI-powered daily analysis of global news and trends"));
   ("author_name", Some (JStr "NOOBIE AI"));
   ("max_articles", Some (JInt 8));
   ("min_article_length", Some (JInt 100));
   ("max_blog_length", Some (JInt 3000));
   ("log_level", Some (JStr "INFO"));
   ("enable_console_logging", Some (JBool true));
   ("enable_file_logging", Some (JBool true));
   ("function_timeout", Some (JInt 600));
   ("retry_attempts", Some (JInt 3));
   ("retry_delay", Some (JInt 5));
   ("upload_to_github", Some (JBool true));
   ("save_local_backup", Some (JBool true));
   ("enable_analytics", Some (JBool true));
   ("mock_mode", Some (JBool false));
   ("news_categories", None)].

Definition fields : list string := map fst field_defaults.

(** The value a field gets when the constructor is not given it. *)
Definition initial (dflt : option jval) : jval :=
  match dflt with
  | Some v => v
  | None => JList (map JStr default_categories)
  end.

(** [NoobieConfig( **kw)]: an unknown keyword raises [TypeError]. *)
Definition init (kw : gmap string jval) : outcome (gmap string jval) :=
  if bool_decide (dom kw ⊆ list_to_set fields) then
    Done (list_to_map
            (map (fun fd : string * option jval =>
                    (fd.1, default (initial fd.2) (kw !! fd.1)))
                 field_defaults))
  else Raised TypeError.

(** [os.getenv(name)] and [os.getenv(name, text)] *)
Definition getenv (env : gmap string string) (name : string) : jval :=
  match env !! name with
  | Some v => JStr v
  | None => JNull
  end.
Definition getenv_or (env : gmap string string) (name dflt : string) : jval :=
  JStr (default dflt (env !! name)).

(** [int(os.getenv(name, '<n>'))], the default text being the numeral of
    [n]. *)
Definition getenv_int (env : gmap string string) (name : string) (n : Z)
  : outcome jval :=
  match env !! name with
  | Some v => match int_of_str v with
              | Some z => Done (JInt z)
              | None => Raised ValueError
              end
  | None => Done (JInt n)
  end.

(** [os.getenv(name, '<b>').lower() == 'true'], the default text being
    ['true'] or ['false']. *)
Definition getenv_flag (env : gmap string string) (name : string) (b : bool)
  : jval :=
  match env !! name with
  | Some v => JBool (String.eqb (str_lower v) "true")
  | None => JBool b
  end.

(** The keyword arguments of the call in [from_env]. *)
Definition env_keywords (env : gmap string string)
    (max_articles retry_attempts : jval) : gmap string jval :=
  <["news_api_key" := getenv env "NEWS_API_KEY"]>
  (<["claude_api_key" := getenv env "CLAUDE_API_KEY"]>
  (<["openai_api_key" := getenv env "OPENAI_API_KEY"]>
  (<["github_token" := getenv env "GITHUB_TOKEN"]>
  (<["github_repo" := getenv_or env "GITHUB_REPO" "akhilreddydanda/NOOBIE"]>
  (<["github_branch" := getenv_or env "GITHUB_BRANCH" "main"]>
  (<["blog_title" :=
       getenv_or env "BLOG_TITLE" "NOOBIE AI - Daily News Intelligence"]>
  (<["author_name" := getenv_or env "AUTHOR_NAME" "NOOBIE AI"]>
  (<["max_articles" := max_articles]>
  (<["log_level" := getenv_or env "LOG_LEVEL" "INFO"]>
  (<["upload_to_github" := getenv_flag env "UPLOAD_TO_GITHUB" true]>
  (<["mock_mode" := getenv_flag env "MOCK_MODE" false]>
  (<["retry_attempts" := retry_attempts]> ∅)))))))))))).

(** [NoobieConfig.from_env] *)
Definition from_env (env : gmap string string) : outcome (gmap string jval) :=
  and_then (getenv_int env "MAX_ARTICLES" 8) (fun max_articles =>
  and_then (getenv_int env "RETRY_ATTEMPTS" 3) (fun retry_attempts =>
  init (env_keywords env max_articles retry_attempts))).

(** [NoobieConfig.from_file] on the decoded content of the file: the
    argument of [**] must be a mapping. *)
Definition from_file (config_data : jval) : outcome (gmap string jval) :=
  match config_data with
  | JDict kw => init kw
  | _ => Raised TypeError
  end.

(** [env_value == field_def.default].  The left operand is a value that
    [from_env] built: [None], a string, an integer or a boolean, or the
    list of categories, which meets [MISSING] only; an integer and a
    boolean are equal when the boolean is the integer 0 or 1. *)
Definition equals_default (env_value : jval) (dflt : option jval) : bool :=
  match dflt with
  | None => false
  | Some d =>
      match env_value, d with
      | JNull, JNull => true
      | JStr a, JStr b => String.eqb a b
      | JInt a, JInt b => a =? b
      | JBool a, JBool b => Bool.eqb a b
      | JInt a, JBool b => a =? (if b then 1 else 0)
      | JBool a, JInt b => (if a then 1 else 0) =? b
      | _, _ => false
      end
  end.

(** [getattr(config, name)] for an instance, which has every field. *)
Definition attr (self : gmap string jval) (name : string) : jval :=
  default JNull (self !! name).

(** The loop of [load_config] over [__dataclass_fields__]. *)
Fixpoint merge (fds : list (string * option jval))
    (config file_config : gmap string jval) : gmap string jval :=
  match fds with
  | [] => config
  | (field_name, dflt) :: rest =>
      let env_value := attr config field_name in
      let file_value := attr file_config field_name in
      if equals_default env_value dflt
      then merge rest (<[field_name := file_value]> config) file_config
      else merge rest config file_config
  end.

(** [load_config]; [file] is the decoded content of [config.json], [None]
    when the file does not exist or cannot be read or decoded (the [except]
    clause then prints a warning and the configuration of the environment
    stands). *)
Definition load_config (env : gmap string string) (file : option jval)
  : outcome (gmap string jval) :=
  and_then (from_env env) (fun config =>
    match file with
    | Some config_data =>
        match from_file config_data with
        | Done file_config => Done (merge field_defaults config file_config)
        | Raised _ => Done config
        end
    | None => Done config
    end).

(** [value < n] and [value > n] for an integer [n]; a value that is not a
    number raises [TypeError]. *)
Definition less_than (v : jval) (n : Z) : outcome bool :=
  match v with
  | JInt z => Done (z <? n)
  | JBool b => Done ((if b then 1 else 0) <? n)
  | JFloat f => Done (float_ltb f (float_of_Z n))
  | _ => Raised TypeError
  end.
Definition greater_than (v : jval) (n : Z) : outcome bool :=
  match v with
  | JInt z => Done (n <? z)
  | JBool b => Done (n <? (if b then 1 else 0))
  | JFloat f => Done (float_ltb (float_of_Z n) f)
  | _ => Raised TypeError
  end.

(** [value < low or value > high] *)
Definition outside (v : jval) (low high : Z) : outcome bool :=
  and_then (less_than v low) (fun below =>
    if below then Done true else greater_than v high).

(** [NoobieConfig.validate] *)
Definition validate (self : gmap string jval) : outcome (list string) :=
  let errors := [] in
  let errors :=
    if negb (truthy (attr self "news_api_key"))
    then errors ++ ["NEWS_API_KEY is required"] else errors in
  let errors :=
    if negb (truthy (attr self "claude_api_key"))
       && negb (truthy (attr self "openai_api_key"))
    then errors ++ ["At least one AI API key (CLAUDE_API_KEY or OPENAI_API_KEY) is required"]
    else errors in
  let errors :=
    if truthy (attr self "upload_to_github")
       && negb (truthy (attr self "github_token"))
    then errors ++ ["GITHUB_TOKEN is required when upload_to_github is enabled"]
    else errors in
  and_then (outside (attr self "max_articles") 1 20) (fun bad_articles =>
    let errors :=
      if bad_articles then errors ++ ["max_articles must be between 1 and 20"]
      else errors in
    and_then (outside (attr self "retry_attempts") 1 10) (fun bad_retries =>
      let errors :=
        if bad_retries then errors ++ ["retry_attempts must be between 1 and 10"]
        else errors in
      Done errors)).

(** [NoobieConfig.to_dict] *)
Definition to_dict (self : gmap string jval) : gmap string jval :=
  <["github_repo" := attr self "github_repo"]>
  (<["github_branch" := attr self "github_branch"]>
  (<["blog_title" := attr self "blog_title"]>
  (<["blog_description" := attr self "blog_description"]>
  (<["author_name" := attr self "author_name"]>
  (<["max_articles" := attr self "max_articles"]>
  (<["log_level" := attr self "log_level"]>
  (<["upload_to_github" := attr self "upload_to_github"]>
  (<["mock_mode" := attr self "mock_mode"]>
  (<["news_categories" := attr self "news_categories"]>
  (<["has_news_api_key" := JBool (truthy (attr self "news_api_key"))]>
  (<["has_claude_api_key" := JBool (truthy (attr self "claude_api_key"))]>
  (<["has_github_token" := JBool (truthy (attr self "github_token"))]> ∅)))))))))))).

(** [NoobieConfig.save_to_file]: the document it writes to the file. *)
Definition save_to_file (self : gmap string jval) : jval :=
  JDict (to_dict self).

(** A list of strings, as a value and back. *)
Fixpoint strings_of (l : list jval) : option (list string) :=
  match l with
  | [] => Some []
  | JStr s :: rest => cons s <$> strings_of rest
  | _ :: _ => None
  end.

(** The four attributes a [NewsFetcher] reads, when they have the types the
    class declares for them. *)
Definition fetcher_view (self : gmap string jval) : option NoobieConfig :=
  match attr self "news_api_key", attr self "max_articles",
        attr self "mock_mode", attr self "news_categories" with
  | key, JInt limit, JBool mock, JList cats =>
      match (match key with
             | JNull => Some None
             | JStr k => Some (Some k)
             | _ => None
             end), strings_of cats with
      | Some key, Some cats =>
          Some {| news_api_key := key; max_articles := limit;
                  mock_mode := mock; news_categories := cats |}
      | _, _ => None
      end
  | _, _, _, _ => None
  end.

End Model.
End Config.

(** [int] on ASCII text: white space around, a sign, and digits with single
    underscores between them. *)
Module AsciiInt.

Fixpoint drop_space (l : list ascii) : list ascii :=
  match l with
  | c :: rest => if Ascii7.is_space c then drop_space rest else l
  | [] => []
  end.
Definition strip (l : list ascii) : list ascii :=
  rev (drop_space (rev (drop_space l))).

Fixpoint digits_go (acc : Z) (after_digit : bool) (l : list ascii) : option Z :=
  match l with
  | [] => if after_digit then Some acc else None
  | c :: rest =>
      if Ascii7.is_digit c
      then digits_go (10 * acc + Z.of_nat (nat_of_ascii c - 48)) true rest
      else if Ascii.eqb c "_"
           then (if after_digit then digits_go acc false rest else None)
           else None
  end.

Definition parse (text : string) : option Z :=
  match strip (list_ascii_of_string text) with
  | c :: rest =>
      if Ascii.eqb c "-" then Z.opp <$> digits_go 0 false rest
      else if Ascii.eqb c "+" then digits_go 0 false rest
      else digits_go 0 false (c :: rest)
  | [] => None
  end.

Definition py_int : PyInt := {| int_of_str := parse |}.

End AsciiInt.

(** * Properties *)

(** ** Deduplication *)

Section DedupFacts.
Context {py : PyLib}.

Implicit Types (a b article : NewsArticle) (l k u : list NewsArticle).
Implicit Types (tw sw : gset string) (seen : list string).

Lemma jaccard_exceeds_comm tw sw : jaccard_exceeds tw sw = jaccard_exceeds sw tw.
Proof.
  unfold jaccard_exceeds.
  assert (tw ∩ sw = sw ∩ tw) as -> by set_solver.
  assert (tw ∪ sw = sw ∪ tw) as -> by set_solver.
  done.
Qed.

Lemma jaccard_exceeds_err tw sw e :
  jaccard_exceeds tw sw = Err e → e = ZeroDivisionError ∧ tw = ∅ ∧ sw = ∅.
Proof.
  unfold jaccard_exceeds. case_match eqn:Hu; [|done].
  intros [= <-]. split; [done|].
  apply Z.eqb_eq in Hu.
  assert (size (tw ∪ sw) = 0%nat) as Hs by lia.
  apply size_empty_iff in Hs. split; apply leibniz_equiv; set_solver.
Qed.

Lemma jaccard_exceeds_nonempty tw sw :
  tw ≠ ∅ → ∃ d, jaccard_exceeds tw sw = Ok d.
Proof.
  intros Hne. destruct (jaccard_exceeds tw sw) as [d|e] eqn:E; [by eexists|].
  apply jaccard_exceeds_err in E as (_ & ? & _). done.
Qed.

Lemma jaccard_exceeds_empty_l sw d : jaccard_exceeds ∅ sw = Ok d → d = false.
Proof.
  unfold jaccard_exceeds.
  assert (∅ ∪ sw = sw) as -> by set_solver.
  assert (∅ ∩ sw = ∅) as -> by set_solver.
  rewrite size_empty. case_match; [done|]. intros [= <-].
  apply Z.ltb_ge. lia.
Qed.

(** The inner loop does not depend on the order in which the set hands out
    its elements: with words in the title it says whether some accepted
    title is too close; with no word it fails as soon as some accepted
    title has no word either, whatever came before. *)
Lemma is_duplicate_of_nonempty tw seen :
  tw ≠ ∅ →
  is_duplicate_of tw seen =
    Ok (existsb (fun t => match jaccard_exceeds tw (list_to_set (str_split t)) with
                          | Ok d => d
                          | Err _ => false
                          end) seen).
Proof.
  intros Hne. induction seen as [|t seen IH]; [done|]. simpl.
  destruct (jaccard_exceeds_nonempty tw (list_to_set (str_split t)) Hne) as [d ->].
  destruct d; [done|]. by rewrite IH.
Qed.

Lemma is_duplicate_of_empty seen :
  is_duplicate_of ∅ seen =
    if existsb (fun t => bool_decide ((list_to_set (str_split t) : gset string) = ∅)) seen
    then Err ZeroDivisionError else Ok false.
Proof.
  induction seen as [|t seen IH]; [done|]. simpl.
  destruct (jaccard_exceeds ∅ (list_to_set (str_split t))) as [d|e] eqn:E.
  - apply jaccard_exceeds_empty_l in E as E'. subst d.
    rewrite bool_decide_eq_false_2; [by rewrite IH|].
    intros Hs. rewrite Hs in E. unfold jaccard_exceeds in E.
    assert ((∅ : gset string) ∪ ∅ = ∅) as Hu by set_solver.
    rewrite Hu, size_empty in E. done.
  - apply jaccard_exceeds_err in E as (-> & _ & ->).
    by rewrite bool_decide_eq_true_2.
Qed.

Lemma existsb_Permutation {A} (f : A → bool) (xs ys : list A) :
  xs ≡ₚ ys → existsb f xs = existsb f ys.
Proof.
  induction 1 as [|x xs ys _ IH|x y xs|xs ys zs _ IH1 _ IH2]; simpl.
  - done.
  - by rewrite IH.
  - by destruct (f x), (f y).
  - by rewrite IH1.
Qed.

Lemma is_duplicate_of_Permutation tw seen seen' :
  seen ≡ₚ seen' → is_duplicate_of tw seen = is_duplicate_of tw seen'.
Proof.
  intros Hp. destruct (decide (tw = ∅)) as [->|Hne].
  - rewrite !is_duplicate_of_empty. by rewrite (existsb_Permutation _ _ _ Hp).
  - rewrite !is_duplicate_of_nonempty by done.
    by rewrite (existsb_Permutation _ _ _ Hp).
Qed.

Lemma is_duplicate_of_total tw seen :
  tw ≠ ∅ → ∃ d, is_duplicate_of tw seen = Ok d.
Proof. intros. rewrite is_duplicate_of_nonempty by done. by eexists. Qed.

(** What the outer loop returns extends the accumulator by articles that
    the same loop, run on them alone, accepts one after the other. *)
Lemma dedup_loop_fixed l : ∀ u (seen_titles : gset string) r,
  dedup_loop l u seen_titles = Ok r →
  ∃ k, r = u ++ k ∧ dedup_loop k u seen_titles = Ok r.
Proof.
  induction l as [|a l IH]; intros u st r Hr; simpl in Hr.
  - injection Hr as <-. exists []. by rewrite app_nil_r.
  - destruct (title a) as [| | | |t| |] eqn:Ht; try done.
    destruct (is_duplicate_of _ _) as [[|]|e] eqn:Hd; try done.
    + by apply IH.
    + apply IH in Hr as (k & -> & Hk). exists (a :: k).
      split; [by rewrite <- app_assoc|].
      simpl. rewrite Ht, Hd. done.
Qed.

Lemma dedup_loop_sublist l : ∀ u (seen_titles : gset string) r,
  dedup_loop l u seen_titles = Ok r → ∃ k, r = u ++ k ∧ sublist k l.
Proof.
  induction l as [|a l IH]; intros u st r Hr; simpl in Hr.
  - injection Hr as <-. exists []. by rewrite app_nil_r.
  - destruct (title a) as [| | | |t| |] eqn:Ht; try done.
    destruct (is_duplicate_of _ _) as [[|]|e] eqn:Hd; try done.
    + apply IH in Hr as (k & -> & Hk). exists k. split; [done|].
      by apply sublist_cons.
    + apply IH in Hr as (k & -> & Hk). exists (a :: k).
      split; [by rewrite <- app_assoc|]. by apply sublist_skip.
Qed.

Lemma deduplicate_sublist l r : _deduplicate_articles l = Ok r → sublist r l.
Proof.
  intros Hr. apply dedup_loop_sublist in Hr as (k & -> & Hk). done.
Qed.

Lemma dedup_loop_total l : ∀ u (seen_titles : gset string),
  Forall has_words l → ∃ r, dedup_loop l u seen_titles = Ok r.
Proof.
  induction l as [|a l IH]; intros u st Hall; simpl.
  - by eexists.
  - apply Forall_cons in Hall as [(t & Ht & Hne) Hall]. rewrite Ht.
    destruct (is_duplicate_of_total (tokens t) (elements st) Hne) as [d Hd].
    unfold tokens in Hd. rewrite Hd. destruct d; by apply IH.
Qed.

Lemma is_duplicate_of_false tw seen :
  is_duplicate_of tw seen = Ok false →
  ∀ t, t ∈ seen → jaccard_exceeds tw (list_to_set (str_split t)) = Ok false.
Proof.
  induction seen as [|t' seen IH]; simpl; intros Hd t Ht.
  - by apply elem_of_nil in Ht.
  - destruct (jaccard_exceeds tw (list_to_set (str_split t'))) as [[|]|] eqn:E;
      try done.
    apply elem_of_cons in Ht as [->|Ht]; [done|by apply IH].
Qed.

Lemma is_duplicate_of_true tw seen :
  is_duplicate_of tw seen = Ok true →
  ∃ t, t ∈ seen ∧ jaccard_exceeds tw (list_to_set (str_split t)) = Ok true.
Proof.
  induction seen as [|t' seen IH]; simpl; intros Hd; [done|].
  destruct (jaccard_exceeds tw (list_to_set (str_split t'))) as [[|]|] eqn:E;
    try done.
  - exists t'. split; [apply elem_of_cons; by left|done].
  - destruct (IH Hd) as (t & Ht & Hj). exists t.
    split; [apply elem_of_cons; by right|done].
Qed.

Lemma elem_of_seen_of t u :
  t ∈ seen_of u ↔ ∃ a ta, a ∈ u ∧ title a = JStr ta ∧ t = str_lower ta.
Proof.
  unfold seen_of. rewrite elem_of_list_to_set, list_elem_of_omap. split.
  - intros (a & Ha & Ht). destruct (title a) as [| | | |ta| |] eqn:E; try done.
    injection Ht as <-. by exists a, ta.
  - intros (a & ta & Ha & Hta & ->). exists a. by rewrite Hta.
Qed.

Lemma seen_of_snoc u a ta :
  title a = JStr ta → seen_of (u ++ [a]) = seen_of u ∪ {[str_lower ta]}.
Proof.
  intros Hta. unfold seen_of. rewrite omap_app, list_to_set_app_L. simpl.
  rewrite Hta. simpl. set_solver.
Qed.

(** In a run of the outer loop that starts from accepted articles [u] and
    their set of titles: every article of the input is accepted or is a
    near-duplicate of an accepted one, and no accepted article of the input
    is a near-duplicate of an article accepted before it. *)
Lemma dedup_loop_spec l : ∀ u r,
  dedup_loop l u (seen_of u) = Ok r →
  ∃ k, r = u ++ k ∧
    (∀ b, b ∈ l → b ∈ k ∨ ∃ a, a ∈ r ∧ near_duplicate a b) ∧
    (∀ k1 b k2 a, k = k1 ++ b :: k2 → a ∈ u ++ k1 → ¬ near_duplicate a b).
Proof.
  induction l as [|b l IH]; intros u r Hr; simpl in Hr.
  - injection Hr as <-. exists []. rewrite app_nil_r. split; [done|]. split.
    + intros b Hb. by apply elem_of_nil in Hb.
    + intros k1 b k2 a Hk. by destruct k1.
  - destruct (title b) as [| | | |tb| |] eqn:Htb; try done.
    destruct (is_duplicate_of _ _) as [[|]|e] eqn:Hd; try done.
    + destruct (IH u r Hr) as (k & -> & Hin & Hfar). exists k.
      split; [done|]. split; [|done].
      intros b' Hb'. apply elem_of_cons in Hb' as [->|Hb']; [|by apply Hin].
      right. apply is_duplicate_of_true in Hd as (t & Ht & Hj).
      apply elem_of_elements, elem_of_seen_of in Ht as (a & ta & Ha & Hta & ->).
      exists a. split; [apply elem_of_app; by left|]. by exists ta, tb.
    + rewrite <- (seen_of_snoc u b tb Htb) in Hr.
      destruct (IH (u ++ [b]) r Hr) as (k & -> & Hin & Hfar).
      exists (b :: k). split; [by rewrite <- app_assoc|]. split.
      * intros b' Hb'. apply elem_of_cons in Hb' as [->|Hb'].
        -- left. apply elem_of_cons. by left.
        -- destruct (Hin b' Hb') as [?|?]; [left|by right].
           apply elem_of_cons. by right.
      * intros k1 b' k2 a Hk Ha. destruct k1 as [|b0 k1].
        -- injection Hk as <- <-. rewrite app_nil_r in Ha.
           intros (ta & tb' & Hta & Htb' & Hj).
           rewrite Htb in Htb'. injection Htb' as <-.
           assert (str_lower ta ∈ elements (seen_of u)) as Hseen.
           { apply elem_of_elements, elem_of_seen_of. by exists a, ta. }
           pose proof (is_duplicate_of_false _ _ Hd _ Hseen) as Hf.
           unfold tokens in Hj. congruence.
        -- injection Hk as <- ->. apply (Hfar k1 b' k2 a eq_refl).
           rewrite <- app_assoc. exact Ha.
Qed.

(** The same for [_deduplicate_articles]. *)
Lemma deduplicate_spec l r :
  _deduplicate_articles l = Ok r →
  (∀ b, b ∈ l → b ∈ r ∨ ∃ a, a ∈ r ∧ near_duplicate a b) ∧
  (∀ r1 b r2 a, r = r1 ++ b :: r2 → a ∈ r1 → ¬ near_duplicate a b).
Proof.
  intros Hr. destruct (dedup_loop_spec l [] r Hr) as (k & Hk & Hin & Hfar).
  simpl in Hk. subst k. split; [done|].
  intros r1 b r2 a Heq Ha. by apply (Hfar r1 b r2 a Heq).
Qed.

(** Two articles alone: the second is compared with the first only. *)
Lemma deduplicate_pair a b ta tb :
  title a = JStr ta → title b = JStr tb →
  _deduplicate_articles [a; b] =
    match jaccard_exceeds (tokens ta) (tokens tb) with
    | Ok true => Ok [a]
    | Ok false => Ok [a; b]
    | Err e => Err e
    end.
Proof.
  intros Ha Hb. unfold _deduplicate_articles. simpl.
  rewrite Ha, Hb, elements_empty. simpl.
  assert (∀ x : string, (∅ : gset string) ∪ {[x]} = {[x]}) as -> by set_solver.
  rewrite elements_singleton. simpl.
  rewrite jaccard_exceeds_comm. fold (tokens ta) (tokens tb).
  by destruct (jaccard_exceeds (tokens ta) (tokens tb)) as [[|]|].
Qed.

End DedupFacts.

Section DedupThreshold.
Context {py : PyLib}.

Lemma jaccard_exceeds_spec (x y : gset string) j :
  jaccard x y = Some j →
  jaccard_exceeds x y = Ok (if Qlt_le_dec (7 # 10) j then true else false).
Proof.
  unfold jaccard, jaccard_exceeds. case_bool_decide as Hu; [done|].
  intros [= <-]. rewrite (proj2 (Z.eqb_neq _ _)) by lia. f_equal.
  assert (Z.pos (Pos.of_nat (size (x ∪ y))) = Z.of_nat (size (x ∪ y))) as Hp
    by (destruct (size (x ∪ y)); [done|]; lia).
  destruct (Qlt_le_dec _ _) as [Hlt|Hle].
  - unfold Qlt in Hlt. simpl in Hlt. rewrite Hp in Hlt. apply Z.ltb_lt. lia.
  - unfold Qle in Hle. simpl in Hle. rewrite Hp in Hle. apply Z.ltb_ge. lia.
Qed.

Lemma deduplicate_pair_le a b ta tb j :
  title a = JStr ta → title b = JStr tb →
  jaccard (tokens ta) (tokens tb) = Some j →
  (j <= 7 # 10)%Q → _deduplicate_articles [a; b] = Ok [a; b].
Proof.
  intros Ha Hb Hj Hle. rewrite (deduplicate_pair a b ta tb Ha Hb).
  rewrite (jaccard_exceeds_spec _ _ _ Hj).
  destruct (Qlt_le_dec _ _) as [Hlt|_]; [|done].
  exfalso. apply (Qlt_not_le _ _ Hlt Hle).
Qed.

Lemma deduplicate_pair_gt a b ta tb j :
  title a = JStr ta → title b = JStr tb →
  jaccard (tokens ta) (tokens tb) = Some j →
  (7 # 10 < j)%Q → _deduplicate_articles [a; b] = Ok [a].
Proof.
  intros Ha Hb Hj Hlt. rewrite (deduplicate_pair a b ta tb Ha Hb).
  rewrite (jaccard_exceeds_spec _ _ _ Hj).
  destruct (Qlt_le_dec _ _) as [_|Hle]; [done|].
  exfalso. apply (Qlt_not_le _ _ Hlt Hle).
Qed.

End DedupThreshold.

(** *** The rule on any list *)

Section DedupRule.
Context {py : PyLib}.

Implicit Types (a b article : NewsArticle) (l k u : list NewsArticle).

(** The outer loop over a list in two parts: the second part starts from
    what the first part accepted. *)
Lemma dedup_loop_app l1 : ∀ l2 u,
  dedup_loop (l1 ++ l2) u (seen_of u) =
    match dedup_loop l1 u (seen_of u) with
    | Ok r1 => dedup_loop l2 r1 (seen_of r1)
    | Err e => Err e
    end.
Proof.
  induction l1 as [|a l1 IH]; intros l2 u; [done|]. cbn [app dedup_loop].
  destruct (title a) as [| | | |ta| |] eqn:Hta; try done.
  destruct (is_duplicate_of _ _) as [[|]|e]; [apply IH| |done].
  rewrite <- (seen_of_snoc u a ta Hta). apply IH.
Qed.

Lemma deduplicate_app l1 l2 :
  _deduplicate_articles (l1 ++ l2) =
    match _deduplicate_articles l1 with
    | Ok r1 => dedup_loop l2 r1 (seen_of r1)
    | Err e => Err e
    end.
Proof. apply (dedup_loop_app l1 l2 []). Qed.

(** The test of the loop in terms of the similarity. *)
Lemma jaccard_exceeds_similarity (x y : gset string) d :
  jaccard_exceeds x y = Ok d →
  ∃ sim, jaccard y x = Some sim ∧
         (if d then (7 # 10 < sim)%Q else (sim <= 7 # 10)%Q).
Proof.
  intros Hd. rewrite jaccard_exceeds_comm in Hd.
  destruct (jaccard y x) as [sim|] eqn:Hj.
  - exists sim. split; [done|]. rewrite (jaccard_exceeds_spec _ _ _ Hj) in Hd.
    injection Hd as <-. by destruct (Qlt_le_dec _ _).
  - exfalso. unfold jaccard in Hj. case_bool_decide as Hu; [|done].
    unfold jaccard_exceeds in Hd. rewrite Hu in Hd. done.
Qed.

Lemma far_apart_test a b ta tb :
  title a = JStr ta → title b = JStr tb → far_apart a b →
  jaccard_exceeds (tokens tb) (tokens ta) = Ok false.
Proof.
  intros Ha Hb (ta' & tb' & sim & Ha' & Hb' & Hj & Hle).
  rewrite Ha in Ha'. rewrite Hb in Hb'. injection Ha' as <-. injection Hb' as <-.
  rewrite jaccard_exceeds_comm, (jaccard_exceeds_spec _ _ _ Hj).
  destruct (Qlt_le_dec _ _) as [Hlt|_]; [|done].
  exfalso. apply (Qlt_not_le _ _ Hlt Hle).
Qed.

Lemma is_duplicate_of_all_false tw (seen : list string) :
  (∀ t, t ∈ seen → jaccard_exceeds tw (list_to_set (str_split t)) = Ok false) →
  is_duplicate_of tw seen = Ok false.
Proof.
  induction seen as [|t seen IH]; intros Hall; [done|]. cbn [is_duplicate_of].
  rewrite (Hall t) by (apply elem_of_cons; by left).
  apply IH. intros t' Ht'. apply Hall, elem_of_cons. by right.
Qed.

(** One step of the outer loop, on an article whose title is a string. *)
Lemma dedup_step b tb l u r :
  title b = JStr tb →
  dedup_loop (b :: l) u (seen_of u) = Ok r →
  ∃ k, sublist k l ∧
    ((r = u ++ b :: k ∧
      ∀ a ta, a ∈ u → title a = JStr ta →
        ∃ sim, jaccard (tokens ta) (tokens tb) = Some sim ∧ (sim <= 7 # 10)%Q)
     ∨ (r = u ++ k ∧
        ∃ a ta sim, a ∈ u ∧ title a = JStr ta ∧
          jaccard (tokens ta) (tokens tb) = Some sim ∧ (7 # 10 < sim)%Q)).
Proof.
  intros Hb Hr. cbn [dedup_loop] in Hr. rewrite Hb in Hr.
  destruct (is_duplicate_of _ _) as [[|]|e] eqn:Hd; [| |done].
  - apply dedup_loop_sublist in Hr as (k & -> & Hk). exists k. split; [done|].
    right. split; [done|].
    apply is_duplicate_of_true in Hd as (t & Ht & Hj).
    apply elem_of_elements, elem_of_seen_of in Ht as (a & ta & Ha & Hta & ->).
    apply jaccard_exceeds_similarity in Hj as (sim & Hj & Hlt).
    by exists a, ta, sim.
  - apply dedup_loop_sublist in Hr as (k & -> & Hk). exists k. split; [done|].
    left. split; [by rewrite <- app_assoc|].
    intros a ta Ha Hta.
    assert (str_lower ta ∈ elements (seen_of u)) as Hseen.
    { apply elem_of_elements, elem_of_seen_of. by exists a, ta. }
    pose proof (is_duplicate_of_false _ _ Hd _ Hseen) as Hf.
    apply jaccard_exceeds_similarity in Hf as (sim & Hj & Hle).
    by exists sim.
Qed.

(** The rule for an article anywhere in the input. *)
Lemma deduplicate_rule l1 b l2 r :
  _deduplicate_articles (l1 ++ b :: l2) = Ok r →
  ∃ r1 r2 tb,
    _deduplicate_articles l1 = Ok r1 ∧ title b = JStr tb ∧ sublist r2 l2 ∧
    ((r = r1 ++ b :: r2 ∧
      ∀ a ta, a ∈ r1 → title a = JStr ta →
        ∃ sim, jaccard (tokens ta) (tokens tb) = Some sim ∧ (sim <= 7 # 10)%Q)
     ∨ (r = r1 ++ r2 ∧
        ∃ a ta sim, a ∈ r1 ∧ title a = JStr ta ∧
          jaccard (tokens ta) (tokens tb) = Some sim ∧ (7 # 10 < sim)%Q)).
Proof.
  rewrite deduplicate_app.
  destruct (_deduplicate_articles l1) as [r1|] eqn:H1; [|done]. intros Hr.
  destruct (title b) as [| | | |tb| |] eqn:Hb;
    try (cbn [dedup_loop] in Hr; rewrite Hb in Hr; discriminate Hr).
  destruct (dedup_step b tb l2 r1 r Hb Hr) as (k & Hk & Hcase).
  by exists r1, k, tb.
Qed.

(** A list of articles with string titles whose ordered pairs are all far
    apart is returned as it is. *)
Lemma dedup_loop_all_far l : ∀ u,
  Forall (λ a, ∃ t, title a = JStr t) l →
  Forall (λ a, Forall (far_apart a) l) u →
  ForallOrdPairs far_apart l →
  dedup_loop l u (seen_of u) = Ok (u ++ l).
Proof.
  induction l as [|b l IH]; intros u Hs Hu Hp.
  - by rewrite app_nil_r.
  - apply Forall_cons in Hs as [[tb Hb] Hs].
    inversion Hp as [|b' l' Hbl Hp']; subst.
    cbn [dedup_loop]. rewrite Hb.
    rewrite is_duplicate_of_all_false.
    + rewrite <- (seen_of_snoc u b tb Hb), IH; [by rewrite <- app_assoc|done| |done].
      apply Forall_app. split.
      * eapply Forall_impl; [exact Hu|]. intros a Ha.
        by apply Forall_cons in Ha as [_ Ha].
      * by constructor.
    + intros t Ht.
      apply elem_of_elements, elem_of_seen_of in Ht as (a & ta & Ha & Hta & ->).
      rewrite Forall_forall in Hu. specialize (Hu a Ha).
      apply Forall_cons in Hu as [Hfar _].
      exact (far_apart_test a b ta tb Hta Hb Hfar).
Qed.

Lemma deduplicate_all_far l :
  Forall (λ a, ∃ t, title a = JStr t) l →
  ForallOrdPairs far_apart l →
  _deduplicate_articles l = Ok l.
Proof. intros Hs Hp. by apply (dedup_loop_all_far l []). Qed.

End DedupRule.

(** C3. The threshold rule of [_deduplicate_articles], on any list it
    returns on: an article is retained exactly when the Jaccard similarity
    of its title with the title of every article retained before it is at
    most 0.7, and dropped exactly when the similarity with one of them is
    above 0.7; the articles retained before it are those the function
    retains of the articles before it.  For two articles alone this is the
    rule of the pair: both are returned at a similarity of at most 0.7,
    only the first above it; with "Fed Raises Interest Rates Again" and
    "Fed Raises Interest Rates" (similarity 4/5) the first-seen one
    survives, in either order.  In a longer list the rule of the pair does
    not hold of every two articles: an article is not compared with one
    that was dropped. *)
Theorem deduplicate_threshold_rule :
  (∀ (py : PyLib) (before : list NewsArticle) (b : NewsArticle)
     (after unique : list NewsArticle),
      _deduplicate_articles (before ++ b :: after) = Ok unique →
      ∃ kept rest tb,
        _deduplicate_articles before = Ok kept ∧
        title b = JStr tb ∧ sublist rest after ∧
        ((unique = kept ++ b :: rest ∧
          ∀ a ta, a ∈ kept → title a = JStr ta →
            ∃ sim, jaccard (tokens ta) (tokens tb) = Some sim ∧ (sim <= 7 # 10)%Q)
         ∨ (unique = kept ++ rest ∧
            ∃ a ta sim, a ∈ kept ∧ title a = JStr ta ∧
              jaccard (tokens ta) (tokens tb) = Some sim ∧ (7 # 10 < sim)%Q))) ∧
  (∀ (py : PyLib) (a b : NewsArticle) (ta tb : string) (j : Q),
      title a = JStr ta → title b = JStr tb →
      jaccard (tokens ta) (tokens tb) = Some j →
      ((j <= 7 # 10)%Q → _deduplicate_articles [a; b] = Ok [a; b]) ∧
      ((7 # 10 < j)%Q → _deduplicate_articles [a; b] = Ok [a])) ∧
  @jaccard
     (@tokens Script.py "Fed Raises Interest Rates Again")
     (@tokens Script.py "Fed Raises Interest Rates") = Some (4 # 5)%Q ∧
  _deduplicate_articles
     [Script.article "Fed Raises Interest Rates Again";
      Script.article "Fed Raises Interest Rates"]
    = Ok [Script.article "Fed Raises Interest Rates Again"] ∧
  _deduplicate_articles
     [Script.article "Fed Raises Interest Rates";
      Script.article "Fed Raises Interest Rates Again"]
    = Ok [Script.article "Fed Raises Interest Rates"].
Proof.
  split; [|split; [|repeat split; reflexivity]].
  - intros py before b after unique. apply deduplicate_rule.
  - intros py a b ta tb j Ha Hb Hj. split; intros Hc.
    + by eapply deduplicate_pair_le.
    + by eapply deduplicate_pair_gt.
Qed.

Lemma deduplicate_threshold_rule_witness :
  ∃ kept rest,
    _deduplicate_articles [Script.article "a b c d"; Script.article "a b c d e"]
      = Ok kept ∧
    _deduplicate_articles
      [Script.article "a b c d"; Script.article "a b c d e";
       Script.article "a b c d e f g"; Script.article "x y"]
      = Ok (kept ++ Script.article "a b c d e f g" :: rest).
Proof.
  destruct (proj1 deduplicate_threshold_rule Script.py
              [Script.article "a b c d"; Script.article "a b c d e"]
              (Script.article "a b c d e f g")
              [Script.article "x y"]
              [Script.article "a b c d"; Script.article "a b c d e f g";
               Script.article "x y"] eq_refl)
    as (kept & rest & tb & Hkept & _).
  exists [Script.article "a b c d"], [Script.article "x y"].
  split; reflexivity.
Defined.

(** Among three articles the rule of the pair fails both ways.  The second
    and third titles of the first list have similarity 5/7, above 0.7, and
    the third, the later of the two, is retained: the second was dropped for
    the first, and the third is at 4/7 from the first.  The second and third
    titles of the other list have similarity 0, and they are not both
    retained. *)
Lemma pair_rule_fails_among_three :
  @jaccard (@tokens Script.py "a b c d e") (@tokens Script.py "a b c d e f g")
    = Some (5 # 7)%Q ∧
  (7 # 10 < 5 # 7)%Q ∧
  _deduplicate_articles
    [Script.article "a b c d"; Script.article "a b c d e";
     Script.article "a b c d e f g"]
    = Ok [Script.article "a b c d"; Script.article "a b c d e f g"] ∧
  @jaccard (@tokens Script.py "a b c d e") (@tokens Script.py "x y")
    = Some (0 # 7)%Q ∧
  (0 # 7 <= 7 # 10)%Q ∧
  _deduplicate_articles
    [Script.article "a b c d"; Script.article "a b c d e"; Script.article "x y"]
    = Ok [Script.article "a b c d"; Script.article "x y"].
Proof.
  split; [reflexivity|]. split; [reflexivity|]. split; [reflexivity|].
  split; [reflexivity|]. split; [|reflexivity]. unfold Qle. simpl. lia.
Qed.

(** C4. Deduplication is idempotent: when [_deduplicate_articles] returns a
    list, applying it to that list returns the same list. *)
Theorem deduplicate_idempotent {py : PyLib} (articles unique : list NewsArticle) :
  _deduplicate_articles articles = Ok unique →
  _deduplicate_articles unique = Ok unique.
Proof.
  unfold _deduplicate_articles. intros Hr.
  apply dedup_loop_fixed in Hr as (k & Hk & Hrun).
  simpl in Hk. by subst k.
Qed.

Lemma deduplicate_idempotent_witness :
  _deduplicate_articles
    [Script.article "Fed Raises Interest Rates Again"; Script.article "storm warning"]
  = Ok [Script.article "Fed Raises Interest Rates Again"; Script.article "storm warning"].
Proof.
  apply (@deduplicate_idempotent Script.py
           [Script.article "Fed Raises Interest Rates Again";
            Script.article "Fed Raises Interest Rates";
            Script.article "storm warning"]).
  reflexivity.
Defined.

(** C9. The division in [_deduplicate_articles] has no guard.  When every
    article's title is a string whose lower-cased form has at least one
    word, the union that is divided by is never empty and the function
    returns a list.  Two titles of white space only are non-empty strings
    with no word: the union is empty and [ZeroDivisionError] is raised. *)
Theorem jaccard_division_unguarded :
  (∀ (py : PyLib) (articles : list NewsArticle),
      Forall has_words articles →
      (∀ t seen_words, JStr t ∈ map title articles →
                       size (tokens t ∪ seen_words) ≠ 0%nat) ∧
      ∃ unique, _deduplicate_articles articles = Ok unique) ∧
  (@truthy Script.py (JStr "  ") = true ∧ @truthy Script.py (JStr " ") = true) ∧
  size (@tokens Script.py "  " ∪ @tokens Script.py " ") = 0%nat ∧
  _deduplicate_articles [Script.article "  "; Script.article " "]
    = Err ZeroDivisionError.
Proof.
  split; [|repeat split; reflexivity].
  intros py articles Hall. split.
  - intros t sw Hin Hsz.
    apply list_elem_of_fmap in Hin as (a & Ha & Hin).
    rewrite Forall_forall in Hall. destruct (Hall a Hin) as (t' & Ht' & Hne).
    rewrite Ht' in Ha. injection Ha as ->.
    apply size_empty_iff in Hsz. apply Hne. apply leibniz_equiv. set_solver.
  - by apply dedup_loop_total.
Qed.

Lemma jaccard_division_unguarded_witness :
  ∃ unique, _deduplicate_articles [Script.article "a b"; Script.article " c "] = Ok unique.
Proof.
  apply (proj1 jaccard_division_unguarded Script.py).
  repeat constructor; eexists; (split; [reflexivity|vm_compute; discriminate]).
Defined.

(** ** Runs of the fetcher *)

Section FetcherFacts.
Context {py : PyLib} {wd : World}.

Implicit Types (s : State) (ev : list event) (config : NoobieConfig).

Lemma bind_run {A B} (m : M A) (k : A → M B) s a s1 ev1 r s2 ev2 :
  m s = (Ok a, s1, ev1) → k a s1 = (r, s2, ev2) →
  bind m k s = (r, s2, ev1 ++ ev2).
Proof. intros Hm Hk. unfold bind. by rewrite Hm, Hk. Qed.

Lemma attempts_of_app ev1 ev2 :
  attempts_of (ev1 ++ ev2) = attempts_of ev1 ++ attempts_of ev2.
Proof. apply omap_app. Qed.
Lemma backoff_bases_app ev1 ev2 :
  backoff_bases (ev1 ++ ev2) = backoff_bases ev1 ++ backoff_bases ev2.
Proof. apply omap_app. Qed.
Lemma feed_calls_app ev1 ev2 :
  feed_calls (ev1 ++ ev2) = feed_calls ev1 ++ feed_calls ev2.
Proof. apply omap_app. Qed.

Lemma rate_limit_run s :
  ∃ s1 ev, _rate_limit s = (Ok tt, s1, ev) ∧ quiet ev ∧ files s1 = files s.
Proof.
  unfold _rate_limit, bind, call, sleep_throttle, set_last_request_time, ret.
  destruct (time_time (world s)) as [t w1]. simpl.
  destruct (float_ltb _ _); simpl;
    destruct (time_time _) as [t2 w2]; simpl.
  - do 2 eexists. split; [done|]. by repeat split.
  - do 2 eexists. split; [done|]. by repeat split.
Qed.

Lemma request_run url params attempt s :
  ∃ outcome s1,
    request url params attempt s =
      (Ok outcome, s1,
       [EvGet url params attempt
              match outcome with HttpJson _ => true | RequestException => false end])
    ∧ files s1 = files s.
Proof.
  unfold request, bind, call, emit, ret.
  destruct (session_get url params (world s)) as [outcome w1]. simpl.
  by exists outcome; eexists.
Qed.

(** A run of the retry loop: [k] attempts fail, then either one succeeds or
    the attempts are used up; a failed attempt is followed by a sleep when
    it is not the last of [max_retries]. *)
Lemma retry_loop_run url params max_retries attempts : ∀ s,
  ∃ r s1 ev (k : nat),
    retry_loop url params max_retries attempts s = (Ok r, s1, ev) ∧
    feed_calls ev = [] ∧
    backoff_bases ev =
      map (λ a, 2 ^ a) (filter (λ a, a < max_retries - 1) (take k attempts)) ∧
    match r with
    | Some _ =>
        ∃ a, attempts !! k = Some a ∧
             attempts_of ev = map (λ a, (a, false)) (take k attempts) ++ [(a, true)]
    | None =>
        k = length attempts ∧ attempts_of ev = map (λ a, (a, false)) attempts
    end.
Proof.
  induction attempts as [|a rest IH]; intros s.
  - exists None, s, [], 0%nat. by repeat split.
  - destruct (rate_limit_run s) as (s1 & ev0 & Hrl & (Hq1 & Hq2 & Hq3) & _).
    destruct (request_run url params a s1) as (outcome & s2 & Hreq & _).
    destruct outcome as [data|].
    + exists (Some data), s2, (ev0 ++ [EvGet url params a true] ++ []), 0%nat.
      split; [|split; [|split]].
      * cbn [retry_loop]. eapply bind_run; [exact Hrl|].
        eapply bind_run; [exact Hreq|done].
      * rewrite !feed_calls_app, Hq3. done.
      * rewrite !backoff_bases_app, Hq2. done.
      * exists a. rewrite !attempts_of_app, Hq1. done.
    + destruct (random_uniform 0 1 (world s2)) as [jitter w3] eqn:Hj.
      set (s3 := {| world := w3; last_request_time := last_request_time s2;
                    files := files s2 |}).
      set (sl := if a <? max_retries - 1
                 then sleep_backoff (2 ^ a) jitter else ret tt).
      destruct (sl s3) as [[rs s4] ev4] eqn:Hsl.
      assert (rs = Ok tt ∧ feed_calls ev4 = [] ∧ attempts_of ev4 = [] ∧
              backoff_bases ev4 =
                map (λ a, 2 ^ a) (filter (λ a, a < max_retries - 1) [a]))
        as (-> & Hf4 & Ha4 & Hb4).
      { subst sl. destruct (a <? max_retries - 1) eqn:Hlt.
        - apply Z.ltb_lt in Hlt. injection Hsl as <- <- <-.
          rewrite filter_cons_True by done. done.
        - apply Z.ltb_ge in Hlt. injection Hsl as <- <- <-.
          rewrite filter_cons_False by lia. done. }
      destruct (IH s4) as (r & s5 & ev5 & k & Hrun & Hf5 & Hb5 & Hr).
      exists r, s5, (ev0 ++ [EvGet url params a false] ++ ([] ++ ev4 ++ ev5)), (S k).
      split; [|split; [|split]].
      * cbn [retry_loop]. eapply bind_run; [exact Hrl|].
        eapply bind_run; [exact Hreq|].
        eapply bind_run; [unfold call; by rewrite Hj|].
        eapply bind_run; [exact Hsl|exact Hrun].
      * rewrite !feed_calls_app, Hq3, Hf4, Hf5. done.
      * rewrite !backoff_bases_app, Hq2, Hb4, Hb5. simpl.
        change (a :: take k rest) with ([a] ++ take k rest).
        by rewrite filter_app, map_app.
      * destruct r as [data|].
        -- destruct Hr as (a' & Hk & Hat). exists a'. split; [done|].
           rewrite !attempts_of_app, Hq1, Ha4, Hat. done.
        -- destruct Hr as (-> & Hat). split; [done|].
           rewrite !attempts_of_app, Hq1, Ha4, Hat. done.
Qed.

(** *** The keyed source *)

Lemma truthy_JStr str : truthy (JStr str) = true → nonempty_text (JStr str).
Proof.
  simpl. intros Ht. exists str. split; [done|].
  intros ->. done.
Qed.

Lemma truthy_get_with f dflt :
  (truthy dflt = true → nonempty_text dflt) →
  truthy (get_with f dflt) = true → nonempty_text (get_with f dflt).
Proof. intros Hd. destruct f; simpl; [done|done|apply truthy_JStr]. Qed.

Lemma truthy_get_str f dflt :
  truthy (get_str f dflt) = true → nonempty_text (get_str f dflt).
Proof. apply truthy_get_with, truthy_JStr. Qed.

Lemma gnews_loop_has_text query items : ∀ articles,
  Forall has_text articles → Forall has_text (gnews_loop query items articles).
Proof.
  induction items as [|item items IH]; intros articles Hall; [done|].
  cbn [gnews_loop].
  destruct (gnews_article query item) as [article|] eqn:Ha; [|by apply IH].
  destruct (_ && _) eqn:Hc; [|by apply IH].
  apply andb_prop in Hc as [Ht Hs]. apply IH, Forall_app. split; [done|].
  apply Forall_singleton. unfold gnews_article in Ha.
  destruct (match g_source item with SourceNull => None | _ => _ end); [|done].
  injection Ha as <-. simpl in *. split; by apply truthy_get_str.
Qed.

Lemma fetch_gnews_run config query max_results s :
  ∃ articles s1 ev,
    fetch_gnews config query max_results s = (Ok articles, s1, ev) ∧
    Forall has_text articles ∧
    feed_calls ev = [] ∧
    (has_api_key config = false → articles = [] ∧ s1 = s ∧ ev = []) ∧
    retry_shape ev articles.
Proof.
  assert (retry_shape [] []) as Hnil.
  { split; [simpl; lia|]. by repeat split. }
  unfold fetch_gnews, has_api_key.
  destruct (news_api_key config) as [key|]; [destruct (String.eqb key "")|].
  1, 3: by exists [], s, [].
  unfold _make_request_with_retry. change (range 3) with [0; 1; 2].
  set (params := {| q := query |}).
  destruct (retry_loop_run gnews_base_url params 3 [0; 1; 2] s)
    as (r & s1 & ev & k & Hrun & Hfeed & Hback & Hr).
  assert (∀ articles, (∃ data, r = Some data) ∨ articles = [] →
            retry_shape (ev ++ []) articles) as Hshape.
  { intros articles Hcase. rewrite app_nil_r. unfold retry_shape, failed_attempts.
    destruct r as [data|].
    - destruct Hr as (a & Hk & ->). rewrite Hback.
      destruct k as [|[|[|k]]]; simpl in Hk; try done; injection Hk as <-;
        (split; [simpl; lia|]; split; [reflexivity|]; split; [reflexivity|]);
        intros Hall; apply Forall_app in Hall as [_ Hall];
        inversion Hall as [|? ? Hbad _]; done.
    - destruct Hr as (-> & ->). rewrite Hback.
      destruct Hcase as [[? ?]| ->]; [done|].
      split; [simpl; lia|]. by repeat split. }
  destruct r as [data|].
  - destruct (g_articles data) as [items|] eqn:Hitems.
    + eexists _, s1, (ev ++ []). split; [|split; [|split; [|split]]].
      * eapply bind_run; [exact Hrun|]. cbv beta iota. by rewrite Hitems.
      * by apply gnews_loop_has_text.
      * by rewrite feed_calls_app, Hfeed.
      * done.
      * apply Hshape. left. by eexists.
    + exists [], s1, (ev ++ []). split; [|split; [|split; [|split]]].
      * eapply bind_run; [exact Hrun|]. cbv beta iota. by rewrite Hitems.
      * done.
      * by rewrite feed_calls_app, Hfeed.
      * done.
      * apply Hshape. by right.
  - exists [], s1, (ev ++ []). split; [|split; [|split; [|split]]].
    + eapply bind_run; [exact Hrun|]. done.
    + done.
    + by rewrite feed_calls_app, Hfeed.
    + done.
    + apply Hshape. by right.
Qed.

(** *** The feed source *)

Lemma rss_loop_has_text feed category items : ∀ articles,
  Forall has_text articles →
  Forall has_text (rss_loop feed category items articles).
Proof.
  induction items as [|entry items IH]; intros articles Hall; [done|].
  simpl. destruct (rss_article feed category entry) as [article|] eqn:Ha;
    [|by apply IH].
  destruct (_ && _) eqn:Hc; [|by apply IH].
  apply andb_prop in Hc as [Ht Hs]. apply IH, Forall_app. split; [done|].
  apply Forall_singleton. unfold rss_article in Ha.
  destruct (e_published_parsed entry) as [tm|];
    [destruct (datetime_isoformat tm); [|done]|];
    injection Ha as <-; simpl in *;
    (split; [by apply truthy_get_str|]);
    (apply truthy_get_with; [apply truthy_get_str|done]).
Qed.

Lemma fetch_rss_feed_run feed_url category max_results s :
  ∃ articles s1 ev,
    fetch_rss_feed feed_url category max_results s = (Ok articles, s1, ev) ∧
    Forall has_text articles ∧
    feed_calls ev = [feed_url].
Proof.
  unfold fetch_rss_feed.
  destruct (rate_limit_run s) as (s1 & ev0 & Hrl & (_ & _ & Hq) & _).
  destruct (feedparser_parse feed_url (world s1)) as [feed w2] eqn:Hp.
  exists (match feed with
          | Some feed =>
              rss_loop feed category (slice_to (entries feed) max_results) []
          | None => []
          end).
  eexists _, (ev0 ++ [] ++ [EvFeed feed_url] ++ []).
  split; [|split].
  - eapply bind_run; [exact Hrl|].
    eapply bind_run; [unfold call; by rewrite Hp|].
    eapply bind_run; [reflexivity|]. destruct feed; reflexivity.
  - destruct feed; [|done]. by apply rss_loop_has_text.
  - by rewrite feed_calls_app, Hq.
Qed.

(** *** Mock articles *)

Lemma app_nonempty_r (x y : string) : y ≠ "" → x +:+ y ≠ "".
Proof. intros Hy. destruct x; [done|]. simpl. done. Qed.

Lemma generate_mock_off config category count s :
  mock_mode config = false →
  generate_mock_articles config category count s = (Ok [], s, []).
Proof. unfold generate_mock_articles. by intros ->. Qed.

Lemma range_bounds (n : Z) : Forall (λ i, 0 ≤ i < n) (range n).
Proof.
  unfold range. apply Forall_forall. intros i Hi.
  apply list_elem_of_fmap in Hi as (j & -> & Hj).
  apply elem_of_seq in Hj. lia.
Qed.

Lemma mock_templates_text category :
  Forall (λ t, t_title t ≠ "" ∧ t_summary t ≠ "") (mock_templates category).
Proof.
  repeat constructor; simpl; try done; by apply app_nonempty_r.
Qed.

Lemma mock_loop_run topic indices :
  Forall (λ i, 0 ≤ i < 3) indices →
  ∀ articles s,
    ∃ new s1,
      mock_loop topic indices articles s = (Ok (articles ++ new), s1, []) ∧
      Forall2 from_template indices new ∧
      Forall (λ article, category article = JStr topic) new.
Proof.
  induction 1 as [|i indices Hi _ IH]; intros articles s.
  - exists [], s. rewrite app_nil_r. by repeat split.
  - cbn [mock_loop].
    destruct (mock_templates topic !! Z.to_nat i) as [t|] eqn:Ht.
    2: { apply lookup_ge_None in Ht. simpl in Ht. lia. }
    unfold bind, call.
    destruct (datetime_now_isoformat (world s)) as [now w]. cbv beta iota.
    match goal with
    | |- context [mock_loop topic indices (articles ++ [?a]) ?s'] =>
        destruct (IH (articles ++ [a]) s') as (new & s1 & -> & Hnew & Hcat);
        exists (a :: new), s1
    end.
    rewrite <- app_assoc. split; [done|]. split.
    + constructor; [|done]. exists t. by repeat split.
    + by constructor.
Qed.

Lemma from_template_text i article : from_template i article → has_text article.
Proof.
  intros (t & Ht & Htitle & Hsum & _).
  apply list_elem_of_lookup_2 in Ht.
  pose proof (mock_templates_text
                (match category article with JStr c => c | _ => "" end)) as Hall.
  rewrite Forall_forall in Hall. destruct (Hall t Ht) as [H1 H2].
  split; eexists; eauto.
Qed.

Lemma generate_mock_run config topic count s :
  mock_mode config = true →
  ∃ mock s1,
    generate_mock_articles config topic count s = (Ok mock, s1, []) ∧
    Forall2 from_template (range (Z.min count 3)) mock ∧
    Forall (λ article, category article = JStr topic) mock ∧
    Forall has_text mock.
Proof.
  intros Hm. unfold generate_mock_articles. rewrite Hm. cbn [negb].
  change (Z.of_nat (length (mock_templates topic))) with 3.
  destruct (mock_loop_run topic (range (Z.min count 3))) with (articles := @nil NewsArticle) (s := s)
    as (mock & s1 & Hrun & Hfrom & Hcat).
  { eapply Forall_impl; [apply range_bounds|]. simpl. lia. }
  exists mock, s1. split; [done|]. split; [done|]. split; [done|].
  clear Hrun Hcat. induction Hfrom; constructor; [by eapply from_template_text|done].
Qed.

Lemma generate_mock_two config category s :
  mock_mode config = true →
  ∃ mock s1,
    generate_mock_articles config category 2 s = (Ok mock, s1, []) ∧
    map title mock = map (λ t, JStr (t_title t)) (take 2 (mock_templates category)) ∧
    map summary mock = map (λ t, JStr (t_summary t)) (take 2 (mock_templates category)) ∧
    Forall has_text mock.
Proof.
  intros Hm.
  destruct (generate_mock_run config category 2 s Hm)
    as (mock & s1 & Hrun & Hfrom & Hcat & Htext).
  exists mock, s1. split; [done|]. split; [|split; [|done]].
  all: change (range _) with [0; 1] in Hfrom.
  all: inversion Hfrom as [|? a0 ? l0 H0 Hrest]; subst.
  all: inversion Hrest as [|? a1 ? l1 H1 Hnil]; subst.
  all: inversion Hnil; subst.
  all: inversion Hcat as [|? ? Hc0 Hcat']; subst.
  all: inversion Hcat' as [|? ? Hc1 _]; subst.
  all: destruct H0 as (t0 & Ht0 & Htitle0 & Hsum0 & _).
  all: destruct H1 as (t1 & Ht1 & Htitle1 & Hsum1 & _).
  all: rewrite Hc0 in Ht0; rewrite Hc1 in Ht1.
  all: injection Ht0 as <-; injection Ht1 as <-.
  - simpl. by rewrite Htitle0, Htitle1.
  - simpl. by rewrite Hsum0, Hsum1.
Qed.

(** *** One category *)

(** The three stages of the loop body, each run in the state the previous
    one left: the keyed source (which does nothing without a key), the feed
    when fewer than two articles came, the mock generator when none came
    and mock mode is on. *)
Lemma fetch_category_run config category s :
  ∃ keyed s1 ev1,
    fetch_gnews config category 3 s = (Ok keyed, s1, ev1) ∧
    ∃ feed s2 ev2 mock s3 ev3,
      (if Z.of_nat (length keyed) <? 2
       then fetch_google_news_rss category 3 s1 = (Ok feed, s2, ev2)
       else feed = [] ∧ s2 = s1 ∧ ev2 = []) ∧
      (if (Z.of_nat (length (keyed ++ feed)) <? 1) && mock_mode config
       then generate_mock_articles config category 2 s2 = (Ok mock, s3, ev3)
       else mock = [] ∧ s3 = s2 ∧ ev3 = []) ∧
      fetch_category config category s
        = (Ok (keyed ++ feed ++ mock), s3, ev1 ++ ev2 ++ ev3) ∧
      Forall has_text (keyed ++ feed ++ mock) ∧
      feed_calls (ev1 ++ ev2 ++ ev3) =
        if Z.of_nat (length keyed) <? 2 then [google_news_url category] else [].
Proof.
  destruct (fetch_gnews_run config category 3 s)
    as (keyed & s1 & ev1 & Hg & Htext1 & Hfeed1 & Hnokey & _).
  exists keyed, s1, ev1. split; [done|].
  assert ((if has_api_key config
           then bind (fetch_gnews config category 3) (λ g, ret ([] ++ g))
           else ret []) s = (Ok keyed, s1, ev1 ++ [])) as Hstage1.
  { destruct (has_api_key config) eqn:Hk.
    - eapply bind_run; [exact Hg|done].
    - destruct (Hnokey eq_refl) as (-> & -> & ->). done. }
  destruct (Z.of_nat (length keyed) <? 2) eqn:Hlt.
  - destruct (fetch_rss_feed_run (google_news_url category) category 3 s1)
      as (feed & s2 & ev2 & Hf & Htext2 & Hfeed2).
    destruct ((Z.of_nat (length (keyed ++ feed)) <? 1) && mock_mode config) eqn:Hm.
    + apply andb_prop in Hm as Hm'. destruct Hm' as [_ Hmock].
      destruct (generate_mock_two config category s2 Hmock)
        as (mock & s3 & Hgen & _ & _ & Htext3).
      exists feed, s2, ev2, mock, s3, []. rewrite Hm.
      split; [done|]. split; [done|]. split; [|split].
      * etrans.
        { unfold fetch_category. eapply bind_run; [exact Hstage1|]. rewrite Hlt.
          eapply bind_run; [eapply bind_run; [exact Hf|done]|]. rewrite Hm.
          eapply bind_run; [eapply bind_run; [exact Hgen|done]|done]. }
        rewrite !app_nil_r, <- !app_assoc. done.
      * rewrite !Forall_app. done.
      * by rewrite !feed_calls_app, Hfeed1, Hfeed2.
    + exists feed, s2, ev2, [], s2, []. rewrite Hm.
      split; [done|]. split; [done|]. split; [|split].
      * etrans.
        { unfold fetch_category. eapply bind_run; [exact Hstage1|]. rewrite Hlt.
          eapply bind_run; [eapply bind_run; [exact Hf|done]|]. rewrite Hm.
          eapply bind_run; done. }
        rewrite !app_nil_r. done.
      * rewrite !Forall_app. done.
      * by rewrite !feed_calls_app, Hfeed1, Hfeed2.
  - assert ((Z.of_nat (length (keyed ++ [])) <? 1) && mock_mode config = false)
      as Hm.
    { rewrite app_nil_r. apply andb_false_intro1.
      apply Z.ltb_ge in Hlt. apply Z.ltb_ge. lia. }
    exists [], s1, [], [], s1, []. rewrite Hm.
    split; [done|]. split; [done|]. split; [|split].
    + etrans.
      { unfold fetch_category. eapply bind_run; [exact Hstage1|]. rewrite Hlt.
        rewrite app_nil_r in Hm.
        eapply bind_run; [done|]. rewrite Hm. eapply bind_run; done. }
      rewrite !app_nil_r. done.
    + rewrite !app_nil_r. done.
    + by rewrite !feed_calls_app, Hfeed1.
Qed.

Lemma fetch_category_ok config category s :
  ∃ articles s1 ev,
    fetch_category config category s = (Ok articles, s1, ev) ∧
    Forall has_text articles.
Proof.
  destruct (fetch_category_run config category s)
    as (keyed & s1 & ev1 & _ & feed & s2 & ev2 & mock & s3 & ev3 & _ & _ & Hrun & Ht & _).
  by eexists _, _, _.
Qed.

(** *** All categories *)

Lemma categories_loop_run config categories : ∀ all_articles s,
  ∃ s1 ev,
    categories_loop config categories all_articles s
      = (Ok (all_articles ++ concat (topic_results config categories s)), s1, ev).
Proof.
  induction categories as [|category rest IH]; intros all_articles s.
  - exists s, []. simpl. by rewrite app_nil_r.
  - destruct (fetch_category_ok config category s) as (l & s1 & ev1 & Hrun & _).
    destruct (IH (all_articles ++ l) s1) as (s2 & ev2 & Hrest).
    exists s2, (ev1 ++ ev2). simpl. rewrite Hrun.
    erewrite bind_run; [|exact Hrun|exact Hrest]. by rewrite <- app_assoc.
Qed.

Lemma topic_results_has_text config categories : ∀ s,
  Forall has_text (concat (topic_results config categories s)).
Proof.
  induction categories as [|category rest IH]; intros s; [done|].
  simpl. destruct (fetch_category_ok config category s) as (l & s1 & ev1 & -> & Ht).
  simpl. apply Forall_app. split; [done|apply IH].
Qed.

Lemma fetch_trending_news_run config s :
  ∃ s1 ev,
    fetch_trending_news config s =
      (match _deduplicate_articles
               (concat (topic_results config (news_categories config) s)) with
       | Ok unique_articles => Ok (slice_to unique_articles (max_articles config))
       | Err e => Err e
       end, s1, ev).
Proof.
  destruct (categories_loop_run config (news_categories config) [] s)
    as (s1 & ev & Hrun). simpl in Hrun.
  exists s1, (ev ++ [] ++ []). unfold fetch_trending_news.
  eapply bind_run; [exact Hrun|]. unfold bind, lift, ret.
  by destruct (_deduplicate_articles _).
Qed.

Lemma slice_to_length {A} (l : list A) (n : Z) :
  0 ≤ n → Z.of_nat (length (slice_to l n)) ≤ n.
Proof.
  intros Hn. unfold slice_to. rewrite (proj2 (Z.leb_le 0 n)) by done.
  rewrite length_take. lia.
Qed.

Lemma slice_to_sublist {A} (l : list A) (n : Z) : sublist (slice_to l n) l.
Proof. unfold slice_to. destruct (0 <=? n); apply sublist_take. Qed.

Lemma slice_to_take {A} (l : list A) (n : nat) :
  slice_to l (Z.of_nat n) = take n l.
Proof.
  unfold slice_to. rewrite (proj2 (Z.leb_le 0 _)) by lia. by rewrite Nat2Z.id.
Qed.

(** *** The cache file *)

Lemma NewsArticle_kwargs_to_dict (article : NewsArticle) :
  NewsArticle_kwargs (JDict (to_dict article)) = Ok article.
Proof. destruct article. reflexivity. Qed.

Lemma cache_loop_to_dict (l : list NewsArticle) : ∀ articles,
  cache_loop (map (λ article, JDict (to_dict article)) l) articles
    = Ok (articles ++ l).
Proof.
  induction l as [|a l IH]; intros articles; cbn [map cache_loop].
  - by rewrite app_nil_r.
  - rewrite NewsArticle_kwargs_to_dict, IH. by rewrite <- app_assoc.
Qed.

Lemma save_articles_cache_run (articles : list NewsArticle)
    (cache_file : option string) s :
  ∃ name timestamp w,
    save_articles_cache articles cache_file s =
      (Ok name,
       {| world := w; last_request_time := last_request_time s;
          files :=
            <[name := JDict
                 (<["timestamp" := JStr timestamp]>
                 (<["count" := JInt (Z.of_nat (length articles))]>
                 (<["articles" :=
                      JList (map (λ article, JDict (to_dict article)) articles)]> ∅)))]>
              (files s) |}, []) ∧
    (∀ f, cache_file = Some f → f ≠ "" → name = f).
Proof.
  unfold save_articles_cache, bind, call, ret, write_json.
  destruct cache_file as [f|]; [destruct (String.eqb f "") eqn:Hf|]; simpl.
  - destruct (datetime_now_strftime _ _) as [day w1]. simpl.
    destruct (datetime_now_isoformat w1) as [ts w2]. simpl.
    eexists _, _, _. split; [reflexivity|].
    intros f' [= <-] Hne. apply String.eqb_eq in Hf. done.
  - destruct (datetime_now_isoformat _) as [ts w2]. simpl.
    eexists _, _, _. split; [reflexivity|]. by intros f' [= <-].
  - destruct (datetime_now_strftime _ _) as [day w1]. simpl.
    destruct (datetime_now_isoformat w1) as [ts w2]. simpl.
    eexists _, _, _. split; [reflexivity|]. done.
Qed.

End FetcherFacts.

(** ** Properties of the fetchers *)

Section FetcherRuns.
Context {py : PyLib} {wd : World}.

Implicit Types (s : State) (config : NoobieConfig).

Lemma has_text_truthy (article : NewsArticle) :
  has_text article → truthy (title article) && truthy (summary article) = true.
Proof.
  intros [(t & -> & Ht) (u & -> & Hu)]. simpl.
  destruct (String.eqb_spec t ""), (String.eqb_spec u ""); done.
Qed.

Lemma gnews_loop_elem query items : ∀ articles article,
  article ∈ gnews_loop query items articles ↔
  article ∈ articles ∨
  (Some article ∈ map (gnews_article query) items ∧ has_text article).
Proof.
  induction items as [|item items IH]; intros articles article; simpl.
  - rewrite elem_of_nil. tauto.
  - destruct (gnews_article query item) as [built|] eqn:Hb.
    + destruct (_ && _) eqn:Hc; rewrite IH, ?elem_of_app, !elem_of_cons,
        ?elem_of_nil.
      * assert (has_text built).
        { pose proof (gnews_loop_has_text query [item] [] (Forall_nil_2 _)) as Hf.
          simpl in Hf. rewrite Hb, Hc in Hf. by inversion Hf. }
        naive_solver.
      * assert (¬ has_text built)
          by (intros Ht%has_text_truthy; simpl in Ht; congruence).
        naive_solver.
    + rewrite IH, !elem_of_cons. naive_solver.
Qed.

Lemma rss_loop_elem feed topic items : ∀ articles article,
  article ∈ rss_loop feed topic items articles ↔
  article ∈ articles ∨
  (Some article ∈ map (rss_article feed topic) items ∧ has_text article).
Proof.
  induction items as [|entry items IH]; intros articles article; simpl.
  - rewrite elem_of_nil. tauto.
  - destruct (rss_article feed topic entry) as [built|] eqn:Hb.
    + destruct (_ && _) eqn:Hc; rewrite IH, ?elem_of_app, !elem_of_cons,
        ?elem_of_nil.
      * assert (has_text built).
        { pose proof (rss_loop_has_text feed topic [entry] [] (Forall_nil_2 _)) as Hf.
          simpl in Hf. rewrite Hb, Hc in Hf. by inversion Hf. }
        naive_solver.
      * assert (¬ has_text built)
          by (intros Ht%has_text_truthy; simpl in Ht; congruence).
        naive_solver.
    + rewrite IH, !elem_of_cons. naive_solver.
Qed.

Lemma fetch_trending_news_inv config s articles :
  result_of (fetch_trending_news config) s = Ok articles →
  ∃ unique,
    _deduplicate_articles
      (concat (topic_results config (news_categories config) s)) = Ok unique ∧
    articles = slice_to unique (max_articles config).
Proof.
  unfold result_of.
  destruct (fetch_trending_news_run config s) as (s1 & ev & ->). simpl.
  destruct (_deduplicate_articles _) as [unique|e]; [|done].
  intros [= <-]. by exists unique.
Qed.

Lemma categories_loop_feed_calls config categories : ∀ all_articles s,
  feed_calls (events_of (categories_loop config categories all_articles) s)
    = map google_news_url (fallback_topics config categories s).
Proof.
  induction categories as [|topic rest IH]; intros all_articles s; [done|].
  destruct (fetch_category_run config topic s)
    as (keyed & s1 & ev1 & Hg & feed & s2 & ev2 & mock & s3 & ev3
        & _ & _ & Hrun & _ & Hfeed).
  specialize (IH (all_articles ++ keyed ++ feed ++ mock) s3).
  unfold events_of in IH |- *. cbn [categories_loop fallback_topics].
  unfold result_of, state_of. rewrite Hg, Hrun. cbn [fst snd].
  destruct (categories_loop config rest _ s3) as [[r s4] ev4] eqn:Hrest.
  erewrite bind_run; [|exact Hrun|exact Hrest]. cbn [snd] in IH |- *.
  rewrite feed_calls_app, Hfeed, IH, map_app.
  by destruct (Z.of_nat (length keyed) <? 2).
Qed.

Lemma fetch_trending_news_feed_calls config s :
  feed_calls (events_of (fetch_trending_news config) s)
    = map google_news_url (fallback_topics config (news_categories config) s).
Proof.
  rewrite <- (categories_loop_feed_calls config (news_categories config) [] s).
  unfold events_of, fetch_trending_news, bind at 1.
  destruct (categories_loop config (news_categories config) [] s)
    as [[[all|e] s1] ev1]; [|done].
  unfold bind, lift, ret. cbn [snd].
  destruct (_deduplicate_articles all); cbn [snd]; by rewrite ?app_nil_r.
Qed.

End FetcherRuns.

(** C1. With a limit [max_articles] that is not negative,
    [fetch_trending_news] returns at most [max_articles] articles, whatever
    the categories and the rest of the configuration. *)
Theorem fetch_trending_news_limit {py : PyLib} {wd : World}
    (config : NoobieConfig) (s : State) (articles : list NewsArticle) :
  0 ≤ max_articles config →
  result_of (fetch_trending_news config) s = Ok articles →
  Z.of_nat (length articles) ≤ max_articles config.
Proof.
  intros Hmax Hrun.
  apply fetch_trending_news_inv in Hrun as (unique & _ & ->).
  by apply slice_to_length.
Qed.

Lemma fetch_trending_news_limit_witness :
  Z.of_nat (length [Script.fetched "markets" "alpha one" "d"]) ≤ 1.
Proof.
  apply (@fetch_trending_news_limit Script.py Script.wd
           (Script.config (Some "k") 1 false ["markets"])
           (Script.init [Script.body [Script.item "alpha one" "d";
                                      Script.item "beta two" "d"]] [])).
  - simpl. lia.
  - reflexivity.
Defined.

(** With the limit -1 the slice [unique_articles[:-1]] drops the last
    article only: of two articles one is returned, more than the limit. *)
Lemma negative_limit_exceeded :
  result_of
    (@fetch_trending_news Script.py Script.wd
       (Script.config (Some "k") (-1) false ["markets"]))
    (Script.init [Script.body [Script.item "alpha one" "d";
                               Script.item "beta two" "d"]] [])
  = Ok [Script.fetched "markets" "alpha one" "d"]
  ∧ ¬ (Z.of_nat (length [Script.fetched "markets" "alpha one" "d"])
       ≤ max_articles (Script.config (Some "k") (-1) false ["markets"])).
Proof.
  split; [reflexivity|]. simpl. lia.
Qed.

(** C2. Every article returned by [fetch_gnews], by [fetch_rss_feed] and by
    [fetch_trending_news] has a non-empty string as title and as summary;
    the two source loops keep an article exactly when both are non-empty,
    so an article with an empty title or summary never appears. *)
Theorem retained_articles_have_text {py : PyLib} {wd : World} :
  (∀ config query max_results s,
      ∃ articles, result_of (fetch_gnews config query max_results) s = Ok articles
                  ∧ Forall has_text articles) ∧
  (∀ feed_url topic max_results s,
      ∃ articles, result_of (fetch_rss_feed feed_url topic max_results) s = Ok articles
                  ∧ Forall has_text articles) ∧
  (∀ config s articles,
      result_of (fetch_trending_news config) s = Ok articles →
      Forall has_text articles) ∧
  (∀ query items article,
      article ∈ gnews_loop query items [] ↔
      Some article ∈ map (gnews_article query) items ∧ has_text article) ∧
  (∀ feed topic items article,
      article ∈ rss_loop feed topic items [] ↔
      Some article ∈ map (rss_article feed topic) items ∧ has_text article).
Proof.
  split; [|split; [|split; [|split]]].
  - intros config query n s.
    destruct (fetch_gnews_run config query n s) as (l & s1 & ev & Hrun & Ht & _).
    exists l. unfold result_of. by rewrite Hrun.
  - intros feed_url topic n s.
    destruct (fetch_rss_feed_run feed_url topic n s) as (l & s1 & ev & Hrun & Ht & _).
    exists l. unfold result_of. by rewrite Hrun.
  - intros config s articles Hrun.
    apply fetch_trending_news_inv in Hrun as (unique & Hd & ->).
    apply deduplicate_sublist in Hd.
    pose proof (topic_results_has_text config (news_categories config) s) as Hall.
    rewrite Forall_forall in Hall |- *. intros a Ha. apply Hall.
    eapply elem_of_sublist; [|exact Hd].
    eapply elem_of_sublist; [exact Ha|apply slice_to_sublist].
  - intros query items article. rewrite gnews_loop_elem, elem_of_nil. tauto.
  - intros feed topic items article. rewrite rss_loop_elem, elem_of_nil. tauto.
Qed.

Lemma retained_articles_have_text_witness :
  Forall (@has_text Script.py)
    [Script.fetched "markets" "alpha one" "d"].
Proof.
  apply (proj1 (proj2 (proj2 (@retained_articles_have_text Script.py Script.wd)))
           (Script.config (Some "k") 1 false ["markets"])
           (Script.init [Script.body [Script.item "alpha one" "d";
                                      Script.item "" "no title";
                                      Script.item "beta two" "d"]] [])).
  reflexivity.
Defined.

(** C5. In the body of the loop of [fetch_trending_news], for every
    category and state: the feed of Google News is parsed, once, exactly
    when the keyed source contributed fewer than two articles, which
    includes the case of no API key (the keyed source contributes none);
    with two or more articles no feed is parsed.  Over a whole run the
    feeds parsed are those of the categories for which this happened, in
    the order of the categories. *)
Theorem feed_fallback_when_few {py : PyLib} {wd : World} :
  (∀ (config : NoobieConfig) (topic : string) (s : State),
     ∃ keyed,
       result_of (fetch_gnews config topic 3) s = Ok keyed ∧
       (has_api_key config = false → keyed = []) ∧
       ((length keyed < 2)%nat →
          feed_calls (events_of (fetch_category config topic) s)
            = [google_news_url topic]) ∧
       ((2 ≤ length keyed)%nat →
          feed_calls (events_of (fetch_category config topic) s) = [])) ∧
  (∀ (config : NoobieConfig) (s : State),
     feed_calls (events_of (fetch_trending_news config) s)
       = map google_news_url
             (fallback_topics config (news_categories config) s)).
Proof.
  split; [|apply fetch_trending_news_feed_calls].
  intros config topic s.
  destruct (fetch_gnews_run config topic 3 s)
    as (keyed' & s1' & ev1' & Hg' & _ & _ & Hnokey & _).
  destruct (fetch_category_run config topic s)
    as (keyed & s1 & ev1 & Hg & feed & s2 & ev2 & mock & s3 & ev3
        & _ & _ & Hrun & _ & Hfeed).
  rewrite Hg in Hg'. injection Hg' as <- <- <-.
  exists keyed. unfold result_of, events_of. rewrite Hg, Hrun. simpl.
  split; [done|]. split; [by intros Hk; apply Hnokey|].
  rewrite Hfeed. split; intros Hlen.
  - rewrite (proj2 (Z.ltb_lt _ _)) by lia. done.
  - rewrite (proj2 (Z.ltb_ge _ _)) by lia. done.
Qed.

Lemma feed_fallback_when_few_witness :
  feed_calls
    (events_of (@fetch_category Script.py Script.wd
                  (Script.config None 8 false ["markets"]) "markets")
               (Script.init [] []))
  = [@google_news_url Script.py "markets"]
  ∧ feed_calls
      (events_of (@fetch_category Script.py Script.wd
                    (Script.config (Some "k") 8 false ["markets"]) "markets")
                 (Script.init [Script.body [Script.item "alpha one" "d";
                                            Script.item "beta two" "d"]] []))
    = [].
Proof.
  split.
  - destruct (proj1 (@feed_fallback_when_few Script.py Script.wd)
                (Script.config None 8 false ["markets"]) "markets"
                (Script.init [] [])) as (keyed & Hk & Hnokey & Hfew & _).
    apply Hfew. rewrite (Hnokey eq_refl). simpl. lia.
  - destruct (proj1 (@feed_fallback_when_few Script.py Script.wd)
                (Script.config (Some "k") 8 false ["markets"]) "markets"
                (Script.init [Script.body [Script.item "alpha one" "d";
                                           Script.item "beta two" "d"]] []))
      as (keyed & Hk & _ & _ & Hmany).
    apply Hmany. injection Hk as <-. simpl. lia.
Defined.

(** *** The retry loop, event by event *)

Section RetryTrace.
Context {py : PyLib} {wd : World}.

Implicit Types (s : State) (ev : list event).

Lemma retry_events_app ev1 ev2 :
  retry_events (ev1 ++ ev2) = retry_events ev1 ++ retry_events ev2.
Proof. apply omap_app. Qed.

Lemma quiet_retry_events ev : quiet ev → retry_events ev = [].
Proof.
  intros (Ha & Hb & Hf). induction ev as [|e ev IH]; [done|].
  destruct e; simpl in Ha, Hb, Hf; try done. by apply IH.
Qed.

(** The first attempt is made in the world the rate limiter leaves. *)
Lemma rate_limit_state s :
  ∃ ev, _rate_limit s = (Ok tt, state_of _rate_limit s, ev) ∧ quiet ev.
Proof.
  destruct (rate_limit_run s) as (s1 & ev & Hrun & Hq & _).
  exists ev. unfold state_of. by rewrite Hrun.
Qed.

(** A run of the retry loop, event by event: the attempts that failed, each
    followed by its back-off sleep, and the attempt that succeeded, if one
    did. *)
Lemma retry_loop_trace url params max_retries attempts : ∀ s,
  ∃ r s1 ev (jitters : list float),
    retry_loop url params max_retries attempts s = (Ok r, s1, ev) ∧
    Forall drawn jitters ∧
    retry_events ev =
      failed_trace url params max_retries
        (zip (take (length jitters) attempts) jitters)
      ++ match r, attempts !! length jitters with
         | Some _, Some a => [EvGet url params a true]
         | _, _ => []
         end ∧
    match r with
    | Some data =>
        answered url params data ∧ (length jitters < length attempts)%nat
    | None => length jitters = length attempts
    end ∧
    (∀ a rest data w,
        attempts = a :: rest →
        session_get url params (world (state_of _rate_limit s)) = (HttpJson data, w) →
        r = Some data ∧ jitters = []).
Proof.
  induction attempts as [|a rest IH]; intros s.
  - exists None, s, [], []. by repeat split.
  - destruct (rate_limit_state s) as (ev0 & Hrl & Hq).
    apply quiet_retry_events in Hq.
    set (s1 := state_of _rate_limit s) in *.
    destruct (session_get url params (world s1)) as [outcome w2] eqn:Hget.
    set (s2 := {| world := w2; last_request_time := last_request_time s1;
                  files := files s1 |}).
    assert (request url params a s1 =
              (Ok outcome, s2,
               [EvGet url params a
                  match outcome with HttpJson _ => true | RequestException => false end]))
      as Hreq.
    { unfold request, bind, call, emit, ret. by rewrite Hget. }
    destruct outcome as [data|].
    + exists (Some data), s2, (ev0 ++ [EvGet url params a true] ++ []), [].
      split; [|split; [|split; [|split]]].
      * cbn [retry_loop]. eapply bind_run; [exact Hrl|].
        eapply bind_run; [exact Hreq|done].
      * done.
      * by rewrite retry_events_app, Hq.
      * split; [|simpl; lia]. exists (world s1). by rewrite Hget.
      * intros a' rest' data' w' _ [= <- _]. done.
    + destruct (random_uniform 0 1 w2) as [jitter w3] eqn:Hj.
      set (s3 := {| world := w3; last_request_time := last_request_time s2;
                    files := files s2 |}).
      set (sl := if a <? max_retries - 1
                 then sleep_backoff (2 ^ a) jitter else ret tt).
      destruct (sl s3) as [[rs s4] ev4] eqn:Hsl.
      assert (rs = Ok tt ∧
              ev4 = if a <? max_retries - 1 then [EvBackoff (2 ^ a) jitter] else [])
        as (-> & ->).
      { subst sl. destruct (a <? max_retries - 1); by injection Hsl as <- <- <-. }
      destruct (IH s4) as (r & s5 & ev5 & jitters & Hrun & Hdrawn & Htrace & Hr & _).
      exists r, s5,
        (ev0 ++ [EvGet url params a false]
             ++ ([] ++ (if a <? max_retries - 1 then [EvBackoff (2 ^ a) jitter] else [])
                    ++ ev5)),
        (jitter :: jitters).
      split; [|split; [|split; [|split]]].
      * cbn [retry_loop]. eapply bind_run; [exact Hrl|].
        eapply bind_run; [exact Hreq|].
        eapply bind_run; [unfold call; change (world s2) with w2; by rewrite Hj|].
        eapply bind_run; [exact Hsl|exact Hrun].
      * constructor; [|done]. exists w2. by rewrite Hj.
      * rewrite !retry_events_app, Hq, Htrace. cbn [length take zip zip_with].
        unfold failed_trace. cbn [flat_map fst snd lookup list_lookup].
        destruct (a <? max_retries - 1); reflexivity.
      * destruct r; [|simpl; by f_equal]. destruct Hr as [? ?].
        split; [done|simpl; lia].
      * intros a' rest' data' w' _ Hbad. discriminate Hbad.
Qed.

(** A run of [fetch_gnews] with a key, event by event. *)
Lemma fetch_gnews_trace config query max_results s key :
  news_api_key config = Some key → key ≠ "" →
  ∃ articles s1 ev (r : option gnews_data) (jitters : list float),
    fetch_gnews config query max_results s = (Ok articles, s1, ev) ∧
    Forall drawn jitters ∧
    retry_events ev =
      failed_trace gnews_base_url
        {| q := query; lang := "en"; country := "us";
           max := Z.min max_results 10; apikey := key |} 3
        (zip (take (length jitters) [0; 1; 2]) jitters)
      ++ match r, [0; 1; 2] !! length jitters with
         | Some _, Some a =>
             [EvGet gnews_base_url
                {| q := query; lang := "en"; country := "us";
                   max := Z.min max_results 10; apikey := key |} a true]
         | _, _ => []
         end ∧
    match r with
    | Some data =>
        (length jitters < 3)%nat ∧
        answered gnews_base_url
          {| q := query; lang := "en"; country := "us";
             max := Z.min max_results 10; apikey := key |} data ∧
        articles = match g_articles data with
                   | Some items => gnews_loop query (slice_to items max_results) []
                   | None => []
                   end
    | None => length jitters = 3%nat ∧ articles = []
    end.
Proof.
  intros Hkey Hne. unfold fetch_gnews. rewrite Hkey.
  rewrite (proj2 (String.eqb_neq key "") Hne).
  unfold _make_request_with_retry. change (range 3) with [0; 1; 2].
  set (params := {| q := query |}).
  destruct (retry_loop_trace gnews_base_url params 3 [0; 1; 2] s)
    as (r & s1 & ev & jitters & Hrun & Hdrawn & Htrace & Hr & _).
  destruct r as [data|].
  - destruct Hr as [Hans Hlen].
    exists (match g_articles data with
            | Some items => gnews_loop query (slice_to items max_results) []
            | None => []
            end), s1, (ev ++ []), (Some data), jitters.
    split; [eapply bind_run; [exact Hrun|]; cbv beta iota;
            destruct (g_articles data); reflexivity|].
    split; [done|]. rewrite app_nil_r. split; [exact Htrace|].
    split; [exact Hlen|]. by split.
  - eexists [], s1, (ev ++ []), None, jitters.
    split; [eapply bind_run; [exact Hrun|]; reflexivity|].
    split; [done|]. rewrite app_nil_r. by split.
Qed.

End RetryTrace.

(** C6. [fetch_gnews] never raises.  Without a key it does nothing.  With
    a key its requests and back-off sleeps are, in this order: attempt 0;
    if it failed, a sleep of [2 ** 0] plus jitter and attempt 1; if that
    failed, a sleep of [2 ** 1] plus jitter and attempt 2; after a third
    failure no sleep and no further attempt, and the result is the empty
    list.  Every request goes to the GNews address with the query and the
    key; each jitter is a value [random.uniform(0, 1)] returned; a
    back-off sleep of base [b] and jitter [j] is the call
    [time.sleep(b + j)]; and after a successful attempt the articles are
    those of a body the source answered with. *)
Theorem fetch_gnews_absorbs_failures {py : PyLib} {wd : World}
    (config : NoobieConfig) (query : string) (max_results : Z) (s : State) :
  ∃ articles,
    result_of (fetch_gnews config query max_results) s = Ok articles ∧
    (has_api_key config = false →
     articles = [] ∧ events_of (fetch_gnews config query max_results) s = []) ∧
    (∀ key, news_api_key config = Some key → key ≠ "" →
       ∃ j0 j1 : float,
         let params := {| q := query; lang := "en"; country := "us";
                          max := Z.min max_results 10; apikey := key |} in
         let get := EvGet gnews_base_url params in
         let trace :=
           retry_events (events_of (fetch_gnews config query max_results) s) in
         let from_body :=
           ∃ data, answered gnews_base_url params data ∧
                   articles = match g_articles data with
                              | Some items =>
                                  gnews_loop query (slice_to items max_results) []
                              | None => []
                              end in
         (trace = [get 0 true] ∧ from_body)
         ∨ (trace = [get 0 false; EvBackoff (2 ^ 0) j0; get 1 true]
            ∧ drawn j0 ∧ from_body)
         ∨ (trace = [get 0 false; EvBackoff (2 ^ 0) j0;
                     get 1 false; EvBackoff (2 ^ 1) j1; get 2 true]
            ∧ drawn j0 ∧ drawn j1 ∧ from_body)
         ∨ (trace = [get 0 false; EvBackoff (2 ^ 0) j0;
                     get 1 false; EvBackoff (2 ^ 1) j1; get 2 false]
            ∧ drawn j0 ∧ drawn j1 ∧ articles = [])) ∧
    (∀ (base : Z) (jitter : float) (s2 : State),
       events_of (sleep_backoff base jitter) s2 = [EvBackoff base jitter] ∧
       world (state_of (sleep_backoff base jitter) s2)
         = time_sleep (float_add (float_of_Z base) jitter) (world s2)).
Proof.
  destruct (fetch_gnews_run config query max_results s)
    as (articles & s1 & ev & Hrun & _ & _ & Hnokey & _).
  exists articles. unfold result_of, events_of. rewrite Hrun. cbn [fst snd].
  split; [done|]. split; [|split; [|done]].
  - intros Hk. by destruct (Hnokey Hk) as (-> & _ & ->).
  - intros key Hkey Hne.
    destruct (fetch_gnews_trace config query max_results s key Hkey Hne)
      as (articles2 & s2 & ev2 & r & jitters & Hrun2 & Hdrawn & Htrace & Hr).
    rewrite Hrun in Hrun2. injection Hrun2 as <- <- <-.
    destruct jitters as [|j0 [|j1 [|j2 [|j3 jitters]]]].
    + exists (float_of_Z 0), (float_of_Z 0). cbv zeta. left.
      destruct r as [data|]; [|by destruct Hr].
      destruct Hr as (_ & Hans & Harts). split; [exact Htrace|by exists data].
    + apply Forall_cons in Hdrawn as [Hd0 _].
      exists j0, (float_of_Z 0). cbv zeta. right. left.
      destruct r as [data|]; [|by destruct Hr].
      destruct Hr as (_ & Hans & Harts).
      split; [exact Htrace|]. split; [exact Hd0|by exists data].
    + apply Forall_cons in Hdrawn as [Hd0 Hdrawn].
      apply Forall_cons in Hdrawn as [Hd1 _].
      exists j0, j1. cbv zeta. right. right. left.
      destruct r as [data|]; [|by destruct Hr].
      destruct Hr as (_ & Hans & Harts).
      split; [exact Htrace|]. split; [exact Hd0|]. split; [exact Hd1|by exists data].
    + apply Forall_cons in Hdrawn as [Hd0 Hdrawn].
      apply Forall_cons in Hdrawn as [Hd1 _].
      exists j0, j1. cbv zeta. right. right. right.
      destruct r as [data|]; [destruct Hr as [Hlen _]; simpl in Hlen; lia|].
      destruct Hr as [_ ->]. by repeat split.
    + destruct r as [data|]; destruct Hr as [Hlen _]; simpl in Hlen; lia.
Qed.

Lemma fetch_gnews_absorbs_failures_witness :
  result_of (@fetch_gnews Script.py Script.wd
               (Script.config (Some "k") 8 false ["markets"]) "markets" 3)
            (Script.init [] []) = Ok []
  ∧ ∃ j0 j1 : @float Script.py,
      retry_events
        (events_of (@fetch_gnews Script.py Script.wd
                      (Script.config (Some "k") 8 false ["markets"]) "markets" 3)
                   (Script.init [] []))
      = [EvGet gnews_base_url
           {| q := "markets"; lang := "en"; country := "us"; max := 3; apikey := "k" |}
           0 false;
         EvBackoff 1 j0;
         EvGet gnews_base_url
           {| q := "markets"; lang := "en"; country := "us"; max := 3; apikey := "k" |}
           1 false;
         EvBackoff 2 j1;
         EvGet gnews_base_url
           {| q := "markets"; lang := "en"; country := "us"; max := 3; apikey := "k" |}
           2 false].
Proof.
  destruct (@fetch_gnews_absorbs_failures Script.py Script.wd
              (Script.config (Some "k") 8 false ["markets"]) "markets" 3
              (Script.init [] [])) as (articles & Hrun & _ & Hkey & _).
  split; [reflexivity|].
  destruct (Hkey "k") as (j0 & j1 & Hcase); [reflexivity|discriminate|].
  exists (0 : @float Script.py), (0 : @float Script.py). reflexivity.
Defined.

Section PipelineFacts.
Context {py : PyLib} {wd : World}.

Lemma topic_results_two config t1 t2 s l1 l2 :
  result_of (fetch_category config t1) s = Ok l1 →
  result_of (fetch_category config t2) (state_of (fetch_category config t1) s)
    = Ok l2 →
  concat (topic_results config [t1; t2] s) = l1 ++ l2.
Proof.
  unfold result_of, state_of. intros H1 H2. cbn [topic_results].
  destruct (fetch_category config t1 s) as [[r1 s1] ev1].
  simpl in H1, H2. subst r1.
  destruct (fetch_category config t2 s1) as [[r2 s2] ev2].
  simpl in H2. subst r2. cbn [concat]. by rewrite app_nil_r.
Qed.

(** The lists gathered are those of the categories, one each, in order. *)
Lemma topic_results_order config topics : ∀ s,
  Forall2 (λ topic l, ∃ s1, result_of (fetch_category config topic) s1 = Ok l)
          topics (topic_results config topics s).
Proof.
  induction topics as [|topic rest IH]; intros s; [constructor|].
  cbn [topic_results].
  destruct (fetch_category_ok config topic s) as (l & s1 & ev1 & Hrun & _).
  rewrite Hrun. constructor; [|apply IH].
  exists s. unfold result_of. by rewrite Hrun.
Qed.

Lemma fetch_trending_news_result config s :
  result_of (fetch_trending_news config) s =
    match _deduplicate_articles
            (concat (topic_results config (news_categories config) s)) with
    | Ok unique => Ok (slice_to unique (max_articles config))
    | Err e => Err e
    end.
Proof.
  unfold result_of. by destruct (fetch_trending_news_run config s) as (s1 & ev & ->).
Qed.

End PipelineFacts.

(** C7. [fetch_trending_news] gathers one list per category, in the order
    of the configuration, each the result of the loop body for that
    category; its result is the slice at [max_articles] of what
    [_deduplicate_articles] makes of their concatenation.  That is a
    sublist of the concatenation in which no article is a near-duplicate
    (similarity above 0.7) of one before it, and every gathered article that
    is missing from it is a near-duplicate of one in it.  With two
    categories that contribute three articles each (three is the
    per-category limit the function passes), the six pairwise at a
    similarity of at most 0.7, and a limit of four, it returns the first
    four articles of the concatenation. *)
Theorem fetch_trending_news_pipeline {py : PyLib} {wd : World} :
  (∀ config s,
      Forall2 (λ topic l,
                 ∃ s1, result_of (fetch_category config topic) s1 = Ok l)
              (news_categories config)
              (topic_results config (news_categories config) s)) ∧
  (∀ config s,
      result_of (fetch_trending_news config) s =
        match _deduplicate_articles
                (concat (topic_results config (news_categories config) s)) with
        | Ok unique => Ok (slice_to unique (max_articles config))
        | Err e => Err e
        end) ∧
  (∀ config s articles,
      result_of (fetch_trending_news config) s = Ok articles →
      ∃ unique,
        articles = slice_to unique (max_articles config) ∧
        sublist unique (concat (topic_results config (news_categories config) s)) ∧
        (∀ b, b ∈ concat (topic_results config (news_categories config) s) →
              b ∈ unique ∨ ∃ a, a ∈ unique ∧ near_duplicate a b) ∧
        (∀ r1 b r2 a, unique = r1 ++ b :: r2 → a ∈ r1 → ¬ near_duplicate a b)) ∧
  (∀ config s t1 t2 l1 l2,
      news_categories config = [t1; t2] →
      max_articles config = 4 →
      result_of (fetch_category config t1) s = Ok l1 →
      result_of (fetch_category config t2)
                (state_of (fetch_category config t1) s) = Ok l2 →
      length l1 = 3%nat → length l2 = 3%nat →
      ForallOrdPairs far_apart (l1 ++ l2) →
      result_of (fetch_trending_news config) s = Ok (take 4 (l1 ++ l2)) ∧
      length (take 4 (l1 ++ l2)) = 4%nat).
Proof.
  split; [|split; [|split]].
  - intros config s. apply topic_results_order.
  - intros config s. apply fetch_trending_news_result.
  - intros config s articles Hrun.
    rewrite fetch_trending_news_result in Hrun.
    destruct (_deduplicate_articles _) as [unique|e] eqn:Hd; [|done].
    injection Hrun as <-. exists unique. split; [done|].
    split; [by apply deduplicate_sublist|].
    by apply deduplicate_spec.
  - intros config s t1 t2 l1 l2 Hcats Hmax H1 H2 Hlen1 Hlen2 Hfar.
    split; [|rewrite length_take, length_app; lia].
    rewrite fetch_trending_news_result, Hcats, Hmax.
    pose proof (topic_results_has_text config [t1; t2] s) as Htext.
    rewrite (topic_results_two config t1 t2 s l1 l2 H1 H2) in Htext |- *.
    rewrite deduplicate_all_far; [by rewrite (slice_to_take _ 4)| |done].
    eapply Forall_impl; [exact Htext|].
    intros a [(t & Ht & _) _]. by exists t.
Qed.

Lemma fetch_trending_news_pipeline_witness :
  result_of
    (@fetch_trending_news Script.py Script.wd
       (Script.config (Some "k") 4 false ["markets"; "weather"]))
    (Script.init
       [Script.body [Script.item "alpha one" "d"; Script.item "beta two" "d";
                     Script.item "gamma three" "d"];
        Script.body [Script.item "delta four" "d"; Script.item "eps five" "d";
                     Script.item "zeta six" "d"]] [])
  = Ok [Script.fetched "markets" "alpha one" "d";
        Script.fetched "markets" "beta two" "d";
        Script.fetched "markets" "gamma three" "d";
        Script.fetched "weather" "delta four" "d"].
Proof.
  refine (proj1 (proj2 (proj2 (proj2 (@fetch_trending_news_pipeline Script.py Script.wd)))
           (Script.config (Some "k") 4 false ["markets"; "weather"])
           (Script.init
              [Script.body [Script.item "alpha one" "d"; Script.item "beta two" "d";
                            Script.item "gamma three" "d"];
               Script.body [Script.item "delta four" "d"; Script.item "eps five" "d";
                            Script.item "zeta six" "d"]] [])
           "markets" "weather"
           [Script.fetched "markets" "alpha one" "d";
            Script.fetched "markets" "beta two" "d";
            Script.fetched "markets" "gamma three" "d"]
           [Script.fetched "weather" "delta four" "d";
            Script.fetched "weather" "eps five" "d";
            Script.fetched "weather" "zeta six" "d"]
           _ _ _ _ _ _ _)); try reflexivity.
  repeat first
    [ do 3 eexists;
      (split; [reflexivity|split; [reflexivity|split; [reflexivity|]]]);
      vm_compute; discriminate
    | constructor ].
Defined.

(** C8. Saving a list of articles with [save_articles_cache] writes the
    document [{timestamp, count, articles}] whose [articles] array holds
    the [to_dict] of each article, and [load_articles_cache] on the file
    name that was returned gives back the same list of records. *)
Theorem cache_round_trip {py : PyLib} {wd : World}
    (articles : list NewsArticle) (cache_file : option string) (s : State) :
  ∃ name timestamp,
    result_of (save_articles_cache articles cache_file) s = Ok name ∧
    files (state_of (save_articles_cache articles cache_file) s) !! name =
      Some (JDict
              (<["timestamp" := JStr timestamp]>
              (<["count" := JInt (Z.of_nat (length articles))]>
              (<["articles" :=
                   JList (map (λ article, JDict (to_dict article)) articles)]> ∅)))) ∧
    result_of (load_articles_cache name)
              (state_of (save_articles_cache articles cache_file) s)
      = Ok articles.
Proof.
  destruct (save_articles_cache_run articles cache_file s)
    as (name & timestamp & w & Hrun & _).
  exists name, timestamp. unfold result_of, state_of. rewrite Hrun.
  cbn [fst snd files]. split; [done|]. split; [apply lookup_insert_eq|].
  unfold load_articles_cache, load_try. cbn [files].
  rewrite lookup_insert_eq.
  change ((<["timestamp" := JStr timestamp]>
           (<["count" := JInt (Z.of_nat (length articles))]>
           (<["articles" :=
                JList (map (λ article, JDict (to_dict article)) articles)]> ∅)))
          !! "articles")
    with (Some (JList (map (λ article, JDict (to_dict article)) articles))).
  cbn [default id]. by rewrite cache_loop_to_dict.
Qed.

(** C10. A category for which the keyed source and the feed both gave no
    article: in mock mode [fetch_trending_news] takes for it the two
    articles that [generate_mock_articles] builds from the first two
    templates; with mock mode off the category contributes nothing, and
    [generate_mock_articles] returns the empty list for any arguments. *)
Theorem mock_fallback_stage {py : PyLib} {wd : World}
    (config : NoobieConfig) (topic : string) (s : State) :
  result_of (fetch_gnews config topic 3) s = Ok [] →
  result_of (fetch_google_news_rss topic 3)
            (state_of (fetch_gnews config topic 3) s) = Ok [] →
  (mock_mode config = true →
     ∃ mock,
       result_of (fetch_category config topic) s = Ok mock ∧
       length mock = 2%nat ∧
       map title mock
         = map (λ t, JStr (t_title t)) (take 2 (mock_templates topic)) ∧
       map summary mock
         = map (λ t, JStr (t_summary t)) (take 2 (mock_templates topic))) ∧
  (mock_mode config = false →
     result_of (fetch_category config topic) s = Ok [] ∧
     ∀ topic' count s',
       result_of (generate_mock_articles config topic' count) s' = Ok []).
Proof.
  intros Hkeyed Hfeed.
  destruct (fetch_category_run config topic s)
    as (keyed & s1 & ev1 & Hg & feed & s2 & ev2 & mock & s3 & ev3
        & Hrss & Hmock & Hrun & _ & _).
  unfold result_of, state_of in Hkeyed, Hfeed |- *.
  rewrite Hg in Hkeyed, Hfeed. simpl in Hkeyed, Hfeed.
  injection Hkeyed as ->. simpl in Hrss. rewrite Hrss in Hfeed.
  simpl in Hfeed. injection Hfeed as ->. rewrite Hrun. simpl in Hmock |- *.
  split; intros Hmode; rewrite Hmode in Hmock.
  - destruct (generate_mock_two config topic s2 Hmode)
      as (mock' & s3' & Hgen & Htitles & Hsums & _).
    rewrite Hgen in Hmock. injection Hmock as <- <- <-.
    exists mock'. split; [done|]. split; [|done].
    rewrite <- (length_map title), Htitles. done.
  - destruct Hmock as (-> & _ & _). split; [done|].
    intros topic' count s'. by rewrite generate_mock_off.
Qed.

Lemma mock_fallback_stage_witness :
  ∃ mock,
    result_of (@fetch_category Script.py Script.wd
                 (Script.config None 8 true ["global politics"]) "global politics")
              (Script.init [] []) = Ok mock ∧
    map title mock =
      [JStr "Breaking: Major Development in Global Politics";
       JStr "Global Politics Trends Show Positive Growth"].
Proof.
  destruct (proj1 (@mock_fallback_stage Script.py Script.wd
              (Script.config None 8 true ["global politics"]) "global politics"
              (Script.init [] []) eq_refl eq_refl) eq_refl)
    as (mock & Hrun & _ & Htitles & _).
  exists mock. split; [exact Hrun|]. rewrite Htitles. reflexivity.
Defined.

(** * Further properties *)

(** ** Deduplication on any list *)

Section DedupMore.
Context {py : PyLib}.

Implicit Types (a b : NewsArticle) (l k u r : list NewsArticle).

Lemma is_duplicate_of_error tw seen e :
  is_duplicate_of tw seen = Err e → e = ZeroDivisionError.
Proof.
  induction seen as [|t seen IH]; simpl; [done|].
  destruct (jaccard_exceeds tw (list_to_set (str_split t))) as [[|]|e'] eqn:E;
    [done|exact IH|].
  intros [= <-]. by apply jaccard_exceeds_err in E as [-> _].
Qed.

Lemma jaccard_exceeds_same (x : gset string) :
  jaccard_exceeds x x = if bool_decide (x = ∅) then Err ZeroDivisionError else Ok true.
Proof.
  unfold jaccard_exceeds.
  assert (x ∩ x = x) as -> by set_solver.
  assert (x ∪ x = x) as -> by set_solver.
  case_bool_decide as Hx.
  - subst x. by rewrite size_empty.
  - assert (size x ≠ 0%nat) as Hs by (by intros ?%size_empty_iff%leibniz_equiv).
    rewrite (proj2 (Z.eqb_neq _ _)) by lia. f_equal. apply Z.ltb_lt. lia.
Qed.

(** In a successful run every accepted article of the input was compared
    with every article accepted before it, and the test said no. *)
Lemma dedup_loop_far l : ∀ u r,
  dedup_loop l u (seen_of u) = Ok r →
  ∃ k, r = u ++ k ∧
    ∀ k1 b k2 a ta tb,
      k = k1 ++ b :: k2 → a ∈ u ++ k1 →
      title a = JStr ta → title b = JStr tb →
      jaccard_exceeds (tokens tb) (tokens ta) = Ok false.
Proof.
  induction l as [|b l IH]; intros u r Hr; simpl in Hr.
  - injection Hr as <-. exists []. rewrite app_nil_r. split; [done|].
    intros k1 b k2 a ta tb Hk. by destruct k1.
  - destruct (title b) as [| | | |tb| |] eqn:Htb; try done.
    destruct (is_duplicate_of _ _) as [[|]|e] eqn:Hd; try done.
    + by apply IH.
    + rewrite <- (seen_of_snoc u b tb Htb) in Hr.
      destruct (IH (u ++ [b]) r Hr) as (k & -> & Hfar).
      exists (b :: k). split; [by rewrite <- app_assoc|].
      intros k1 b' k2 a ta tb' Hk Ha Hta Htb'. destruct k1 as [|b0 k1].
      * injection Hk as <- <-. rewrite app_nil_r in Ha.
        rewrite Htb in Htb'. injection Htb' as <-.
        assert (str_lower ta ∈ elements (seen_of u)) as Hseen.
        { apply elem_of_elements, elem_of_seen_of. by exists a, ta. }
        exact (is_duplicate_of_false _ _ Hd _ Hseen).
      * injection Hk as <- ->. apply (Hfar k1 b' k2 a ta tb' eq_refl); [|done|done].
        rewrite <- app_assoc. exact Ha.
Qed.

Lemma dedup_loop_only_division l : ∀ u (seen_titles : gset string) e,
  Forall (λ a, ∃ t, title a = JStr t) l →
  dedup_loop l u seen_titles = Err e → e = ZeroDivisionError.
Proof.
  induction l as [|a l IH]; intros u st e Hall; simpl; [done|].
  apply Forall_cons in Hall as [[t Ht] Hall]. rewrite Ht.
  destruct (is_duplicate_of _ _) as [[|]|e'] eqn:Hd.
  - by apply IH.
  - by apply IH.
  - intros [= <-]. by eapply is_duplicate_of_error.
Qed.

Lemma dedup_loop_attribute_error l1 : ∀ u (seen_titles : gset string) a l2,
  Forall has_words l1 → (∀ t, title a ≠ JStr t) →
  dedup_loop (l1 ++ a :: l2) u seen_titles = Err AttributeError.
Proof.
  induction l1 as [|b l1 IH]; intros u st a l2 Hall Ha; simpl.
  - destruct (title a) as [| | | |t| |] eqn:Ht; try done. by destruct (Ha t).
  - apply Forall_cons in Hall as [(t & Ht & Hne) Hall]. rewrite Ht.
    destruct (is_duplicate_of_total (tokens t) (elements st) Hne) as [d Hd].
    unfold tokens in Hd. rewrite Hd. destruct d; by apply IH.
Qed.

End DedupMore.

Section DedupWordless.
Context {py : PyLib}.

Lemma is_duplicate_of_wordless (seen : list string) t :
  t ∈ seen → (list_to_set (str_split t) : gset string) = ∅ →
  is_duplicate_of ∅ seen = Err ZeroDivisionError.
Proof.
  intros Ht He. rewrite is_duplicate_of_empty.
  assert (existsb (λ t, bool_decide ((list_to_set (str_split t) : gset string) = ∅))
            seen = true) as ->; [|done].
  apply existsb_exists. exists t. split; [by apply list_elem_of_In|].
  by apply bool_decide_eq_true_2.
Qed.

(** Two articles whose titles have no word, anywhere in a list of articles
    with string titles: the loop raises. *)
Lemma deduplicate_two_wordless l1 a l2 b l3 :
  Forall (λ x, ∃ t, title x = JStr t) (l1 ++ a :: l2 ++ b :: l3) →
  wordless a → wordless b →
  _deduplicate_articles (l1 ++ a :: l2 ++ b :: l3) = Err ZeroDivisionError.
Proof.
  intros Hs (ta & Hta & Hea) (tb & Htb & Heb).
  destruct (_deduplicate_articles _) as [r|e] eqn:Hr.
  - exfalso. rewrite deduplicate_app in Hr.
    destruct (_deduplicate_articles l1) as [r1|]; [|done].
    cbn [dedup_loop] in Hr. rewrite Hta in Hr.
    change (list_to_set (str_split (str_lower ta))) with (tokens ta) in Hr.
    rewrite Hea in Hr.
    destruct (is_duplicate_of ∅ (elements (seen_of r1))) as [[|]|] eqn:Hd;
      [|clear Hd|done].
    { rewrite is_duplicate_of_empty in Hd. by destruct (existsb _ _). }
    rewrite <- (seen_of_snoc r1 a ta Hta), dedup_loop_app in Hr.
    destruct (dedup_loop l2 _ _) as [r2|] eqn:H2; [|done].
    apply dedup_loop_sublist in H2 as (k & -> & _).
    cbn [dedup_loop] in Hr. rewrite Htb in Hr.
    change (list_to_set (str_split (str_lower tb))) with (tokens tb) in Hr.
    rewrite Heb in Hr.
    rewrite (is_duplicate_of_wordless _ (str_lower ta)) in Hr; [done| |exact Hea].
    apply elem_of_elements, elem_of_seen_of. exists a, ta.
    split; [|done]. rewrite !elem_of_app, list_elem_of_singleton. auto.
  - f_equal. by eapply dedup_loop_only_division.
Qed.

End DedupWordless.

(** X1. No two articles of the output of [_deduplicate_articles] have
    titles with the same set of lower-cased words: titles that differ only
    in letter case, in the order of the words or in spacing never both
    survive. *)
Theorem deduplicate_distinct_words {py : PyLib}
    (articles unique r1 r2 : list NewsArticle) (a b : NewsArticle)
    (ta tb : string) :
  _deduplicate_articles articles = Ok unique →
  unique = r1 ++ b :: r2 → a ∈ r1 →
  title a = JStr ta → title b = JStr tb →
  tokens ta ≠ tokens tb.
Proof.
  intros Hrun Hsplit Ha Hta Htb Heq.
  destruct (dedup_loop_far articles [] unique Hrun) as (k & Hk & Hfar).
  simpl in Hk. subst k.
  pose proof (Hfar r1 b r2 a ta tb Hsplit Ha Hta Htb) as Hno.
  rewrite Heq, jaccard_exceeds_same in Hno. by case_bool_decide.
Qed.

Lemma deduplicate_distinct_words_witness :
  @tokens Script.py "Rates Rise" ≠ @tokens Script.py "storm warning".
Proof.
  apply (@deduplicate_distinct_words Script.py
           [Script.article "Rates Rise"; Script.article "rise RATES";
            Script.article "storm warning"]
           [Script.article "Rates Rise"; Script.article "storm warning"]
           [Script.article "Rates Rise"] []
           (Script.article "Rates Rise") (Script.article "storm warning")
           "Rates Rise" "storm warning").
  - reflexivity.
  - reflexivity.
  - apply list_elem_of_singleton. reflexivity.
  - reflexivity.
  - reflexivity.
Defined.

(** X2. [_deduplicate_articles] keeps the first article of its input and
    returns the articles it keeps in the order of the input. *)
Theorem deduplicate_keeps_first {py : PyLib}
    (a : NewsArticle) (articles unique : list NewsArticle) :
  _deduplicate_articles (a :: articles) = Ok unique →
  ∃ rest, unique = a :: rest ∧ sublist rest articles.
Proof.
  unfold _deduplicate_articles. cbn [dedup_loop].
  destruct (title a) as [| | | |t| |]; try done.
  rewrite elements_empty. cbn [is_duplicate_of app].
  intros Hrun. apply dedup_loop_sublist in Hrun as (k & -> & Hk).
  by exists k.
Qed.

Lemma deduplicate_keeps_first_witness :
  ∃ rest,
    [Script.article "Rates Rise"; Script.article "storm warning"]
      = Script.article "Rates Rise" :: rest
    ∧ sublist rest [Script.article "rise RATES"; Script.article "storm warning"].
Proof.
  apply (@deduplicate_keeps_first Script.py). reflexivity.
Defined.

(** X3. The exceptions of [_deduplicate_articles]: when every title is a
    string the only exception it can raise is [ZeroDivisionError]; an
    article whose title is not a string ([None], say) raises
    [AttributeError] when the articles before it have titles with words. *)
Theorem deduplicate_exceptions {py : PyLib} :
  (∀ (articles : list NewsArticle) (e : exn),
      Forall (λ a, ∃ t, title a = JStr t) articles →
      _deduplicate_articles articles = Err e → e = ZeroDivisionError) ∧
  (∀ (before after : list NewsArticle) (a : NewsArticle),
      Forall has_words before → (∀ t, title a ≠ JStr t) →
      _deduplicate_articles (before ++ a :: after) = Err AttributeError).
Proof.
  split.
  - intros articles e Hall. by apply dedup_loop_only_division.
  - intros before after a Hall Ha. by apply dedup_loop_attribute_error.
Qed.

Lemma deduplicate_exceptions_witness :
  ZeroDivisionError = ZeroDivisionError ∧
  _deduplicate_articles
    ([Script.article "Rates Rise"]
       ++ {| title := JNull; summary := JStr "s"; url := JNull;
             published_date := JNull; source := JNull; category := JNull;
             content := JNull; author := JNull; image_url := JNull;
             sentiment_score := JNull |} :: [Script.article "storm warning"])
  = Err AttributeError.
Proof.
  split.
  - apply (proj1 (@deduplicate_exceptions Script.py)
             [Script.article "  "; Script.article " "]).
    + repeat constructor; by eexists.
    + reflexivity.
  - apply (proj2 (@deduplicate_exceptions Script.py)).
    + repeat constructor. eexists. split; [reflexivity|vm_compute; discriminate].
    + intros t. discriminate.
Defined.

(** X4. The inner loop of [_deduplicate_articles] runs over a Python set,
    whose order of iteration is not fixed; its outcome (duplicate, not a
    duplicate, or [ZeroDivisionError]) is the same for every order. *)
Theorem inner_loop_order_independent {py : PyLib}
    (title_words : gset string) (seen seen' : list string) :
  seen ≡ₚ seen' →
  is_duplicate_of title_words seen = is_duplicate_of title_words seen'.
Proof. apply is_duplicate_of_Permutation. Qed.

Lemma inner_loop_order_independent_witness :
  @is_duplicate_of Script.py (@tokens Script.py "Rates Rise")
    ["storm warning"; "rise rates"; ""]
  = @is_duplicate_of Script.py (@tokens Script.py "Rates Rise")
    [""; "rise rates"; "storm warning"].
Proof.
  apply (@inner_loop_order_independent Script.py).
  symmetry. exact (reverse_Permutation ["storm warning"; "rise rates"; ""]).
Defined.

(** X5. In any successful run of [_deduplicate_articles]: an article of the
    input that is not returned is a near-duplicate (similarity above 0.7)
    of a returned one, and no returned article is a near-duplicate of one
    returned before it. *)
Theorem deduplicate_drops_only_near_duplicates {py : PyLib}
    (articles unique : list NewsArticle) :
  _deduplicate_articles articles = Ok unique →
  (∀ b, b ∈ articles → b ∈ unique ∨ ∃ a, a ∈ unique ∧ near_duplicate a b) ∧
  (∀ r1 b r2 a, unique = r1 ++ b :: r2 → a ∈ r1 → ¬ near_duplicate a b).
Proof. apply deduplicate_spec. Qed.

Lemma deduplicate_drops_only_near_duplicates_witness :
  Script.article "rise RATES"
    ∈ [Script.article "Rates Rise"; Script.article "storm warning"]
  ∨ ∃ a, a ∈ [Script.article "Rates Rise"; Script.article "storm warning"]
         ∧ near_duplicate a (Script.article "rise RATES").
Proof.
  apply (proj1 (@deduplicate_drops_only_near_duplicates Script.py
           [Script.article "Rates Rise"; Script.article "rise RATES";
            Script.article "storm warning"]
           [Script.article "Rates Rise"; Script.article "storm warning"]
           eq_refl)).
  apply elem_of_cons. right. apply elem_of_cons. by left.
Defined.

(** ** Requests and retries *)

Section RetryMore.
Context {py : PyLib} {wd : World}.

Implicit Types (s : State) (ev : list event) (config : NoobieConfig).

Lemma length_range (n : Z) : length (range n) = Z.to_nat n.
Proof. unfold range. by rewrite length_map, length_seq. Qed.



Lemma quiet_retry_event url params ev :
  quiet ev → Forall (retry_event url params) ev.
Proof.
  intros (Ha & _ & Hf). induction ev as [|e ev IH]; [done|].
  destruct e; simpl in Ha, Hf; try done; constructor; try done; by apply IH.
Qed.

Lemma retry_loop_events url params max_retries attempts : ∀ s,
  Forall (retry_event url params)
         (events_of (retry_loop url params max_retries attempts) s).
Proof.
  unfold events_of.
  induction attempts as [|a rest IH]; intros s; [done|].
  destruct (rate_limit_run s) as (s1 & ev0 & Hrl & Hq & _).
  destruct (request_run url params a s1) as (outcome & s2 & Hreq & _).
  destruct outcome as [data|].
  - cbn [retry_loop].
    erewrite bind_run; [|exact Hrl|eapply bind_run; [exact Hreq|reflexivity]].
    cbn [snd]. apply Forall_app. split; [by apply quiet_retry_event|].
    by repeat constructor.
  - destruct (random_uniform 0 1 (world s2)) as [jitter w3] eqn:Hj.
    set (s3 := {| world := w3; last_request_time := last_request_time s2;
                  files := files s2 |}).
    set (sl := if a <? max_retries - 1
               then sleep_backoff (2 ^ a) jitter else ret tt).
    destruct (sl s3) as [[rs s4] ev4] eqn:Hsl.
    assert (rs = Ok tt ∧ Forall (retry_event url params) ev4) as [-> Hev4].
    { subst sl. destruct (a <? max_retries - 1); injection Hsl as <- <- <-;
        by repeat constructor. }
    specialize (IH s4).
    destruct (retry_loop url params max_retries rest s4) as [[r s5] ev5] eqn:Hrest.
    cbn [retry_loop].
    erewrite bind_run;
      [|exact Hrl
       |eapply bind_run;
          [exact Hreq
          |eapply bind_run;
             [unfold call; by rewrite Hj
             |eapply bind_run; [exact Hsl|exact Hrest]]]].
    cbn [snd] in IH |- *. apply Forall_app. split; [by apply quiet_retry_event|].
    repeat (apply Forall_app; split); try done. by repeat constructor.
Qed.

End RetryMore.



(** ** Spacing of requests *)

(** X7. One call of [_rate_limit], with the floats measured in seconds by
    [seconds].  Suppose that on the operands of this call the comparison
    is that of the measures and the subtraction [current_time -
    last_request_time] is exact, and that [min_request_interval] is one
    second; that, when the call sleeps, the subtraction that gives the
    sleep time is exact too and the clock read by [time.time()] advances by
    at least the sleep time across [time.sleep]; and that, when it does not
    sleep, the second reading of the clock is not before the first.  Then
    the time left in [last_request_time] is at least one second after the
    one found there, and the call sleeps at most once: not at all when a
    second or more has passed, and otherwise for what is missing to one
    second.  The hypotheses hold of IEEE doubles such as those of the
    witness, a clock at 1700000000.25 and a last request at
    1699999999.75. *)
Theorem rate_limit_spacing {py : PyLib} {wd : World}
    (seconds : float → Q) (s : State) :
  let now := (time_time (world s)).1 in
  let w1 := (time_time (world s)).2 in
  let elapsed := float_sub now (last_request_time s) in
  let missing := float_sub min_request_interval elapsed in
  (float_ltb elapsed min_request_interval = true ↔
   (seconds elapsed < seconds min_request_interval)%Q) →
  (seconds min_request_interval == 1)%Q →
  (seconds elapsed == seconds now - seconds (last_request_time s))%Q →
  (float_ltb elapsed min_request_interval = true →
   (seconds missing == 1 - seconds elapsed)%Q ∧
   (seconds now + seconds missing
      <= seconds (time_time (time_sleep missing w1)).1)%Q) →
  (float_ltb elapsed min_request_interval = false →
   (seconds now <= seconds (time_time w1).1)%Q) →
  (seconds (last_request_time s) + 1
     <= seconds (last_request_time (state_of _rate_limit s)))%Q ∧
  (events_of _rate_limit s = [] ∧
     (1 <= seconds now - seconds (last_request_time s))%Q
   ∨ events_of _rate_limit s = [EvThrottle missing] ∧
     (seconds missing == 1 - (seconds now - seconds (last_request_time s)))%Q ∧
     (0 < seconds missing)%Q).
Proof.
  unfold state_of, events_of, _rate_limit, bind, call, sleep_throttle,
    set_last_request_time, ret.
  destruct (time_time (world s)) as [current w1]. cbn [fst snd].
  cbn [world last_request_time files].
  intros Hcmp Hone Hsince Hsleep Hquiet.
  destruct (float_ltb (float_sub current (last_request_time s)) min_request_interval)
    eqn:Hlt; cbn [fst snd world last_request_time files].
  - apply proj1 in Hcmp. specialize (Hcmp eq_refl).
    destruct (Hsleep eq_refl) as [Hd Hwait].
    destruct (time_time (time_sleep _ w1)) as [t w3]. cbn [fst snd] in *.
    cbn [world last_request_time files app].
    split; [lra|]. right. split; [reflexivity|]. split; lra.
  - assert (¬ (seconds (float_sub current (last_request_time s))
               < seconds min_request_interval)%Q) as Hge.
    { intros Hc. apply Hcmp in Hc. discriminate Hc. }
    specialize (Hquiet eq_refl).
    destruct (time_time w1) as [t w3]. cbn [fst snd] in *.
    cbn [world last_request_time files app].
    split; [lra|]. left. split; [reflexivity|lra].
Qed.

Lemma rate_limit_spacing_witness :
  (Doubles.seconds (Doubles.quarters 6799999999) + 1
     <= Doubles.seconds
          (last_request_time
             (state_of (@_rate_limit Doubles.py Doubles.wd)
                {| world := ({| Doubles.clock := Doubles.quarters 6800000001;
                                Doubles.jitter := Doubles.quarters 2 |}
                             : @W Doubles.py Doubles.wd);
                   last_request_time := (Doubles.quarters 6799999999 : @float Doubles.py);
                   files := ∅ |})))%Q.
Proof.
  pose proof (@rate_limit_spacing Doubles.py Doubles.wd Doubles.seconds
            {| world := ({| Doubles.clock := Doubles.quarters 6800000001;
                            Doubles.jitter := Doubles.quarters 2 |}
                         : @W Doubles.py Doubles.wd);
               last_request_time := (Doubles.quarters 6799999999 : @float Doubles.py);
               files := ∅ |}) as H.
  cbv zeta in H. apply H.
  - split; intros _; by vm_compute.
  - by vm_compute.
  - by vm_compute.
  - intros _. split; by vm_compute.
  - intros Hno. exfalso. vm_compute in Hno. discriminate Hno.
Defined.

(** ** Bounds and tags *)

Section RunsMore.
Context {py : PyLib} {wd : World}.

Implicit Types (s : State) (ev : list event) (config : NoobieConfig).

Lemma requests_of_app ev1 ev2 :
  requests_of (ev1 ++ ev2) = requests_of ev1 ++ requests_of ev2.
Proof. apply omap_app. Qed.

Lemma quiet_requests ev : quiet ev → requests_of ev = [].
Proof.
  intros (Ha & _ & _). induction ev as [|e ev IH]; [done|].
  destruct e; simpl in *; try done; by apply IH.
Qed.

Lemma requests_attempts_length ev :
  length (requests_of ev) = length (attempts_of ev).
Proof.
  induction ev as [|e ev IH]; [done|]. destruct e; simpl; by rewrite ?IH.
Qed.

Lemma gnews_loop_length query items : ∀ articles,
  (length (gnews_loop query items articles) ≤ length articles + length items)%nat.
Proof.
  induction items as [|item items IH]; intros articles; cbn [gnews_loop length];
    [lia|].
  destruct (gnews_article query item) as [article|];
    [destruct (_ && _)|]; etrans; try apply IH; rewrite ?length_app; simpl; lia.
Qed.

Lemma gnews_loop_category query items : ∀ articles,
  Forall (λ article, category article = JStr query) articles →
  Forall (λ article, category article = JStr query)
         (gnews_loop query items articles).
Proof.
  induction items as [|item items IH]; intros articles Hall; [done|].
  cbn [gnews_loop].
  destruct (gnews_article query item) as [article|] eqn:Ha; [|by apply IH].
  destruct (_ && _); [|by apply IH].
  apply IH, Forall_app. split; [done|]. apply Forall_singleton.
  unfold gnews_article in Ha.
  destruct (match g_source item with SourceNull => None | _ => _ end); [|done].
  by injection Ha as <-.
Qed.

Lemma rss_loop_length feed topic items : ∀ articles,
  (length (rss_loop feed topic items articles) ≤ length articles + length items)%nat.
Proof.
  induction items as [|item items IH]; intros articles; cbn [rss_loop length];
    [lia|].
  destruct (rss_article feed topic item) as [article|];
    [destruct (_ && _)|]; etrans; try apply IH; rewrite ?length_app; simpl; lia.
Qed.

Lemma rss_loop_category feed topic items : ∀ articles,
  Forall (λ article, category article = JStr topic) articles →
  Forall (λ article, category article = JStr topic)
         (rss_loop feed topic items articles).
Proof.
  induction items as [|item items IH]; intros articles Hall; [done|].
  cbn [rss_loop].
  destruct (rss_article feed topic item) as [article|] eqn:Ha; [|by apply IH].
  destruct (_ && _); [|by apply IH].
  apply IH, Forall_app. split; [done|]. apply Forall_singleton.
  unfold rss_article in Ha.
  destruct (match e_published_parsed item with Some _ => _ | None => _ end);
    [|done].
  by injection Ha as <-.
Qed.

Lemma slice_to_length_nat {A} (l : list A) (n : Z) :
  0 ≤ n → (length (slice_to l n) ≤ Z.to_nat n)%nat.
Proof. intros Hn. pose proof (slice_to_length l n Hn). lia. Qed.

(** One call of [fetch_gnews], with its bound, its tag and its requests. *)
Lemma fetch_gnews_more config query max_results s :
  ∃ articles s1 ev,
    fetch_gnews config query max_results s = (Ok articles, s1, ev) ∧
    (0 ≤ max_results → (length articles ≤ Z.to_nat max_results)%nat) ∧
    Forall (λ article, category article = JStr query) articles ∧
    feed_calls ev = [] ∧
    Forall (λ request,
              request.1 = gnews_base_url ∧ q request.2 = query ∧
              max request.2 = Z.min max_results 10 ∧
              news_api_key config = Some (apikey request.2))
           (requests_of ev).
Proof.
  unfold fetch_gnews.
  destruct (news_api_key config) as [key|]; [destruct (String.eqb key "")|].
  1, 3: exists [], s, []; repeat split; try done; simpl; lia.
  unfold _make_request_with_retry.
  set (params := {| q := query |}).
  pose proof (retry_loop_events gnews_base_url params 3 (range 3) s) as Hev.
  destruct (retry_loop_run gnews_base_url params 3 (range 3) s)
    as (r & s1 & ev & k & Hrun & Hfeed & _ & _).
  unfold events_of in Hev. rewrite Hrun in Hev. cbn [snd] in Hev.
  assert (Forall (λ request,
              request.1 = gnews_base_url ∧ q request.2 = query ∧
              max request.2 = Z.min max_results 10 ∧
              Some key = Some (apikey request.2))
           (requests_of (ev ++ []))) as Hreq.
  { rewrite app_nil_r. clear Hrun Hfeed. induction ev as [|e ev IH]; [done|].
    apply Forall_cons in Hev as [He Hev]. destruct e; simpl in *; try by apply IH.
    destruct He as [-> ->]. constructor; [done|by apply IH]. }
  destruct r as [data|]; [destruct (g_articles data) as [items|] eqn:Hitems|].
  - eexists _, s1, (ev ++ []). split; [|split; [|split; [|split]]].
    + eapply bind_run; [exact Hrun|]. cbv beta iota. by rewrite Hitems.
    + intros Hn. etrans; [apply gnews_loop_length|]. simpl.
      by apply slice_to_length_nat.
    + by apply gnews_loop_category.
    + by rewrite feed_calls_app, Hfeed.
    + done.
  - exists [], s1, (ev ++ []). split; [|split; [|split; [|split]]]; try done.
    + eapply bind_run; [exact Hrun|]. cbv beta iota. by rewrite Hitems.
    + simpl. lia.
    + by rewrite feed_calls_app, Hfeed.
  - exists [], s1, (ev ++ []). split; [|split; [|split; [|split]]]; try done.
    + eapply bind_run; [exact Hrun|]. done.
    + simpl. lia.
    + by rewrite feed_calls_app, Hfeed.
Qed.

(** One call of [fetch_rss_feed], with its bound and its tag; it makes no
    request to the keyed source. *)
Lemma fetch_rss_feed_more feed_url topic max_results s :
  ∃ articles s1 ev,
    fetch_rss_feed feed_url topic max_results s = (Ok articles, s1, ev) ∧
    (0 ≤ max_results → (length articles ≤ Z.to_nat max_results)%nat) ∧
    Forall (λ article, category article = JStr topic) articles ∧
    requests_of ev = [] ∧
    (fst (feedparser_parse feed_url (world (state_of _rate_limit s))) = None →
     articles = []).
Proof.
  unfold fetch_rss_feed, state_of.
  destruct (rate_limit_run s) as (s1 & ev0 & Hrl & Hq & _).
  rewrite Hrl. cbn [fst snd].
  destruct (feedparser_parse feed_url (world s1)) as [feed w2] eqn:Hp.
  exists (match feed with
          | Some feed =>
              rss_loop feed topic (slice_to (entries feed) max_results) []
          | None => []
          end).
  eexists _, (ev0 ++ [] ++ [EvFeed feed_url] ++ []).
  split; [|split; [|split; [|split]]].
  - eapply bind_run; [exact Hrl|].
    eapply bind_run; [unfold call; by rewrite Hp|].
    eapply bind_run; [reflexivity|]. destruct feed; reflexivity.
  - intros Hn. destruct feed as [feed|]; [|simpl; lia].
    etrans; [apply rss_loop_length|]. simpl. by apply slice_to_length_nat.
  - destruct feed; [|done]. by apply rss_loop_category.
  - rewrite requests_of_app. simpl. rewrite app_nil_r. by apply quiet_requests.
  - cbn [fst]. by intros ->.
Qed.

Lemma fetch_category_more config topic s :
  ∃ articles s1 ev,
    fetch_category config topic s = (Ok articles, s1, ev) ∧
    (length articles ≤ 4)%nat ∧
    Forall (λ article, category article = JStr topic) articles ∧
    (length (requests_of ev) ≤ 3)%nat ∧
    (has_api_key config = false → requests_of ev = []) ∧
    Forall (pipeline_request config [topic]) (requests_of ev) ∧
    (length (feed_calls ev) ≤ 1)%nat.
Proof.
  destruct (fetch_category_run config topic s)
    as (keyed & s1 & ev1 & Hg & feed & s2 & ev2 & mock & s3 & ev3
        & Hrss & Hmock & Hrun & _ & Hfeed).
  destruct (fetch_gnews_more config topic 3 s)
    as (keyed' & s1' & ev1' & Hg' & Hlen1 & Hcat1 & _ & Hreq1).
  rewrite Hg in Hg'. injection Hg' as <- <- <-.
  destruct (fetch_gnews_run config topic 3 s)
    as (keyed' & s1' & ev1' & Hg' & _ & _ & Hnokey & Hshape & _).
  rewrite Hg in Hg'. injection Hg' as <- <- <-.
  specialize (Hlen1 ltac:(lia)). change (Z.to_nat 3) with 3%nat in Hlen1.
  assert ((length feed ≤ 3)%nat ∧
          Forall (λ article, category article = JStr topic) feed ∧
          requests_of ev2 = []) as (Hlen2 & Hcat2 & Hreq2).
  { destruct (Z.of_nat (length keyed) <? 2).
    - destruct (fetch_rss_feed_more (google_news_url topic) topic 3 s1)
        as (feed' & s2' & ev2' & Hf' & Hlen & Hcat & Hreq & _).
      unfold fetch_google_news_rss in Hrss. rewrite Hrss in Hf'.
      injection Hf' as <- <- <-. split; [apply Hlen; lia|done].
    - destruct Hrss as (-> & _ & ->). repeat split; simpl; done || lia. }
  assert ((length mock ≤ 2)%nat ∧
          Forall (λ article, category article = JStr topic) mock ∧
          requests_of ev3 = []) as (Hlen3 & Hcat3 & Hreq3).
  { destruct (_ && mock_mode config) eqn:Hc.
    - apply andb_prop in Hc as [_ Hm].
      destruct (generate_mock_run config topic 2 s2 Hm)
        as (mock' & s3' & Hgen & Hfrom & Hcat & _).
      rewrite Hmock in Hgen. injection Hgen as <- <- ->.
      apply Forall2_length in Hfrom. rewrite length_range in Hfrom.
      split; [simpl in Hfrom; lia|done].
    - destruct Hmock as (-> & _ & ->). repeat split; simpl; done || lia. }
  exists (keyed ++ feed ++ mock), s3, (ev1 ++ ev2 ++ ev3).
  split; [done|]. rewrite !requests_of_app, Hreq2, Hreq3, !app_nil_r.
  split; [|split; [|split; [|split; [|split]]]].
  - rewrite !length_app.
    destruct (Z.of_nat (length keyed) <? 2) eqn:Hk.
    + apply Z.ltb_lt in Hk.
      destruct (_ && mock_mode config) eqn:Hc.
      * apply andb_prop in Hc as [Hc _]. apply Z.ltb_lt in Hc.
        rewrite length_app in Hc. lia.
      * destruct Hmock as (-> & _). simpl. lia.
    + destruct Hrss as (-> & _ & _).
      assert ((Z.of_nat (length (keyed ++ [])) <? 1) = false) as Hc.
      { apply Z.ltb_ge in Hk. apply Z.ltb_ge. rewrite app_nil_r. lia. }
      rewrite Hc in Hmock. destruct Hmock as (-> & _). simpl. lia.
  - rewrite !Forall_app. done.
  - rewrite requests_attempts_length. exact Hshape.
  - intros Hk. by destruct (Hnokey Hk) as (_ & _ & ->).
  - eapply Forall_impl; [exact Hreq1|].
    intros [u p] (Hu & Hq & Hmax & Hkey). repeat split; try done.
    simpl in *. rewrite Hq. by apply list_elem_of_singleton.
  - rewrite Hfeed. destruct (_ <? _); simpl; lia.
Qed.

Lemma pipeline_request_weaken config topics topics' request :
  topics ⊆ topics' → pipeline_request config topics request →
  pipeline_request config topics' request.
Proof. intros Hsub (? & ? & ? & ?). repeat split; try done. by apply Hsub. Qed.

Lemma categories_loop_more config topics : ∀ all_articles s,
  ∃ new s1 ev,
    categories_loop config topics all_articles s = (Ok (all_articles ++ new), s1, ev) ∧
    new = concat (topic_results config topics s) ∧
    (length new ≤ 4 * length topics)%nat ∧
    Forall (λ article, ∃ c, c ∈ topics ∧ category article = JStr c) new ∧
    (length (requests_of ev) ≤ 3 * length topics)%nat ∧
    (has_api_key config = false → requests_of ev = []) ∧
    Forall (pipeline_request config topics) (requests_of ev) ∧
    (length (feed_calls ev) ≤ length topics)%nat.
Proof.
  induction topics as [|topic rest IH]; intros all_articles s.
  - exists [], s, []. rewrite app_nil_r. by repeat split.
  - destruct (fetch_category_more config topic s)
      as (l & s1 & ev1 & Hrun & Hlen & Hcat & Hnreq & Hnokey & Hreq & Hfeed).
    destruct (IH (all_articles ++ l) s1)
      as (new & s2 & ev2 & Hrest & Hnew & Hlen' & Hcat' & Hnreq' & Hnokey' & Hreq'
          & Hfeed').
    exists (l ++ new), s2, (ev1 ++ ev2).
    split; [|split; [|split; [|split; [|split; [|split; [|split]]]]]].
    + cbn [categories_loop]. erewrite bind_run; [|exact Hrun|exact Hrest].
      by rewrite <- app_assoc.
    + cbn [topic_results]. rewrite Hrun. cbn [concat]. by rewrite Hnew.
    + rewrite length_app. simpl. lia.
    + apply Forall_app. split.
      * eapply Forall_impl; [exact Hcat|]. intros a Ha. exists topic.
        split; [apply elem_of_cons; by left|done].
      * eapply Forall_impl; [exact Hcat'|]. intros a (c & Hc & Ha). exists c.
        split; [apply elem_of_cons; by right|done].
    + rewrite requests_of_app, length_app. simpl. lia.
    + intros Hk. by rewrite requests_of_app, (Hnokey Hk), (Hnokey' Hk).
    + rewrite requests_of_app. apply Forall_app. split.
      * eapply Forall_impl; [exact Hreq|]. intros r.
        apply pipeline_request_weaken. set_solver.
      * eapply Forall_impl; [exact Hreq'|]. intros r.
        apply pipeline_request_weaken. set_solver.
    + rewrite feed_calls_app, length_app. simpl. lia.
Qed.

Lemma fetch_trending_news_events config s :
  events_of (fetch_trending_news config) s
    = events_of (categories_loop config (news_categories config) []) s.
Proof.
  unfold events_of, fetch_trending_news, bind at 1.
  destruct (categories_loop config (news_categories config) [] s)
    as [[[all|e] s1] ev1]; [|done].
  unfold bind, lift, ret. cbn [snd].
  destruct (_deduplicate_articles all); cbn [snd]; by rewrite ?app_nil_r.
Qed.

End RunsMore.

(** X8. [fetch_gnews] returns at most [max_results] articles (for a
    [max_results] that is not negative), each tagged with the query as its
    category; every request it makes goes to the GNews address with the
    query, the configured key and a page size [max] of
    [min(max_results, 10)], never above 10. *)
Theorem gnews_request_limits {py : PyLib} {wd : World}
    (config : NoobieConfig) (query : string) (max_results : Z) (s : State) :
  ∃ articles,
    result_of (fetch_gnews config query max_results) s = Ok articles ∧
    (0 ≤ max_results → Z.of_nat (length articles) ≤ max_results) ∧
    Forall (λ article, category article = JStr query) articles ∧
    Forall (λ request,
              request.1 = gnews_base_url ∧ q request.2 = query ∧
              max request.2 = Z.min max_results 10 ∧ max request.2 ≤ 10 ∧
              news_api_key config = Some (apikey request.2))
           (requests_of (events_of (fetch_gnews config query max_results) s)).
Proof.
  destruct (fetch_gnews_more config query max_results s)
    as (articles & s1 & ev & Hrun & Hlen & Hcat & _ & Hreq).
  exists articles. unfold result_of, events_of. rewrite Hrun. cbn [fst snd].
  split; [done|]. split; [|split; [done|]].
  - intros Hn. specialize (Hlen Hn). lia.
  - eapply Forall_impl; [exact Hreq|].
    intros r (? & ? & Hmax & ?). repeat split; try done. rewrite Hmax. lia.
Qed.

Lemma gnews_request_limits_witness :
  Z.of_nat (length [Script.fetched "markets" "alpha one" "d"]) ≤ 1.
Proof.
  destruct (@gnews_request_limits Script.py Script.wd
              (Script.config (Some "k") 8 false ["markets"]) "markets" 1
              (Script.init [Script.body [Script.item "alpha one" "d";
                                         Script.item "beta two" "d"]] []))
    as (articles & Hrun & Hlen & _).
  injection Hrun as <-. apply Hlen. lia.
Defined.

(** X9. [fetch_rss_feed] returns at most [max_results] articles (for a
    [max_results] that is not negative), each tagged with the category it
    was given; it makes no request to the keyed source, and when
    [feedparser.parse] raises it returns the empty list. *)
Theorem rss_feed_bounded {py : PyLib} {wd : World}
    (feed_url topic : string) (max_results : Z) (s : State) :
  ∃ articles,
    result_of (fetch_rss_feed feed_url topic max_results) s = Ok articles ∧
    (0 ≤ max_results → Z.of_nat (length articles) ≤ max_results) ∧
    Forall (λ article, category article = JStr topic) articles ∧
    requests_of (events_of (fetch_rss_feed feed_url topic max_results) s) = [] ∧
    (fst (feedparser_parse feed_url (world (state_of _rate_limit s))) = None →
     articles = []).
Proof.
  destruct (fetch_rss_feed_more feed_url topic max_results s)
    as (articles & s1 & ev & Hrun & Hlen & Hcat & Hreq & Hfail).
  exists articles. unfold result_of, events_of. rewrite Hrun. cbn [fst snd].
  split; [done|]. split; [|done].
  intros Hn. specialize (Hlen Hn). lia.
Qed.

Lemma rss_feed_bounded_witness :
  result_of (@fetch_rss_feed Script.py Script.wd "https://feeds.example/x" "markets" 3)
            (Script.init [] []) = Ok [].
Proof.
  destruct (@rss_feed_bounded Script.py Script.wd "https://feeds.example/x"
              "markets" 3 (Script.init [] []))
    as (articles & Hrun & _ & _ & _ & Hfail).
  rewrite Hrun. f_equal. apply Hfail. reflexivity.
Defined.

(** X10. One category contributes at most four articles to
    [fetch_trending_news] (three from the keyed source, or at most one from
    it and three from the feed, or two mock ones), so the function returns
    at most four articles per configured category. *)
Theorem at_most_four_per_category {py : PyLib} {wd : World} :
  (∀ (config : NoobieConfig) (topic : string) (s : State),
     ∃ articles, result_of (fetch_category config topic) s = Ok articles ∧
                 (length articles ≤ 4)%nat) ∧
  (∀ (config : NoobieConfig) (s : State) (articles : list NewsArticle),
     result_of (fetch_trending_news config) s = Ok articles →
     (length articles ≤ 4 * length (news_categories config))%nat).
Proof.
  split.
  - intros config topic s.
    destruct (fetch_category_more config topic s)
      as (articles & s1 & ev & Hrun & Hlen & _).
    exists articles. unfold result_of. by rewrite Hrun.
  - intros config s articles Hrun.
    apply fetch_trending_news_inv in Hrun as (unique & Hd & ->).
    apply deduplicate_sublist, sublist_length in Hd.
    pose proof (sublist_length _ _ (slice_to_sublist unique (max_articles config))).
    destruct (categories_loop_more config (news_categories config) [] s)
      as (new & s1 & ev & _ & -> & Hlen & _).
    lia.
Qed.

Lemma at_most_four_per_category_witness :
  (length [Script.fetched "markets" "alpha one" "d"]
     ≤ 4 * length ["markets"])%nat.
Proof.
  apply (proj2 (@at_most_four_per_category Script.py Script.wd)
           (Script.config (Some "k") 1 false ["markets"])
           (Script.init [Script.body [Script.item "alpha one" "d";
                                      Script.item "beta two" "d"]] [])).
  reflexivity.
Defined.

Section FeedCalls.
Context {py : PyLib} {wd : World}.

Lemma fallback_topics_sublist config topics : ∀ s,
  sublist (fallback_topics config topics s) topics.
Proof.
  induction topics as [|topic rest IH]; intros s; [done|].
  cbn [fallback_topics]. destruct (_ <? 2).
  - apply sublist_skip, IH.
  - apply sublist_cons, IH.
Qed.

Lemma fallback_topics_no_key config topics : ∀ s,
  has_api_key config = false → fallback_topics config topics s = topics.
Proof.
  induction topics as [|topic rest IH]; intros s Hk; [done|].
  cbn [fallback_topics].
  destruct (fetch_gnews_run config topic 3 s)
    as (articles & s1 & ev & Hrun & _ & _ & Hnokey & _).
  destruct (Hnokey Hk) as (-> & _ & _).
  unfold result_of at 1. rewrite Hrun. cbn [fst length]. cbn [app].
  f_equal. by apply IH.
Qed.

End FeedCalls.

(** X11. A run of [fetch_trending_news] calls [session.get] at most three
    times and [feedparser.parse] at most once per configured category (so
    it fetches over the network at most four times per category).  Every
    [session.get] goes to the GNews address, for one of the categories,
    asking for three articles, with the configured key; the feeds parsed
    are the Google News feeds of some of the categories, in their order. *)
Theorem pipeline_calls_bounded {py : PyLib} {wd : World}
    (config : NoobieConfig) (s : State) :
  (length (requests_of (events_of (fetch_trending_news config) s))
     ≤ 3 * length (news_categories config))%nat ∧
  (length (feed_calls (events_of (fetch_trending_news config) s))
     ≤ length (news_categories config))%nat ∧
  Forall (pipeline_request config (news_categories config))
         (requests_of (events_of (fetch_trending_news config) s)) ∧
  (∃ topics,
     sublist topics (news_categories config) ∧
     feed_calls (events_of (fetch_trending_news config) s)
       = map google_news_url topics).
Proof.
  split; [|split; [|split]].
  - rewrite fetch_trending_news_events. unfold events_of.
    destruct (categories_loop_more config (news_categories config) [] s)
      as (new & s1 & ev & -> & _ & _ & _ & Hn & _). exact Hn.
  - rewrite fetch_trending_news_events. unfold events_of.
    destruct (categories_loop_more config (news_categories config) [] s)
      as (new & s1 & ev & -> & _ & _ & _ & _ & _ & _ & Hfeed). exact Hfeed.
  - rewrite fetch_trending_news_events. unfold events_of.
    destruct (categories_loop_more config (news_categories config) [] s)
      as (new & s1 & ev & -> & _ & _ & _ & _ & _ & Hreq & _). exact Hreq.
  - exists (fallback_topics config (news_categories config) s).
    split; [apply fallback_topics_sublist|apply fetch_trending_news_feed_calls].
Qed.

(** X12. Without an API key ([None] or the empty string) a run of
    [fetch_trending_news] never calls [session.get], so nothing is sent to
    the keyed source; what it fetches is the Google News feed of every
    configured category, each parsed once, in the order of the
    configuration. *)
Theorem no_key_no_request {py : PyLib} {wd : World}
    (config : NoobieConfig) (s : State) :
  has_api_key config = false →
  requests_of (events_of (fetch_trending_news config) s) = [] ∧
  feed_calls (events_of (fetch_trending_news config) s)
    = map google_news_url (news_categories config).
Proof.
  intros Hk. split.
  - rewrite fetch_trending_news_events. unfold events_of.
    destruct (categories_loop_more config (news_categories config) [] s)
      as (new & s1 & ev & -> & _ & _ & _ & _ & Hnokey & _).
    by apply Hnokey.
  - rewrite fetch_trending_news_feed_calls.
    by rewrite fallback_topics_no_key.
Qed.

Lemma no_key_no_request_witness :
  requests_of
    (events_of (@fetch_trending_news Script.py Script.wd
                  (Script.config (Some "") 8 true ["markets"; "weather"]))
               (Script.init [Script.body [Script.item "alpha one" "d"]] []))
  = []
  ∧ feed_calls
      (events_of (@fetch_trending_news Script.py Script.wd
                    (Script.config (Some "") 8 true ["markets"; "weather"]))
                 (Script.init [Script.body [Script.item "alpha one" "d"]] []))
    = map (@google_news_url Script.py) ["markets"; "weather"].
Proof. apply (@no_key_no_request Script.py Script.wd). reflexivity. Defined.

(** X13. Every article returned by [fetch_trending_news] carries as its
    category one of the configured categories, the one it was fetched
    for. *)
Theorem returned_articles_tagged {py : PyLib} {wd : World}
    (config : NoobieConfig) (s : State) (articles : list NewsArticle) :
  result_of (fetch_trending_news config) s = Ok articles →
  Forall (λ article, ∃ c, c ∈ news_categories config ∧ category article = JStr c)
         articles.
Proof.
  intros Hrun. apply fetch_trending_news_inv in Hrun as (unique & Hd & ->).
  apply deduplicate_sublist in Hd.
  destruct (categories_loop_more config (news_categories config) [] s)
    as (new & s1 & ev & _ & -> & _ & Hcat & _).
  rewrite Forall_forall in Hcat |- *. intros a Ha. apply Hcat.
  eapply elem_of_sublist; [|exact Hd].
  eapply elem_of_sublist; [exact Ha|apply slice_to_sublist].
Qed.

Lemma returned_articles_tagged_witness :
  Forall (λ article, ∃ c, c ∈ ["markets"; "weather"]
                          ∧ category article = @JStr Script.py c)
         [Script.fetched "markets" "alpha one" "d";
          Script.fetched "weather" "delta four" "d"].
Proof.
  apply (@returned_articles_tagged Script.py Script.wd
           (Script.config (Some "k") 2 false ["markets"; "weather"])
           (Script.init
              [Script.body [Script.item "alpha one" "d"; Script.item "" "d"];
               Script.body [Script.item "delta four" "d";
                            Script.item "eps five" "d"]] [])).
  reflexivity.
Defined.

(** X14. [fetch_trending_news] has no handler around the deduplication:
    when [_deduplicate_articles] raises on the gathered articles, the run
    raises the same exception and returns nothing.  In particular, two
    gathered articles whose titles have no word (white space only), from
    any categories, make the whole run raise [ZeroDivisionError]. *)
Theorem dedup_failure_escapes {py : PyLib} {wd : World} :
  (∀ (config : NoobieConfig) (s : State) (e : exn),
     _deduplicate_articles
       (concat (topic_results config (news_categories config) s)) = Err e →
     result_of (fetch_trending_news config) s = Err e) ∧
  (∀ (config : NoobieConfig) (s : State) l1 a l2 b l3,
     concat (topic_results config (news_categories config) s)
       = l1 ++ a :: l2 ++ b :: l3 →
     wordless a → wordless b →
     result_of (fetch_trending_news config) s = Err ZeroDivisionError).
Proof.
  split.
  - intros config s e Hd. by rewrite fetch_trending_news_result, Hd.
  - intros config s l1 a l2 b l3 Hl Ha Hb.
    rewrite fetch_trending_news_result, Hl.
    rewrite deduplicate_two_wordless; [done| |done|done].
    rewrite <- Hl.
    eapply Forall_impl; [apply topic_results_has_text|].
    intros x [(t & Ht & _) _]. by exists t.
Qed.

Lemma dedup_failure_escapes_witness :
  result_of (@fetch_trending_news Script.py Script.wd
               (Script.config (Some "k") 8 false ["markets"; "weather"]))
            (Script.init [Script.body [Script.item "alpha one" "d";
                                       Script.item " " "d"];
                          Script.body [Script.item "beta two" "e";
                                       Script.item "  " "e"]] [])
    = Err ZeroDivisionError.
Proof.
  apply (proj2 (@dedup_failure_escapes Script.py Script.wd)
           (Script.config (Some "k") 8 false ["markets"; "weather"])
           (Script.init [Script.body [Script.item "alpha one" "d";
                                      Script.item " " "d"];
                         Script.body [Script.item "beta two" "e";
                                      Script.item "  " "e"]] [])
           [Script.fetched "markets" "alpha one" "d"]
           (Script.fetched "markets" " " "d")
           [Script.fetched "weather" "beta two" "e"]
           (Script.fetched "weather" "  " "e")
           []).
  - reflexivity.
  - exists " ". split; [reflexivity|]. by vm_compute.
  - exists "  ". split; [reflexivity|]. by vm_compute.
Defined.

(** X15. In mock mode [generate_mock_articles] never raises and makes no
    request; it returns [min(count, 3)] articles, none for a [count] that
    is not positive, each built from the template of its position, with a
    non-empty title and summary and the given category. *)
Theorem mock_articles_count {py : PyLib} {wd : World}
    (config : NoobieConfig) (topic : string) (count : Z) (s : State) :
  mock_mode config = true →
  ∃ mock,
    result_of (generate_mock_articles config topic count) s = Ok mock ∧
    events_of (generate_mock_articles config topic count) s = [] ∧
    length mock = Z.to_nat (Z.min count 3) ∧
    Forall2 from_template (range (Z.min count 3)) mock ∧
    Forall has_text mock ∧
    Forall (λ article, category article = JStr topic) mock.
Proof.
  intros Hm.
  destruct (generate_mock_run config topic count s Hm)
    as (mock & s1 & Hrun & Hfrom & Hcat & Htext).
  exists mock. unfold result_of, events_of. rewrite Hrun. cbn [fst snd].
  split; [done|]. split; [done|]. split; [|done].
  apply Forall2_length in Hfrom. by rewrite length_range in Hfrom.
Qed.

Lemma mock_articles_count_witness :
  ∃ mock,
    result_of (@generate_mock_articles Script.py Script.wd
                 (Script.config None 8 true []) "global-news" 7)
              (Script.init [] []) = Ok mock
    ∧ length mock = 3%nat.
Proof.
  destruct (@mock_articles_count Script.py Script.wd
              (Script.config None 8 true []) "global-news" 7
              (Script.init [] []) eq_refl)
    as (mock & Hrun & _ & Hlen & _).
  exists mock. split; [exact Hrun|exact Hlen].
Defined.

(** ** The cache file, further *)

Section CacheMore.
Context {py : PyLib} {wd : World}.

Implicit Types (s : State) (items : list jval) (articles : list NewsArticle).

Lemma cache_loop_ok items : ∀ articles l,
  Forall2 (λ item article, NewsArticle_kwargs item = Ok article) items l →
  cache_loop items articles = Ok (articles ++ l).
Proof.
  induction items as [|item items IH]; intros articles l Hall;
    inversion Hall as [|? a ? l' Ha Hrest]; subst; cbn [cache_loop].
  - by rewrite app_nil_r.
  - rewrite Ha, (IH _ l' Hrest). by rewrite <- app_assoc.
Qed.

Lemma cache_loop_err items : ∀ articles,
  Exists (λ item, ∃ e, NewsArticle_kwargs item = Err e) items →
  ∃ e, cache_loop items articles = Err e.
Proof.
  induction items as [|item items IH]; intros articles Hex;
    inversion Hex as [? ? [e He]|? ? Hrest]; subst; cbn [cache_loop].
  - rewrite He. by exists e.
  - destruct (NewsArticle_kwargs item) as [a|e]; [by apply IH|by exists e].
Qed.

Lemma dom_to_dict (article : NewsArticle) : dom (to_dict article) = field_names.
Proof.
  unfold to_dict, field_names. rewrite !dom_insert_L, dom_empty_L. set_solver.
Qed.

End CacheMore.

(** X16. [load_articles_cache] never raises and changes nothing.  It
    returns the empty list when the file is missing, when the document is
    not an object, or when it has no [articles] key; and when one element
    of [articles] cannot be made into a [NewsArticle] (a missing required
    field, an unknown field, not an object) the whole list is lost, not
    only that element. *)
Theorem load_cache_all_or_nothing {py : PyLib} {wd : World}
    (cache_file : string) (s : State) :
  ∃ articles,
    load_articles_cache cache_file s = (Ok articles, s, []) ∧
    (files s !! cache_file = None → articles = []) ∧
    (∀ doc, files s !! cache_file = Some doc →
            (∀ d, doc ≠ JDict d) → articles = []) ∧
    (∀ d, files s !! cache_file = Some (JDict d) →
          d !! "articles" = None → articles = []) ∧
    (∀ d items, files s !! cache_file = Some (JDict d) →
                d !! "articles" = Some (JList items) →
                (Exists (λ item, ∃ e, NewsArticle_kwargs item = Err e) items →
                 articles = []) ∧
                (∀ l, Forall2 (λ item article, NewsArticle_kwargs item = Ok article)
                              items l →
                      articles = l)).
Proof.
  unfold load_articles_cache.
  exists (match load_try cache_file s with Ok l => l | Err _ => [] end).
  split; [by destruct (load_try cache_file s)|].
  unfold load_try. split; [by intros ->|]. split; [|split].
  - intros doc -> Hno. destruct doc; try done. by destruct (Hno d).
  - intros d -> ->. done.
  - intros d items -> ->. cbn [default id]. split.
    + intros Hex. by destruct (cache_loop_err items [] Hex) as [e ->].
    + intros l Hall. by rewrite (cache_loop_ok items [] l Hall).
Qed.

Lemma load_cache_all_or_nothing_witness :
  fst (fst (@load_articles_cache Script.py Script.wd "cache.json"
         {| world := ({| Script.responses := []; Script.feeds := [];
                         Script.clock := 0 |} : @W Script.py Script.wd);
            last_request_time := (0 : @float Script.py);
            files := {[ "cache.json" :=
              JDict {[ "articles" :=
                JList [JDict (to_dict (Script.article "alpha one"));
                       JDict {[ "title" := JStr "beta two" ]}] ]} ]} |}))
  = Ok [].
Proof.
  destruct (@load_cache_all_or_nothing Script.py Script.wd "cache.json"
         {| world := ({| Script.responses := []; Script.feeds := [];
                         Script.clock := 0 |} : @W Script.py Script.wd);
            last_request_time := (0 : @float Script.py);
            files := {[ "cache.json" :=
              JDict {[ "articles" :=
                JList [JDict (to_dict (Script.article "alpha one"));
                       JDict {[ "title" := JStr "beta two" ]}] ]} ]} |})
    as (articles & Hrun & _ & _ & _ & Hitems).
  rewrite Hrun. cbn [fst]. f_equal.
  eapply (proj1 (Hitems _ _ eq_refl eq_refl)).
  apply Exists_cons_tl, Exists_cons_hd. by exists TypeError.
Defined.

(** X17. When [NewsArticle( **kw)] succeeds, [to_dict] of the article is
    [kw] completed with [None] for the optional fields it does not have:
    the dictionary is read back exactly when it has all ten fields. *)
Theorem kwargs_to_dict {py : PyLib} (kw : gmap string jval) (article : NewsArticle) :
  NewsArticle_kwargs (JDict kw) = Ok article →
  to_dict article = kw ∪ optional_defaults ∧
  (dom kw = field_names → to_dict article = kw).
Proof.
  intros Hk.
  assert (to_dict article = kw ∪ optional_defaults) as Hto.
  { unfold NewsArticle_kwargs in Hk. case_bool_decide as Hdom; [|done].
    destruct (kw !! "title") as [t|] eqn:H1; [|done].
    destruct (kw !! "summary") as [sm|] eqn:H2; [|done].
    destruct (kw !! "url") as [u|] eqn:H3; [|done].
    destruct (kw !! "published_date") as [p|] eqn:H4; [|done].
    destruct (kw !! "source") as [src|] eqn:H5; [|done].
    destruct (kw !! "category") as [c|] eqn:H6; [|done].
    injection Hk as <-. apply map_eq. intros k.
    rewrite lookup_union.
    destruct (decide (k ∈ field_names)) as [Hin|Hout].
    - unfold field_names in Hin. rewrite elem_of_list_to_set in Hin.
      repeat (apply elem_of_cons in Hin as [->|Hin]);
        [..|by apply elem_of_nil in Hin];
        rewrite ?H1, ?H2, ?H3, ?H4, ?H5, ?H6; try reflexivity;
        unfold to_dict; cbn [content author image_url sentiment_score];
        match goal with
        | |- context [kw !! ?key] => destruct (kw !! key); reflexivity
        end.
    - assert (kw !! k = None) as -> by (apply not_elem_of_dom; set_solver).
      assert (to_dict
                {| title := t; summary := sm; url := u; published_date := p;
                   source := src; category := c;
                   content := default JNull (kw !! "content");
                   author := default JNull (kw !! "author");
                   image_url := default JNull (kw !! "image_url");
                   sentiment_score := default JNull (kw !! "sentiment_score") |}
              !! k = None) as ->.
      { apply not_elem_of_dom. by rewrite dom_to_dict. }
      assert (optional_defaults !! k = None) as ->; [|done].
      apply not_elem_of_dom. unfold optional_defaults.
      rewrite !dom_insert_L, dom_empty_L. unfold field_names in Hout.
      set_solver. }
  split; [exact Hto|]. intros Hdom. rewrite Hto.
  apply map_eq. intros k. rewrite lookup_union.
  destruct (kw !! k) as [v|] eqn:Hv; [by destruct (optional_defaults !! k)|].
  assert (optional_defaults !! k = None) as ->; [|done].
  apply not_elem_of_dom. apply not_elem_of_dom in Hv. rewrite Hdom in Hv.
  unfold optional_defaults. rewrite !dom_insert_L, dom_empty_L.
  unfold field_names in Hv. set_solver.
Qed.

Lemma kwargs_to_dict_witness :
  ∃ article : @NewsArticle Script.py,
    to_dict article
    = ({[ "title" := JStr "t"; "summary" := JStr "s"; "url" := JStr "u";
          "published_date" := JStr "p"; "source" := JStr "src";
          "category" := JStr "c"; "author" := JStr "me" ]} : gmap string jval)
      ∪ optional_defaults.
Proof.
  eexists.
  apply (@kwargs_to_dict Script.py
           {[ "title" := JStr "t"; "summary" := JStr "s"; "url" := JStr "u";
              "published_date" := JStr "p"; "source" := JStr "src";
              "category" := JStr "c"; "author" := JStr "me" ]}).
  reflexivity.
Defined.

(** ** The configuration and the entry points *)

Section ConfigFacts.
Context {py : PyLib} {pi : PyInt}.
Import Config.

Lemma NoDup_fields : NoDup fields.
Proof. apply (bool_decide_unpack _). by vm_compute. Qed.

Lemma init_lookup kw m name dflt :
  init kw = Done m → (name, dflt) ∈ field_defaults →
  m !! name = Some (default (initial dflt) (kw !! name)).
Proof.
  intros Hinit Hin. pose proof NoDup_fields as Hnd.
  unfold init, fields in *. revert Hinit Hin Hnd.
  generalize field_defaults. intros l.
  destruct (bool_decide _); [|discriminate]. intros [= <-] Hin Hnd.
  apply elem_of_list_to_map_1.
  - by rewrite <- list_fmap_compose.
  - apply list_elem_of_fmap. by exists (name, dflt).
Qed.

Lemma init_attr kw m name dflt :
  init kw = Done m → (name, dflt) ∈ field_defaults →
  attr m name = default (initial dflt) (kw !! name).
Proof. intros Hinit Hin. unfold attr. by rewrite (init_lookup _ _ _ _ Hinit Hin). Qed.

Lemma init_known kw :
  dom kw ⊆ list_to_set fields → ∃ m, init kw = Done m.
Proof. intros Hdom. unfold init. rewrite bool_decide_eq_true_2 by done. by eexists. Qed.

Lemma init_unknown kw :
  ¬ dom kw ⊆ list_to_set fields → init kw = Raised TypeError.
Proof. intros Hdom. unfold init. by rewrite bool_decide_eq_false_2. Qed.

Lemma env_keywords_known env ma ra :
  dom (env_keywords env ma ra) ⊆ list_to_set fields.
Proof.
  apply (bool_decide_unpack _). by vm_compute.
Qed.

Lemma env_keywords_max_articles env ma ra :
  env_keywords env ma ra !! "max_articles" = Some ma.
Proof. reflexivity. Qed.

Lemma env_keywords_categories env ma ra :
  env_keywords env ma ra !! "news_categories" = None.
Proof. reflexivity. Qed.

Lemma field_max_articles : ("max_articles", Some (JInt 8)) ∈ field_defaults.
Proof. repeat first [apply list_elem_of_here | apply list_elem_of_further]. Qed.

Lemma field_news_categories : ("news_categories", None) ∈ field_defaults.
Proof. repeat first [apply list_elem_of_here | apply list_elem_of_further]. Qed.

Opaque field_defaults env_keywords.

Lemma merge_other fds : ∀ config file name,
  name ∉ fds.*1 → merge fds config file !! name = config !! name.
Proof.
  induction fds as [|[n0 d0] rest IH]; intros config file name Hout; [done|].
  apply not_elem_of_cons in Hout as [Hne Hout]. cbn [merge].
  destruct (equals_default _ _); rewrite IH by done; [|done].
  by rewrite lookup_insert_ne.
Qed.

Lemma merge_field fds : ∀ config file name dflt,
  NoDup fds.*1 → (name, dflt) ∈ fds →
  merge fds config file !! name =
    if equals_default (attr config name) dflt then Some (attr file name)
    else config !! name.
Proof.
  induction fds as [|[n0 d0] rest IH]; intros config file name dflt Hnd Hin.
  { by apply elem_of_nil in Hin. }
  apply NoDup_cons in Hnd as [Hn0 Hnd]. cbn [merge].
  apply elem_of_cons in Hin as [[= -> ->]|Hin].
  - destruct (equals_default _ _); rewrite merge_other by done; [|done].
    by rewrite lookup_insert_eq.
  - assert (name ≠ n0) as Hne.
    { intros ->. apply Hn0. apply list_elem_of_fmap. by exists (n0, dflt). }
    destruct (equals_default (attr config n0) d0).
    + rewrite (IH _ _ _ dflt) by done. unfold attr at 1.
      rewrite !lookup_insert_ne by done. done.
    + by rewrite (IH _ _ _ dflt).
Qed.


Lemma from_env_run env :
  from_env env =
    match getenv_int env "MAX_ARTICLES" 8, getenv_int env "RETRY_ATTEMPTS" 3 with
    | Done ma, Done ra => init (env_keywords env ma ra)
    | _, _ => Raised ValueError
    end.
Proof.
  unfold from_env, and_then, getenv_int.
  destruct (env !! "MAX_ARTICLES") as [t1|]; [destruct (int_of_str t1)|];
    (destruct (env !! "RETRY_ATTEMPTS") as [t2|]; [destruct (int_of_str t2)|]);
    reflexivity.
Qed.

Lemma from_env_inv env e :
  from_env env = Done e →
  ∃ ma ra, getenv_int env "MAX_ARTICLES" 8 = Done ma ∧
           getenv_int env "RETRY_ATTEMPTS" 3 = Done ra ∧
           init (env_keywords env ma ra) = Done e.
Proof.
  intros H. rewrite from_env_run in H.
  destruct (getenv_int env "MAX_ARTICLES" 8) as [ma|]; [|discriminate H].
  destruct (getenv_int env "RETRY_ATTEMPTS" 3) as [ra|]; [|discriminate H].
  exists ma, ra. split; [reflexivity|]. split; [reflexivity|]. exact H.
Qed.

Lemma getenv_int_raises env name n exc :
  getenv_int env name n = Raised exc ↔
  exc = ValueError ∧ ∃ text, env !! name = Some text ∧ int_of_str text = None.
Proof.
  unfold getenv_int. destruct (env !! name) as [text|].
  - destruct (int_of_str text) eqn:Hint.
    + split; [done|]. intros (_ & t & [= <-] & Hn). congruence.
    + split; [intros [= <-]; eauto|]. by intros [-> _].
  - split; [done|]. by intros (_ & t & ? & _).
Qed.

Lemma from_env_raises env exc :
  from_env env = Raised exc ↔
  exc = ValueError ∧
  ((∃ text, env !! "MAX_ARTICLES" = Some text ∧ int_of_str text = None) ∨
   (∃ text, env !! "RETRY_ATTEMPTS" = Some text ∧ int_of_str text = None)).
Proof.
  rewrite from_env_run.
  pose proof (getenv_int_raises env "MAX_ARTICLES" 8) as H1.
  pose proof (getenv_int_raises env "RETRY_ATTEMPTS" 3) as H2.
  destruct (getenv_int env "MAX_ARTICLES" 8) as [ma|e1].
  - destruct (getenv_int env "RETRY_ATTEMPTS" 3) as [ra|e2].
    + destruct (init_known _ (env_keywords_known env ma ra)) as (m & Hm).
      rewrite Hm.
      split; [discriminate|]. intros (_ & [Hbad|Hbad]).
      * discriminate (proj2 (H1 ValueError) (conj eq_refl Hbad)).
      * discriminate (proj2 (H2 ValueError) (conj eq_refl Hbad)).
    + destruct (proj1 (H2 e2) eq_refl) as (-> & Hbad).
      split; [intros [= <-]; split; [reflexivity|by right]|]. by intros [-> _].
  - destruct (proj1 (H1 e1) eq_refl) as (-> & Hbad).
    split; [intros [= <-]; split; [reflexivity|by left]|]. by intros [-> _].
Qed.

Lemma load_config_run env file :
  load_config env file =
    match from_env env with
    | Done e =>
        match file with
        | Some (JDict kw) =>
            match init kw with
            | Done f => Done (merge field_defaults e f)
            | Raised _ => Done e
            end
        | _ => Done e
        end
    | Raised exc => Raised exc
    end.
Proof.
  unfold load_config, and_then. destruct (from_env env) as [e|]; [|reflexivity].
  destruct file as [[]|]; reflexivity.
Qed.

Lemma load_config_attr env kw e m name dflt :
  from_env env = Done e →
  dom kw ⊆ list_to_set fields →
  load_config env (Some (JDict kw)) = Done m →
  (name, dflt) ∈ field_defaults →
  attr m name =
    if equals_default (attr e name) dflt
    then default (initial dflt) (kw !! name)
    else attr e name.
Proof.
  intros He Hdom Hload Hin. rewrite load_config_run, He in Hload.
  destruct (init_known kw Hdom) as (f & Hf). rewrite Hf in Hload.
  injection Hload as <-. unfold attr at 1.
  rewrite (merge_field field_defaults _ _ _ dflt NoDup_fields Hin).
  destruct (equals_default _ _); [|reflexivity]. cbn [default].
  exact (init_attr _ _ _ _ Hf Hin).
Qed.

Lemma from_env_categories env e :
  from_env env = Done e →
  attr e "news_categories" = JList (map JStr default_categories).
Proof.
  intros He. destruct (from_env_inv env e He) as (ma & ra & _ & _ & Hinit).
  rewrite (init_attr _ _ _ _ Hinit field_news_categories).
  rewrite env_keywords_categories. reflexivity.
Qed.

Lemma from_env_max_articles env e :
  from_env env = Done e →
  getenv_int env "MAX_ARTICLES" 8 = Done (attr e "max_articles").
Proof.
  intros He. destruct (from_env_inv env e He) as (ma & ra & Hma & _ & Hinit).
  rewrite (init_attr _ _ _ _ Hinit field_max_articles).
  rewrite env_keywords_max_articles. exact Hma.
Qed.

Lemma load_config_categories env file m :
  load_config env file = Done m →
  attr m "news_categories" = JList (map JStr default_categories).
Proof.
  rewrite load_config_run. destruct (from_env env) as [e|] eqn:He; [|discriminate].
  pose proof (from_env_categories env e He) as Hcat.
  assert (Done e = Done m → attr m "news_categories" = JList (map JStr default_categories))
    as Hsame by (intros [= <-]; exact Hcat).
  destruct file as [[| | | | | |kw]|]; try exact Hsame.
  destruct (init kw) as [f|]; [|exact Hsame].
  intros [= <-]. unfold attr at 1.
  rewrite (merge_field field_defaults _ _ _ None NoDup_fields field_news_categories).
  cbn [equals_default]. exact Hcat.
Qed.

Lemma load_config_unusable env file :
  match file with
  | Some (JDict kw) => ¬ dom kw ⊆ list_to_set fields
  | _ => True
  end →
  load_config env file = from_env env.
Proof.
  intros Hfile. rewrite load_config_run. destruct (from_env env) as [e|]; [|reflexivity].
  destruct file as [[| | | | | |kw]|]; try reflexivity.
  by rewrite (init_unknown kw Hfile).
Qed.

Lemma load_config_raises env file exc :
  load_config env file = Raised exc ↔ from_env env = Raised exc.
Proof.
  rewrite load_config_run. destruct (from_env env) as [e|]; [|reflexivity].
  destruct file as [[| | | | | |kw]|]; try (split; discriminate).
  destruct (init kw); split; discriminate.
Qed.

(** *** [validate] *)

Lemma outside_int n low high :
  outside (JInt n) low high = Done ((n <? low) || (high <? n)).
Proof.
  unfold outside, less_than, greater_than, and_then. by destruct (n <? low).
Qed.

Lemma append_if_nil {A} (b : bool) (errors : list A) (x : A) :
  (if b then errors ++ [x] else errors) = [] ↔ b = false ∧ errors = [].
Proof.
  destruct b; [|naive_solver]. split; [|by intros [? _]].
  intros H. by apply app_nil in H as [_ ?].
Qed.

Lemma validate_returns self n r :
  attr self "max_articles" = JInt n →
  attr self "retry_attempts" = JInt r →
  ∃ errors, validate self = Done errors.
Proof.
  intros Hn Hr. unfold validate. rewrite Hn, Hr, !outside_int.
  cbn [and_then]. eexists. reflexivity.
Qed.

Lemma validate_accepts_iff self n r :
  attr self "max_articles" = JInt n →
  attr self "retry_attempts" = JInt r →
  validate self = Done [] ↔
    truthy (attr self "news_api_key") = true ∧
    (truthy (attr self "claude_api_key") = true ∨
     truthy (attr self "openai_api_key") = true) ∧
    (truthy (attr self "upload_to_github") = true →
     truthy (attr self "github_token") = true) ∧
    1 ≤ n ≤ 20 ∧ 1 ≤ r ≤ 10.
Proof.
  intros Hn Hr. unfold validate. rewrite Hn, Hr, !outside_int.
  cbn [and_then].
  assert (∀ errors : list string, Done errors = Done [] ↔ errors = [])
    as -> by (intros errors; split; congruence).
  rewrite !append_if_nil, !orb_false_iff, !Z.ltb_ge.
  destruct (truthy (attr self "news_api_key")),
           (truthy (attr self "claude_api_key")),
           (truthy (attr self "openai_api_key")),
           (truthy (attr self "upload_to_github")),
           (truthy (attr self "github_token"));
    cbn [negb andb]; intuition (try discriminate; try lia).
Qed.

Lemma validate_limits self n :
  attr self "max_articles" = JInt n →
  validate self = Done [] →
  truthy (attr self "news_api_key") = true ∧ 1 ≤ n ≤ 20.
Proof.
  intros Hn. unfold validate. rewrite Hn, outside_int. cbn [and_then].
  destruct (outside (attr self "retry_attempts") 1 10) as [bad|]; [|discriminate].
  cbn [and_then]. intros [= H]. revert H.
  rewrite !append_if_nil, !orb_false_iff, !Z.ltb_ge.
  intros (_ & Hrange & _ & _ & Hkey).
  destruct (truthy (attr self "news_api_key")); [|discriminate Hkey].
  split; [reflexivity|exact Hrange].
Qed.

Lemma validate_type_error self :
  match attr self "max_articles" with
  | JInt _ | JBool _ | JFloat _ => False
  | _ => True
  end →
  validate self = Raised TypeError.
Proof.
  intros Hv. unfold validate, outside, less_than, and_then.
  by destruct (attr self "max_articles").
Qed.

(** *** [to_dict] *)

Lemma to_dict_public c1 c2 :
  (∀ name, name ∉ ["news_api_key"; "claude_api_key"; "openai_api_key"; "github_token"] →
           attr c1 name = attr c2 name) →
  truthy (attr c1 "news_api_key") = truthy (attr c2 "news_api_key") →
  truthy (attr c1 "claude_api_key") = truthy (attr c2 "claude_api_key") →
  truthy (attr c1 "github_token") = truthy (attr c2 "github_token") →
  to_dict c1 = to_dict c2.
Proof.
  intros Hpub H1 H2 H3. unfold to_dict. rewrite H1, H2, H3.
  rewrite !(Hpub _); [reflexivity|..];
    apply (bool_decide_unpack _); by vm_compute.
Qed.

Lemma to_dict_unknown_key self : ¬ dom (to_dict self) ⊆ list_to_set fields.
Proof. apply (proj1 (bool_decide_eq_false _)). by vm_compute. Qed.

Lemma load_config_returns env file e :
  from_env env = Done e → ∃ m, load_config env file = Done m.
Proof.
  intros He. rewrite load_config_run, He.
  destruct file as [[| | | | | |kw]|]; try (eexists; reflexivity).
  destruct (init kw); eexists; reflexivity.
Qed.

Lemma from_env_returns env ma ra :
  getenv_int env "MAX_ARTICLES" 8 = Done ma →
  getenv_int env "RETRY_ATTEMPTS" 3 = Done ra →
  ∃ e, from_env env = Done e.
Proof.
  intros Hma Hra. rewrite from_env_run, Hma, Hra.
  exact (init_known _ (env_keywords_known env ma ra)).
Qed.

Lemma fetcher_view_inv self config :
  fetcher_view self = Some config →
  attr self "max_articles" = JInt (max_articles config) ∧
  (∀ k, news_api_key config = Some k ↔ attr self "news_api_key" = JStr k) ∧
  (news_api_key config = None ↔ attr self "news_api_key" = JNull).
Proof.
  unfold fetcher_view.
  destruct (attr self "max_articles"); try discriminate.
  destruct (attr self "mock_mode"); try discriminate.
  destruct (attr self "news_categories") as [| | | | |cats|]; try discriminate.
  destruct (attr self "news_api_key"); try discriminate;
    (destruct (strings_of cats); [|discriminate]); intros [= <-];
    cbn [max_articles news_api_key]; (split; [reflexivity|]);
    (split; [intros k|]); split; congruence.
Qed.

Lemma load_config_max_articles env kw m :
  dom kw ⊆ list_to_set fields →
  load_config env (Some (JDict kw)) = Done m →
  (env !! "MAX_ARTICLES" = None →
   attr m "max_articles" = default (JInt 8) (kw !! "max_articles")) ∧
  (∀ text z, env !! "MAX_ARTICLES" = Some text → int_of_str text = Some z →
   attr m "max_articles" =
     if z =? 8 then default (JInt 8) (kw !! "max_articles") else JInt z).
Proof.
  intros Hdom Hload.
  destruct (from_env env) as [e|exc] eqn:He.
  - pose proof (load_config_attr env kw e m "max_articles" (Some (JInt 8))
                  He Hdom Hload field_max_articles) as Hattr.
    pose proof (from_env_max_articles env e He) as Hma.
    unfold getenv_int in Hma. split.
    + intros Hnone. rewrite Hnone in Hma. injection Hma as Hma.
      rewrite <- Hma in Hattr. exact Hattr.
    + intros text z Htext Hz. rewrite Htext, Hz in Hma. injection Hma as Hma.
      rewrite <- Hma in Hattr. exact Hattr.
  - apply (proj2 (load_config_raises env (Some (JDict kw)) exc)) in He.
    rewrite He in Hload. discriminate Hload.
Qed.

End ConfigFacts.

Section EntryFacts.
Context {py : PyLib} {wd : World}.

Lemma daily_articles_run config s :
  result_of (daily_articles config) s =
    match result_of (fetch_trending_news config) s with
    | Ok [] =>
        result_of (generate_mock_articles (set_mock_mode config) "global-news" 3)
                  (state_of (fetch_trending_news config) s)
    | Ok (a :: l) => Ok (a :: l)
    | Err e => Err e
    end.
Proof.
  unfold daily_articles, result_of, state_of, bind.
  destruct (fetch_trending_news config s) as [[[[|a l]|e] s1] ev]; cbn [fst snd].
  - by destruct (generate_mock_articles _ _ _ s1) as [[r s2] ev2].
  - reflexivity.
  - reflexivity.
Qed.

Lemma manual_articles_run config s :
  result_of (manual_articles config) s =
    match result_of (fetch_trending_news config) s with
    | Ok [] =>
        if mock_mode config then
          match result_of (generate_mock_articles config "breaking-news" 3)
                          (state_of (fetch_trending_news config) s) with
          | Ok [] => Ok None
          | Ok (a :: l) => Ok (Some (a :: l))
          | Err e => Err e
          end
        else Ok None
    | Ok (a :: l) => Ok (Some (a :: l))
    | Err e => Err e
    end.
Proof.
  unfold manual_articles, result_of, state_of, bind.
  destruct (fetch_trending_news config s) as [[[[|a l]|e] s1] ev]; cbn [fst snd].
  - destruct (mock_mode config); [|reflexivity].
    by destruct (generate_mock_articles _ _ _ s1) as [[[[|b l2]|e] s2] ev2].
  - reflexivity.
  - reflexivity.
Qed.

Lemma three_mock_articles config topic s :
  mock_mode config = true →
  ∃ mock,
    result_of (generate_mock_articles config topic 3) s = Ok mock ∧
    length mock = 3%nat ∧
    Forall (λ article, category article = JStr topic) mock ∧
    Forall has_text mock.
Proof.
  intros Hm.
  destruct (generate_mock_run config topic 3 s Hm)
    as (mock & s1 & Hrun & Hfrom & Hcat & Htext).
  exists mock. unfold result_of. rewrite Hrun.
  split; [reflexivity|]. split; [|by split].
  apply Forall2_length in Hfrom. by rewrite <- Hfrom.
Qed.

End EntryFacts.

(** X19. [load_config] raises only [ValueError], and exactly when
    [MAX_ARTICLES] or [RETRY_ATTEMPTS] is set in the environment to a text
    that [int] rejects: nothing in config.json makes it raise.  When the
    file is absent or unreadable, is not an object, or has a key that is no
    field of the class, the result is the configuration of the environment
    alone. *)
Theorem load_config_exceptions {py : PyLib} {pi : PyInt}
    (env : gmap string string) (file : option jval) :
  (∀ exc, Config.load_config env file = Config.Raised exc ↔
     exc = Config.ValueError ∧
     ((∃ text, env !! "MAX_ARTICLES" = Some text ∧ int_of_str text = None) ∨
      (∃ text, env !! "RETRY_ATTEMPTS" = Some text ∧ int_of_str text = None))) ∧
  (match file with
   | Some (JDict kw) => ¬ dom kw ⊆ list_to_set Config.fields
   | _ => True
   end →
   Config.load_config env file = Config.from_env env).
Proof.
  split.
  - intros exc. rewrite load_config_raises. apply from_env_raises.
  - apply load_config_unusable.
Qed.

(** X20. The [news_categories] of the configuration that [load_config]
    returns are always the default list of the class: a list given in
    config.json is never used (the field has a [default_factory], its
    [field_def.default] is [MISSING], and the test
    [env_value == field_def.default] fails for it). *)
Theorem file_categories_ignored {py : PyLib} {pi : PyInt}
    (env : gmap string string) (file : option jval) (m : gmap string jval) :
  Config.load_config env file = Config.Done m →
  Config.attr m "news_categories" = JList (map JStr Config.default_categories).
Proof. apply load_config_categories. Qed.

Lemma file_categories_ignored_witness :
  ∃ m,
    @Config.load_config Script.py AsciiInt.py_int ∅
      (Some (JDict {[ "news_categories" := JList [JStr "sports"] ]}))
    = Config.Done m ∧
    Config.attr m "news_categories" = JList (map JStr Config.default_categories).
Proof.
  destruct (@from_env_returns Script.py AsciiInt.py_int ∅ (JInt 8) (JInt 3))
    as (e & He); [reflexivity..|].
  destruct (@load_config_returns Script.py AsciiInt.py_int ∅
              (Some (JDict {[ "news_categories" := JList [JStr "sports"] ]})) e He)
    as (m & Hm).
  exists m. split; [exact Hm|].
  exact (@file_categories_ignored Script.py AsciiInt.py_int _ _ _ Hm).
Defined.

(** X21. The merge of [load_config], for a config.json whose keys are all
    fields of the class: a field of the result holds the value of the
    environment exactly when that value differs from the default of the
    class; otherwise it holds the value of the file, or the default when
    the file has no such key. *)
Theorem load_config_priority {py : PyLib} {pi : PyInt}
    (env : gmap string string) (kw m : gmap string jval)
    (name : string) (dflt : option jval) :
  dom kw ⊆ list_to_set Config.fields →
  Config.load_config env (Some (JDict kw)) = Config.Done m →
  (name, dflt) ∈ Config.field_defaults →
  ∃ e, Config.from_env env = Config.Done e ∧
       Config.attr m name =
         if Config.equals_default (Config.attr e name) dflt
         then default (Config.initial dflt) (kw !! name)
         else Config.attr e name.
Proof.
  intros Hdom Hload Hin.
  destruct (Config.from_env env) as [e|exc] eqn:He.
  - exists e. split; [reflexivity|].
    exact (load_config_attr env kw e m name dflt He Hdom Hload Hin).
  - apply (proj2 (load_config_raises env (Some (JDict kw)) exc)) in He.
    rewrite He in Hload. discriminate Hload.
Qed.

Lemma load_config_priority_witness :
  ∃ m e,
    @Config.load_config Script.py AsciiInt.py_int ∅
      (Some (JDict {[ "blog_description" := JStr "notes" ]})) = Config.Done m ∧
    @Config.from_env Script.py AsciiInt.py_int ∅ = Config.Done e ∧
    Config.attr m "blog_description" =
      if Config.equals_default (Config.attr e "blog_description")
           (Some (JStr "AI-powered daily analysis of global news and trends"))
      then default
             (Config.initial
                (Some (JStr "AI-powered daily analysis of global news and trends")))
             (({[ "blog_description" := JStr "notes" ]} : gmap string jval)
                !! "blog_description")
      else Config.attr e "blog_description".
Proof.
  destruct (@from_env_returns Script.py AsciiInt.py_int ∅ (JInt 8) (JInt 3))
    as (e0 & He0); [reflexivity..|].
  destruct (@load_config_returns Script.py AsciiInt.py_int ∅
              (Some (JDict {[ "blog_description" := JStr "notes" ]})) e0 He0)
    as (m & Hm).
  destruct (@load_config_priority Script.py AsciiInt.py_int ∅
              {[ "blog_description" := JStr "notes" ]} m "blog_description"
              (Some (JStr "AI-powered daily analysis of global news and trends")))
    as (e & He & Hattr).
  - apply (bool_decide_unpack _). vm_compute. reflexivity.
  - exact Hm.
  - repeat first [apply list_elem_of_here | apply list_elem_of_further].
  - exists m, e. split; [exact Hm|]. split; [exact He|exact Hattr].
Defined.

(** X22. [max_articles] after [load_config] with such a file: without
    [MAX_ARTICLES] in the environment it is the value of the file (8 when
    the file has none); with [MAX_ARTICLES] set to a number other than 8 it
    is that number; and [MAX_ARTICLES] set to 8, the default, does not
    override the file. *)
Theorem max_articles_from_file {py : PyLib} {pi : PyInt}
    (env : gmap string string) (kw m : gmap string jval) :
  dom kw ⊆ list_to_set Config.fields →
  Config.load_config env (Some (JDict kw)) = Config.Done m →
  (env !! "MAX_ARTICLES" = None →
   Config.attr m "max_articles" = default (JInt 8) (kw !! "max_articles")) ∧
  (∀ text z, env !! "MAX_ARTICLES" = Some text → int_of_str text = Some z →
   Config.attr m "max_articles" =
     if z =? 8 then default (JInt 8) (kw !! "max_articles") else JInt z).
Proof. apply load_config_max_articles. Qed.

Lemma max_articles_from_file_witness :
  ∃ m,
    @Config.load_config Script.py AsciiInt.py_int {[ "MAX_ARTICLES" := "8" ]}
      (Some (JDict {[ "max_articles" := JInt 5 ]})) = Config.Done m ∧
    Config.attr m "max_articles" = JInt 5.
Proof.
  destruct (@from_env_returns Script.py AsciiInt.py_int
              {[ "MAX_ARTICLES" := "8" ]} (JInt 8) (JInt 3))
    as (e & He); [reflexivity..|].
  destruct (@load_config_returns Script.py AsciiInt.py_int {[ "MAX_ARTICLES" := "8" ]}
              (Some (JDict {[ "max_articles" := JInt 5 ]})) e He) as (m & Hm).
  exists m. split; [exact Hm|].
  refine (proj2 (@max_articles_from_file Script.py AsciiInt.py_int
                   {[ "MAX_ARTICLES" := "8" ]} {[ "max_articles" := JInt 5 ]} m
                   _ Hm) "8" 8 _ _).
  - apply (bool_decide_unpack _). vm_compute. reflexivity.
  - reflexivity.
  - reflexivity.
Defined.

(** X23. [validate] on a configuration whose [max_articles] and
    [retry_attempts] are integers returns a list of errors, and the list is
    empty exactly when the news key is set, one of the two AI keys is set,
    the GitHub token is set if [upload_to_github] is on, [max_articles] is
    between 1 and 20 and [retry_attempts] between 1 and 10. *)
Theorem validate_accepts {py : PyLib} (self : gmap string jval) (n r : Z) :
  Config.attr self "max_articles" = JInt n →
  Config.attr self "retry_attempts" = JInt r →
  (∃ errors, Config.validate self = Config.Done errors) ∧
  (Config.validate self = Config.Done [] ↔
     truthy (Config.attr self "news_api_key") = true ∧
     (truthy (Config.attr self "claude_api_key") = true ∨
      truthy (Config.attr self "openai_api_key") = true) ∧
     (truthy (Config.attr self "upload_to_github") = true →
      truthy (Config.attr self "github_token") = true) ∧
     1 ≤ n ≤ 20 ∧ 1 ≤ r ≤ 10).
Proof.
  intros Hn Hr. split.
  - exact (validate_returns self n r Hn Hr).
  - exact (validate_accepts_iff self n r Hn Hr).
Qed.

Lemma validate_accepts_witness :
  ∃ self,
    @Config.init Script.py
      {[ "news_api_key" := JStr "k"; "openai_api_key" := JStr "o";
         "github_token" := JStr "t"; "max_articles" := JInt 20;
         "retry_attempts" := JInt 1 ]} = Config.Done self ∧
    Config.validate self = Config.Done [].
Proof.
  eexists. split; [reflexivity|].
  refine (proj2 (proj2 (@validate_accepts Script.py _ 20 1 _ _)) _).
  - reflexivity.
  - reflexivity.
  - split; [reflexivity|]. split; [right; reflexivity|].
    split; [intros _; reflexivity|]. lia.
Defined.

(** X24. A [max_articles] in config.json that is not a number (a string
    such as ["8"], [null], a list) is taken over as it is when
    [MAX_ARTICLES] is not set, and [validate] on the loaded configuration
    then raises [TypeError] instead of returning a list of errors. *)
Theorem file_limit_not_a_number {py : PyLib} {pi : PyInt}
    (env : gmap string string) (kw m : gmap string jval) (v : jval) :
  dom kw ⊆ list_to_set Config.fields →
  env !! "MAX_ARTICLES" = None →
  kw !! "max_articles" = Some v →
  match v with JInt _ | JBool _ | JFloat _ => False | _ => True end →
  Config.load_config env (Some (JDict kw)) = Config.Done m →
  Config.validate m = Config.Raised Config.TypeError.
Proof.
  intros Hdom Henv Hkw Hv Hload.
  apply validate_type_error.
  rewrite (proj1 (load_config_max_articles env kw m Hdom Hload) Henv).
  by rewrite Hkw.
Qed.

Lemma file_limit_not_a_number_witness :
  ∃ m,
    @Config.load_config Script.py AsciiInt.py_int ∅
      (Some (JDict {[ "max_articles" := JStr "8" ]})) = Config.Done m ∧
    Config.validate m = Config.Raised Config.TypeError.
Proof.
  destruct (@from_env_returns Script.py AsciiInt.py_int ∅ (JInt 8) (JInt 3))
    as (e & He); [reflexivity..|].
  destruct (@load_config_returns Script.py AsciiInt.py_int ∅
              (Some (JDict {[ "max_articles" := JStr "8" ]})) e He) as (m & Hm).
  exists m. split; [exact Hm|].
  refine (@file_limit_not_a_number Script.py AsciiInt.py_int ∅
            {[ "max_articles" := JStr "8" ]} m (JStr "8") _ _ _ _ Hm).
  - apply (bool_decide_unpack _). vm_compute. reflexivity.
  - reflexivity.
  - reflexivity.
  - exact I.
Defined.

(** X25. [to_dict] shows nothing of a key but whether it is set: two
    configurations that agree on every attribute other than the three API
    keys and the GitHub token, and on which of [news_api_key],
    [claude_api_key] and [github_token] are set, have the same [to_dict]
    (of [openai_api_key] it shows nothing at all). *)
Theorem to_dict_hides_keys {py : PyLib} (c1 c2 : gmap string jval) :
  (∀ name,
     name ∉ ["news_api_key"; "claude_api_key"; "openai_api_key"; "github_token"] →
     Config.attr c1 name = Config.attr c2 name) →
  truthy (Config.attr c1 "news_api_key") = truthy (Config.attr c2 "news_api_key") →
  truthy (Config.attr c1 "claude_api_key") = truthy (Config.attr c2 "claude_api_key") →
  truthy (Config.attr c1 "github_token") = truthy (Config.attr c2 "github_token") →
  Config.to_dict c1 = Config.to_dict c2.
Proof. apply to_dict_public. Qed.

Lemma to_dict_hides_keys_witness :
  ∃ self,
    @Config.init Script.py {[ "news_api_key" := JStr "first" ]} = Config.Done self ∧
    Config.to_dict
      (<["news_api_key" := JStr "second"]> (<["openai_api_key" := JStr "o"]> self))
    = Config.to_dict self.
Proof.
  eexists. split; [reflexivity|].
  apply (@to_dict_hides_keys Script.py).
  - intros name Hname. unfold Config.attr.
    apply not_elem_of_cons in Hname as [Hnews Hname].
    apply not_elem_of_cons in Hname as [_ Hname].
    apply not_elem_of_cons in Hname as [Hopenai _].
    rewrite (lookup_insert_ne _ "news_api_key") by congruence.
    rewrite (lookup_insert_ne _ "openai_api_key") by congruence. reflexivity.
  - reflexivity.
  - reflexivity.
  - reflexivity.
Defined.

(** X26. A configuration that [validate] accepts, given to a
    [NewsFetcher]: the fetcher has an API key, [max_articles] is between 1
    and 20, and [fetch_trending_news] returns at most [max_articles]
    articles, so at most 20. *)
Theorem validated_fetch_bounded {py : PyLib} {wd : World}
    (self : gmap string jval) (config : NoobieConfig) (s : State)
    (articles : list NewsArticle) :
  Config.validate self = Config.Done [] →
  Config.fetcher_view self = Some config →
  result_of (fetch_trending_news config) s = Ok articles →
  has_api_key config = true ∧
  1 ≤ max_articles config ≤ 20 ∧
  Z.of_nat (length articles) ≤ max_articles config ∧
  (length articles ≤ 20)%nat.
Proof.
  intros Hval Hview Hrun.
  destruct (fetcher_view_inv self config Hview) as (Hmax & Hsome & Hnone).
  destruct (validate_limits self _ Hmax Hval) as (Hkey & Hrange).
  assert (has_api_key config = true) as Hhas.
  { unfold has_api_key. destruct (news_api_key config) as [k|].
    - rewrite (proj1 (Hsome k) eq_refl) in Hkey. exact Hkey.
    - rewrite (proj1 Hnone eq_refl) in Hkey. discriminate Hkey. }
  apply fetch_trending_news_inv in Hrun as (unique & _ & ->).
  pose proof (slice_to_length unique (max_articles config) ltac:(lia)).
  repeat split; try done; lia.
Qed.

Lemma validated_fetch_bounded_witness :
  ∃ self,
    @Config.init Script.py
      {[ "news_api_key" := JStr "k"; "claude_api_key" := JStr "c";
         "github_token" := JStr "t"; "max_articles" := JInt 1;
         "news_categories" := JList [JStr "markets"] ]} = Config.Done self ∧
    Config.fetcher_view self = Some (Script.config (Some "k") 1 false ["markets"]) ∧
    Z.of_nat (length [Script.fetched "markets" "alpha one" "d"]) ≤ 1.
Proof.
  eexists. split; [reflexivity|].
  match goal with |- Config.fetcher_view ?m = _ ∧ _ => set (self := m) end.
  split; [reflexivity|].
  refine (proj1 (proj2 (proj2
    (@validated_fetch_bounded Script.py Script.wd self
       (Script.config (Some "k") 1 false ["markets"])
       (Script.init [Script.body [Script.item "alpha one" "d";
                                  Script.item "" "no title";
                                  Script.item "beta two" "d"]] [])
       [Script.fetched "markets" "alpha one" "d"] _ _ _)))).
  - reflexivity.
  - reflexivity.
  - reflexivity.
Defined.

(** X27. The article stage of [daily_blog_generation] raises exactly when
    [fetch_trending_news] does, and the list it hands to the blog writer is
    never empty: it is the list [fetch_trending_news] returned or, when
    that was empty, three mock articles tagged ["global-news"], with
    non-empty titles and summaries, whatever [mock_mode] and
    [max_articles] were. *)
Theorem daily_articles_never_empty {py : PyLib} {wd : World}
    (config : NoobieConfig) (s : State) :
  (∀ e, result_of (daily_articles config) s = Err e ↔
        result_of (fetch_trending_news config) s = Err e) ∧
  (∀ articles, result_of (daily_articles config) s = Ok articles →
     articles ≠ [] ∧
     (result_of (fetch_trending_news config) s = Ok articles ∨
      result_of (fetch_trending_news config) s = Ok [] ∧
      length articles = 3%nat ∧
      Forall (λ article, category article = JStr "global-news") articles ∧
      Forall has_text articles)).
Proof.
  rewrite daily_articles_run.
  destruct (three_mock_articles (set_mock_mode config) "global-news"
              (state_of (fetch_trending_news config) s) eq_refl)
    as (mock & Hmock & Hlen & Hcat & Htext).
  destruct (result_of (fetch_trending_news config) s) as [[|a l]|e0].
  - rewrite Hmock. split; [intros e; split; discriminate|].
    intros articles [= <-]. split; [by destruct mock|]. right. by repeat split.
  - split; [intros e; split; discriminate|].
    intros articles [= <-]. split; [discriminate|]. by left.
  - split; [done|]. discriminate.
Qed.

(** X28. The article stage of [manual_blog_generation] answers "No
    articles found" exactly when [fetch_trending_news] returned the empty
    list and [mock_mode] is off; a list it passes on is never empty; and
    with [max_articles] set to 0 and [mock_mode] off it never passes on a
    list (the answer is "No articles found", or an exception). *)
Theorem manual_articles_answer {py : PyLib} {wd : World}
    (config : NoobieConfig) (s : State) :
  (result_of (manual_articles config) s = Ok None ↔
   result_of (fetch_trending_news config) s = Ok [] ∧ mock_mode config = false) ∧
  (∀ articles, result_of (manual_articles config) s = Ok (Some articles) →
     articles ≠ []) ∧
  (max_articles config = 0 → mock_mode config = false →
   result_of (manual_articles config) s = Ok None ∨
   ∃ e, result_of (manual_articles config) s = Err e).
Proof.
  rewrite manual_articles_run.
  pose proof (fetch_trending_news_inv config s) as Hinv.
  destruct (result_of (fetch_trending_news config) s) as [[|a l]|e0].
  - destruct (mock_mode config) eqn:Hm.
    + destruct (three_mock_articles config "breaking-news"
                  (state_of (fetch_trending_news config) s) Hm)
        as (mock & -> & Hlen & _).
      destruct mock as [|b mock]; [discriminate Hlen|].
      split; [split; [discriminate|by intros [_ ?]]|].
      split; [by intros articles [= <-]|]. discriminate.
    + split; [done|]. split; [discriminate|]. by left.
  - split; [split; [discriminate|by intros [? _]]|].
    split; [by intros articles [= <-]|].
    intros Hzero _. destruct (Hinv _ eq_refl) as (unique & _ & Hslice).
    rewrite Hzero in Hslice. discriminate Hslice.
  - split; [split; [discriminate|by intros [? _]]|].
    split; [discriminate|]. intros _ _. right. by exists e0.
Qed.

(** X29. A file written by [save_to_file] cannot be read back:
    [from_file] raises [TypeError] on it, whatever the configuration was
    (the document has the keys [has_news_api_key], [has_claude_api_key]
    and [has_github_token], which are no fields of the class), and
    [load_config] then ignores the file altogether. *)
Theorem saved_file_unusable {py : PyLib} {pi : PyInt}
    (self : gmap string jval) (env : gmap string string) :
  Config.from_file (Config.save_to_file self) = Config.Raised Config.TypeError ∧
  Config.load_config env (Some (Config.save_to_file self)) = Config.from_env env.
Proof.
  split.
  - apply init_unknown, to_dict_unknown_key.
  - apply (load_config_unusable env (Some (Config.save_to_file self))).
    apply to_dict_unknown_key.
Qed.
